(** * Book-review backend: authorization, counters and interaction services

    A shallow embedding of the Express/MySQL backend: the relational
    store is a record of row lists, a SQL statement is a function on the
    store (with the triggers of the schema, on a database that has them,
    run after the row change they are attached to), a route handler is a
    function from the request and
    the store to a response and a new store, and a middleware either
    answers or hands the (possibly extended) request to the next function
    of the chain. *)

From Stdlib Require Import ZArith List String Ascii Bool Lia.
From stdpp Require Import base gmap.
Import ListNotations.
Local Open Scope string_scope.
Local Open Scope Z_scope.

(** ** Persistent store (schema.sql, the second part of
       src/config-template.js) *)

Module Schema.

(* ENUM('user','admin'), ENUM('active','banned') *)
Inductive user_role := RoleUser | RoleAdmin.
Inductive user_status := Active | Banned.
(* ENUM('pending','approved','rejected','hidden') *)
Inductive review_status := Pending | Approved | Rejected | Hidden.
(* ENUM('approved','pending','rejected') *)
Inductive comment_status := CApproved | CPending | CRejected.

Definition role_eqb (a b : user_role) : bool :=
  match a, b with
  | RoleUser, RoleUser | RoleAdmin, RoleAdmin => true
  | _, _ => false
  end.

Definition user_status_eqb (a b : user_status) : bool :=
  match a, b with
  | Active, Active | Banned, Banned => true
  | _, _ => false
  end.

Definition review_status_eqb (a b : review_status) : bool :=
  match a, b with
  | Pending, Pending | Approved, Approved
  | Rejected, Rejected | Hidden, Hidden => true
  | _, _ => false
  end.

Definition comment_status_eqb (a b : comment_status) : bool :=
  match a, b with
  | CApproved, CApproved | CPending, CPending | CRejected, CRejected => true
  | _, _ => false
  end.

(* users.privacy_settings: the PUT /api/profile route only stores objects
   whose four fields are booleans. *)
Record privacy_map := mkPrivacy {
  pv_avatar : bool;
  pv_signature : bool;
  pv_stats : bool;
  pv_history : bool
}.

Record user_row := mkUser {
  u_id : Z;
  u_email : string;
  u_username : string;
  u_role : user_role;
  u_avatar_url : option string;
  u_bio : option string;
  u_signature : option string;
  u_privacy_settings : option privacy_map;   (* NULL or a stored map *)
  u_status : user_status;
  u_total_reviews : Z;
  u_total_likes_received : Z
}.

(* books.average_rating is DECIMAL(3,2); it is kept in hundredths. *)
Record book_row := mkBook {
  b_id : Z;
  b_title : string;
  b_author : string;
  b_total_reviews : Z;
  b_average_rating : Z
}.

Record review_row := mkReview {
  r_id : Z;
  r_user_id : Z;
  r_book_id : Z;
  r_title : string;
  r_content : string;
  r_rating : Z;
  r_status : review_status;
  r_views : Z;
  r_likes_count : Z;
  r_comments_count : Z
}.

(* A JavaScript string as its UTF-16 code units: what length counts and
   trim() looks at. *)
Definition js_string := list N.

(* review_likes and user_favorites: the id and created_at columns are
   never read by the routes modelled here. *)
Record like_row := mkLike { l_user_id : Z; l_review_id : Z }.
Record favorite_row := mkFavorite { f_user_id : Z; f_review_id : Z }.

Record comment_row := mkComment {
  c_id : Z;
  c_review_id : Z;
  c_user_id : Z;
  c_parent_id : option Z;
  c_content : js_string;
  c_status : comment_status
}.

Record log_row := mkLog {
  g_user_id : option Z;
  g_action : string;
  g_target_type : string;
  g_target_id : Z;
  g_ip_address : string;
  g_user_agent : string;
  g_created_at : Z          (* TIMESTAMP: whole seconds, written in milliseconds *)
}.

(* Tables are row lists in insertion order.  triggers tells whether the
   CREATE TRIGGER statements of schema.sql have been run on the database:
   the mysql client runs them, database/init.js does not (Install). *)
Record db := mkDb {
  users : list user_row;
  books : list book_row;
  reviews : list review_row;
  review_likes : list like_row;
  user_favorites : list favorite_row;
  review_comments : list comment_row;
  system_logs : list log_row;
  reviews_auto_increment : Z;
  comments_auto_increment : Z;
  triggers : bool
}.

Definition set_users (x : list user_row) (d : db) : db :=
  mkDb x (books d) (reviews d) (review_likes d) (user_favorites d)
       (review_comments d) (system_logs d)
       (reviews_auto_increment d) (comments_auto_increment d) (triggers d).

Definition set_books (x : list book_row) (d : db) : db :=
  mkDb (users d) x (reviews d) (review_likes d) (user_favorites d)
       (review_comments d) (system_logs d)
       (reviews_auto_increment d) (comments_auto_increment d) (triggers d).

Definition set_reviews (x : list review_row) (d : db) : db :=
  mkDb (users d) (books d) x (review_likes d) (user_favorites d)
       (review_comments d) (system_logs d)
       (reviews_auto_increment d) (comments_auto_increment d) (triggers d).

Definition set_review_likes (x : list like_row) (d : db) : db :=
  mkDb (users d) (books d) (reviews d) x (user_favorites d)
       (review_comments d) (system_logs d)
       (reviews_auto_increment d) (comments_auto_increment d) (triggers d).

Definition set_user_favorites (x : list favorite_row) (d : db) : db :=
  mkDb (users d) (books d) (reviews d) (review_likes d) x
       (review_comments d) (system_logs d)
       (reviews_auto_increment d) (comments_auto_increment d) (triggers d).

Definition set_review_comments (x : list comment_row) (d : db) : db :=
  mkDb (users d) (books d) (reviews d) (review_likes d) (user_favorites d)
       x (system_logs d)
       (reviews_auto_increment d) (comments_auto_increment d) (triggers d).

Definition set_system_logs (x : list log_row) (d : db) : db :=
  mkDb (users d) (books d) (reviews d) (review_likes d) (user_favorites d)
       (review_comments d) x
       (reviews_auto_increment d) (comments_auto_increment d) (triggers d).

Definition set_reviews_auto_increment (x : Z) (d : db) : db :=
  mkDb (users d) (books d) (reviews d) (review_likes d) (user_favorites d)
       (review_comments d) (system_logs d) x (comments_auto_increment d)
       (triggers d).

Definition set_comments_auto_increment (x : Z) (d : db) : db :=
  mkDb (users d) (books d) (reviews d) (review_likes d) (user_favorites d)
       (review_comments d) (system_logs d) (reviews_auto_increment d) x
       (triggers d).

(* Column updates of single rows. *)
Definition with_likes_count (n : Z) (r : review_row) : review_row :=
  mkReview (r_id r) (r_user_id r) (r_book_id r) (r_title r) (r_content r)
           (r_rating r) (r_status r) (r_views r) n (r_comments_count r).

Definition with_comments_count (n : Z) (r : review_row) : review_row :=
  mkReview (r_id r) (r_user_id r) (r_book_id r) (r_title r) (r_content r)
           (r_rating r) (r_status r) (r_views r) (r_likes_count r) n.

Definition with_views (n : Z) (r : review_row) : review_row :=
  mkReview (r_id r) (r_user_id r) (r_book_id r) (r_title r) (r_content r)
           (r_rating r) (r_status r) n (r_likes_count r) (r_comments_count r).

Definition with_status (s : review_status) (r : review_row) : review_row :=
  mkReview (r_id r) (r_user_id r) (r_book_id r) (r_title r) (r_content r)
           (r_rating r) s (r_views r) (r_likes_count r) (r_comments_count r).

Definition with_title (t : string) (r : review_row) : review_row :=
  mkReview (r_id r) (r_user_id r) (r_book_id r) t (r_content r)
           (r_rating r) (r_status r) (r_views r) (r_likes_count r)
           (r_comments_count r).

Definition with_content (t : string) (r : review_row) : review_row :=
  mkReview (r_id r) (r_user_id r) (r_book_id r) (r_title r) t
           (r_rating r) (r_status r) (r_views r) (r_likes_count r)
           (r_comments_count r).

Definition with_rating (n : Z) (r : review_row) : review_row :=
  mkReview (r_id r) (r_user_id r) (r_book_id r) (r_title r) (r_content r)
           n (r_status r) (r_views r) (r_likes_count r) (r_comments_count r).

Definition with_total_likes_received (n : Z) (u : user_row) : user_row :=
  mkUser (u_id u) (u_email u) (u_username u) (u_role u) (u_avatar_url u)
         (u_bio u) (u_signature u) (u_privacy_settings u) (u_status u)
         (u_total_reviews u) n.

Definition with_total_reviews (n : Z) (u : user_row) : user_row :=
  mkUser (u_id u) (u_email u) (u_username u) (u_role u) (u_avatar_url u)
         (u_bio u) (u_signature u) (u_privacy_settings u) (u_status u)
         n (u_total_likes_received u).

Definition with_book_stats (total avg : Z) (b : book_row) : book_row :=
  mkBook (b_id b) (b_title b) (b_author b) total avg.

(* SELECT ... WHERE id = ? : the rows of a table with a given key. *)
Definition users_by_id (d : db) (uid : Z) : list user_row :=
  List.filter (fun u => u_id u =? uid) (users d).

Definition books_by_id (d : db) (bid : Z) : list book_row :=
  List.filter (fun b => b_id b =? bid) (books d).

Definition reviews_by_id (d : db) (rid : Z) : list review_row :=
  List.filter (fun r => r_id r =? rid) (reviews d).

Definition comments_by_id (d : db) (cid : Z) : list comment_row :=
  List.filter (fun c => c_id c =? cid) (review_comments d).

Definition is_like_of (uid rid : Z) (l : like_row) : bool :=
  (l_user_id l =? uid) && (l_review_id l =? rid).

Definition is_favorite_of (uid rid : Z) (f : favorite_row) : bool :=
  (f_user_id f =? uid) && (f_review_id f =? rid).

(* COUNT( * ) FROM review_likes WHERE review_id = ? *)
Definition count_likes (d : db) (rid : Z) : Z :=
  Z.of_nat (length (List.filter (fun l => l_review_id l =? rid) (review_likes d))).

Definition opt_Z_eqb (o : option Z) (x : Z) : bool :=
  match o with
  | Some y => y =? x
  | None => false
  end.

End Schema.

Export Schema.

(** ** SQL statements and the triggers of schema.sql *)

Module Sql.

Definition user_exists (d : db) (uid : Z) : bool :=
  existsb (fun u => u_id u =? uid) (users d).

Definition book_exists (d : db) (bid : Z) : bool :=
  existsb (fun b => b_id b =? bid) (books d).

Definition review_exists (d : db) (rid : Z) : bool :=
  existsb (fun r => r_id r =? rid) (reviews d).

Definition comment_exists (d : db) (cid : Z) : bool :=
  existsb (fun c => c_id c =? cid) (review_comments d).

(* (SELECT user_id FROM reviews WHERE id = ?) as a scalar subquery *)
Definition review_author (d : db) (rid : Z) : option Z :=
  match reviews_by_id d rid with
  | r :: _ => Some (r_user_id r)
  | [] => None
  end.

(* UPDATE reviews SET likes_count = likes_count + delta WHERE id = ? *)
Definition add_likes_count (delta rid : Z) (d : db) : db :=
  set_reviews
    (map (fun r => if r_id r =? rid
                   then with_likes_count (r_likes_count r + delta) r
                   else r) (reviews d)) d.

(* UPDATE users SET total_likes_received = total_likes_received + delta
   WHERE id = (scalar subquery) *)
Definition add_total_likes_received (delta : Z) (author : option Z) (d : db) : db :=
  set_users
    (map (fun u => if opt_Z_eqb author (u_id u)
                   then with_total_likes_received (u_total_likes_received u + delta) u
                   else u) (users d)) d.

(* A trigger of schema.sql runs after its statement on a database that
   has the triggers, and not at all on one that has not. *)
Definition fire (trigger : db -> db) (d : db) : db :=
  if triggers d then trigger d else d.

(* TRIGGER update_review_likes_count AFTER INSERT ON review_likes *)
Definition update_review_likes_count (new_review_id : Z) (d : db) : db :=
  let d1 := add_likes_count 1 new_review_id d in
  add_total_likes_received 1 (review_author d1 new_review_id) d1.

(* TRIGGER update_review_likes_count_delete AFTER DELETE ON review_likes *)
Definition update_review_likes_count_delete (old_review_id : Z) (d : db) : db :=
  let d1 := add_likes_count (-1) old_review_id d in
  add_total_likes_received (-1) (review_author d1 old_review_id) d1.

(* INSERT INTO review_likes (user_id, review_id) VALUES (?, ?)
   None: the statement is refused (UNIQUE KEY unique_like or a foreign
   key), nothing is written and no trigger runs. *)
Definition insert_review_like (uid rid : Z) (d : db) : option db :=
  if existsb (is_like_of uid rid) (review_likes d) then None
  else if negb (user_exists d uid) then None
  else if negb (review_exists d rid) then None
  else Some (fire (update_review_likes_count rid)
                  (set_review_likes (review_likes d ++ [mkLike uid rid]) d)).

(* DELETE FROM review_likes WHERE user_id = ? AND review_id = ?
   The delete trigger, where installed, runs once for each row removed. *)
Definition delete_review_likes (uid rid : Z) (d : db) : db :=
  let gone := List.filter (is_like_of uid rid) (review_likes d) in
  let kept := List.filter (fun l => negb (is_like_of uid rid l)) (review_likes d) in
  fold_left (fun acc l => fire (update_review_likes_count_delete (l_review_id l)) acc)
            gone (set_review_likes kept d).

(* INSERT INTO user_favorites (user_id, review_id) VALUES (?, ?)
   (UNIQUE KEY unique_favorite, two foreign keys, no trigger) *)
Definition insert_user_favorite (uid rid : Z) (d : db) : option db :=
  if existsb (is_favorite_of uid rid) (user_favorites d) then None
  else if negb (user_exists d uid) then None
  else if negb (review_exists d rid) then None
  else Some (set_user_favorites (user_favorites d ++ [mkFavorite uid rid]) d).

(* DELETE FROM user_favorites WHERE user_id = ? AND review_id = ? *)
Definition delete_user_favorites (uid rid : Z) (d : db) : db :=
  set_user_favorites
    (List.filter (fun f => negb (is_favorite_of uid rid f)) (user_favorites d)) d.

(* Division rounded half up, for non-negative operands. *)
Definition round_div (a b : Z) : Z := (2 * a + b) / (2 * b).

(* AVG(rating) as the DECIMAL(3,2) column average_rating takes it: the
   quotient of sum and count, rounded half up to two decimals; the result
   is in hundredths.  None stands for the NULL of an empty selection. *)
Definition avg_rating (ratings : list Z) : option Z :=
  match ratings with
  | [] => None
  | _ => let sum := fold_right Z.add 0 ratings in
         Some (round_div (sum * 100) (Z.of_nat (length ratings)))
  end.

Definition approved_ratings (d : db) (bid : Z) : list Z :=
  map r_rating
      (List.filter (fun r => (r_book_id r =? bid)
                             && review_status_eqb (r_status r) Approved)
                   (reviews d)).

(* TRIGGER update_book_stats_insert AFTER INSERT ON reviews.
   The new row is 'approved', so the average is never NULL here. *)
Definition update_book_stats_insert (new_book_id new_user_id : Z) (d : db) : db :=
  let avg := match avg_rating (approved_ratings d new_book_id) with
             | Some a => a
             | None => 0
             end in
  let d1 := set_books
              (map (fun b => if b_id b =? new_book_id
                             then with_book_stats (b_total_reviews b + 1) avg b
                             else b) (books d)) d in
  set_users
    (map (fun u => if u_id u =? new_user_id
                   then with_total_reviews (u_total_reviews u + 1) u
                   else u) (users d1)) d1.

(* INSERT INTO reviews (user_id, book_id, title, content, rating, status)
   VALUES (?, ?, ?, ?, ?, 'approved'); the result is the new store and
   insertId.  views, likes_count and comments_count take DEFAULT 0;
   TRIGGER update_book_stats_insert, where installed, runs after it. *)
Definition insert_review (uid bid : Z) (title content : string) (rating : Z)
           (d : db) : option (db * Z) :=
  if negb (user_exists d uid) then None
  else if negb (book_exists d bid) then None
  else if review_exists d (reviews_auto_increment d) then None   (* PRIMARY KEY *)
  else
    let id := reviews_auto_increment d in
    let row := mkReview id uid bid title content rating Approved 0 0 0 in
    let d1 := set_reviews_auto_increment (id + 1)
                (set_reviews (reviews d ++ [row]) d) in
    Some (fire (update_book_stats_insert bid uid) d1, id).

(* UPDATE reviews SET status = "hidden" WHERE id = ? *)
Definition hide_review (rid : Z) (d : db) : db :=
  set_reviews
    (map (fun r => if r_id r =? rid then with_status Hidden r else r)
         (reviews d)) d.

(* UPDATE reviews SET views = views + 1 WHERE id = ? *)
Definition increment_views (rid : Z) (d : db) : db :=
  set_reviews
    (map (fun r => if r_id r =? rid then with_views (r_views r + 1) r else r)
         (reviews d)) d.

(* UPDATE reviews SET <fields> WHERE id = ? with the SET list built by
   PUT /api/reviews/:id: a column is assigned when its value is given. *)
Definition update_review_fields (title content : option string) (rating : option Z)
           (rid : Z) (d : db) : db :=
  let set_title r := match title with Some t => with_title t r | None => r end in
  let set_content r := match content with Some t => with_content t r | None => r end in
  let set_rating r := match rating with Some n => with_rating n r | None => r end in
  set_reviews
    (map (fun r => if r_id r =? rid
                   then set_rating (set_content (set_title r))
                   else r) (reviews d)) d.

(* UPDATE reviews SET comments_count = comments_count + delta WHERE id = ? *)
Definition add_comments_count (delta rid : Z) (d : db) : db :=
  set_reviews
    (map (fun r => if r_id r =? rid
                   then with_comments_count (r_comments_count r + delta) r
                   else r) (reviews d)) d.

(* The text a utf8mb4 column holds for a JavaScript string: the driver
   writes the string as UTF-8, in which a surrogate without its partner
   becomes U+FFFD. *)
Definition is_high_surrogate (c : N) : bool := ((55296 <=? c) && (c <=? 56319))%N.
Definition is_low_surrogate (c : N) : bool := ((56320 <=? c) && (c <=? 57343))%N.

Fixpoint utf8_stored (s : js_string) : js_string :=
  match s with
  | [] => []
  | c :: rest =>
      if is_high_surrogate c then
        match rest with
        | c' :: rest' =>
            if is_low_surrogate c' then c :: c' :: utf8_stored rest'
            else 65533%N :: utf8_stored rest
        | [] => [65533%N]
        end
      else if is_low_surrogate c then 65533%N :: utf8_stored rest
      else c :: utf8_stored rest
  end.

(* INSERT INTO review_comments (review_id, user_id[, parent_id], content)
   status takes DEFAULT 'approved'; TRIGGER update_comment_count_insert,
   where installed, runs after the insert. *)
Definition insert_review_comment (rid uid : Z) (parent : option Z) (content : js_string)
           (d : db) : option (db * Z) :=
  if negb (review_exists d rid) then None
  else if negb (user_exists d uid) then None
  else if match parent with
          | Some p => negb (comment_exists d p)
          | None => false
          end then None
  else if comment_exists d (comments_auto_increment d) then None   (* PRIMARY KEY *)
  else
    let id := comments_auto_increment d in
    let row := mkComment id rid uid parent (utf8_stored content) CApproved in
    let d1 := set_comments_auto_increment (id + 1)
                (set_review_comments (review_comments d ++ [row]) d) in
    Some (fire (add_comments_count 1 rid) d1, id).

(* DELETE FROM review_comments WHERE id = ?; TRIGGER
   update_comment_count_delete, where installed, runs for each row
   removed.  The route runs this statement only when no row has
   parent_id = id, so the cascade of the parent_id foreign key has nothing
   to remove. *)
Definition delete_review_comment (cid : Z) (d : db) : db :=
  let gone := comments_by_id d cid in
  let kept := List.filter (fun c => negb (c_id c =? cid)) (review_comments d) in
  fold_left (fun acc c => fire (add_comments_count (-1) (c_review_id c)) acc)
            gone (set_review_comments kept d).

(* CURRENT_TIMESTAMP in a TIMESTAMP column: the time of the statement
   without its fraction of a second.  Times are in milliseconds; the
   database and the server read one clock, and the session of the
   database is in the time zone the pool writes its dates in. *)
Definition whole_second (ms : Z) : Z := ms / 1000 * 1000.

(* INSERT INTO system_logs (user_id, action, target_type, target_id,
   ip_address, user_agent) VALUES (?, 'view_review', 'review', ?, ?, ?)
   created_at is not named and takes DEFAULT CURRENT_TIMESTAMP. *)
Definition insert_view_log (uid : option Z) (rid : Z) (ip agent : string)
           (now : Z) (d : db) : option db :=
  if match uid with
     | Some u => negb (user_exists d u)
     | None => false
     end then None
  else Some (set_system_logs
               (system_logs d
                ++ [mkLog uid "view_review" "review" rid ip agent (whole_second now)])
               d).

End Sql.

Export Sql.

(** ** Requests, responses and the authentication middleware
       (middleware/auth.js, the second part of
       src/backend/middleware/validate.js) *)

Module Http.

(* jwt.verify(token, process.env.JWT_SECRET): the userId of the decoded
   payload (generateToken puts users.id there), a payload without a
   userId, or the name of the error raised. *)
Inductive jwt_result :=
| JwtDecoded (userId : Z)
| JwtDecodedWithoutUserId
| TokenExpiredError
| JsonWebTokenError
| NotBeforeError.

(* req.user as the two middlewares build it. *)
Record req_user := mkReqUser {
  userId : Z;
  email : string;
  username : string;
  role : user_role;
  avatar_url : option string
}.

Inductive js_value :=
| JsUndefined
| JsNull
| JsNumber (n : Z)
| JsString (s : string).

Definition role_name (r : user_role) : string :=
  match r with
  | RoleUser => "user"
  | RoleAdmin => "admin"
  end.

(* u[name] for an object with exactly the five properties above. *)
Definition get_prop (u : req_user) (name : string) : js_value :=
  if String.eqb name "userId" then JsNumber (userId u)
  else if String.eqb name "email" then JsString (email u)
  else if String.eqb name "username" then JsString (username u)
  else if String.eqb name "role" then JsString (role_name (role u))
  else if String.eqb name "avatar_url" then
    match avatar_url u with
    | Some a => JsString a
    | None => JsNull
    end
  else JsUndefined.

(* A path segment of the URL: a decimal numeral or any other text. *)
Inductive segment :=
| SInt (n : Z)
| SWord (w : string).

(* The integer a textual parameter stands for when it is compared with an
   INT column: a numeral is its value, other text compares as 0. *)
Definition id_of_segment (s : segment) : Z :=
  match s with
  | SInt n => n
  | SWord _ => 0
  end.

(* x == s for a route parameter s (a string): undefined and null are equal
   to no string, a number is compared with the numeric value of s, which
   is NaN unless s is a numeral. *)
Definition loose_eq_param (x : js_value) (s : segment) : bool :=
  match x, s with
  | JsNumber n, SInt m => n =? m
  | _, _ => false
  end.

Record request := mkRequest {
  authorization : option string;   (* req.headers.authorization *)
  user : option req_user;          (* req.user, unset until a middleware sets it *)
  ip : string;                     (* req.ip || req.connection.remoteAddress *)
  user_agent : option string       (* req.get('User-Agent') *)
}.

Definition set_user (u : option req_user) (req : request) : request :=
  mkRequest (authorization req) u (ip req) (user_agent req).

(* The message property of a response, one constructor for each text. *)
Inductive msg :=
| MsgLoginRequired          (* auth.js: NO_TOKEN *)
| MsgInvalidToken           (* auth.js: INVALID_TOKEN *)
| MsgTokenExpired           (* auth.js: TOKEN_EXPIRED *)
| MsgMalformedToken         (* auth.js: MALFORMED_TOKEN *)
| MsgUserNotFound           (* auth.js: USER_NOT_FOUND *)
| MsgAccountDisabled        (* auth.js: ACCOUNT_DISABLED *)
| MsgAuthFailed             (* auth.js: AUTH_ERROR *)
| MsgServerError            (* the catch blocks of the routes *)
| MsgReviewMissingOrUnapproved  (* likes.js:37, profile.js:871 *)
| MsgAlreadyLiked           (* likes.js:50 *)
| MsgOwnReviewLike          (* likes.js:58 *)
| MsgLiked                  (* likes.js:76 *)
| MsgNotLiked               (* likes.js:113 *)
| MsgUnliked                (* likes.js:131 *)
| MsgReviewMissing          (* likes.js:167, reviews.js:392, part_002:57 *)
| MsgIdListRequired         (* likes.js:357 *)
| MsgAtMostFifty            (* likes.js:365 *)
| MsgAlreadyFavorited       (* profile.js:884, favorites router *)
| MsgFavorited              (* profile.js:904, favorites router *)
| MsgRequiredFields         (* reviews.js:34 *)
| MsgRatingRange            (* reviews.js:42, 422 *)
| MsgBookMissing            (* reviews.js:51 *)
| MsgAlreadyReviewed        (* reviews.js:64 *)
| MsgReviewCreated          (* reviews.js:87 *)
| MsgViewCounted            (* reviews.js:358, counted *)
| MsgViewAlreadyCounted     (* reviews.js:358, not counted *)
| MsgViewRecordFailed       (* reviews.js:369 *)
| MsgNoUpdatePermission     (* reviews.js:402 *)
| MsgNothingToUpdate        (* reviews.js:432 *)
| MsgReviewUpdated          (* reviews.js:457 *)
| MsgNoDeletePermission     (* reviews.js:497 *)
| MsgReviewDeleted          (* reviews.js:506 *)
| MsgCommentEmpty           (* part_002:37, 619: empty content *)
| MsgCommentTooLong         (* part_002:44, 626: over 1000 characters *)
| MsgReviewNotApproved      (* part_002:65, 650 *)
| MsgCommentCreated         (* part_002:86 *)
| MsgCommentMissing         (* part_002:424 *)
| MsgOwnCommentsOnly        (* part_002:434 *)
| MsgHasReplies             (* part_002:447 *)
| MsgCommentDeleted         (* part_002:459 *)
| MsgParentMissing          (* part_002:642 *)
| MsgReplyCreated           (* part_002:671 *)
| MsgProfileUserMissing     (* profile.js:298 *)
| MsgNone.                  (* no message property *)

(* One entry of data.reviews in the batch like-status answer. *)
Record batch_entry := mkBatchEntry {
  be_review_id : Z;
  be_title : string;
  be_likes_count : Z;
  be_is_liked : bool
}.

Record stats_block := mkStats {
  reviews_count : Z;
  likes_received : Z;
  favorites_count : Z;
  favorites_received : Z;
  comments_count : Z
}.

(* The three lists of the history block; each row is named by its id. *)
Record history_block := mkHistory {
  h_reviews : list Z;
  h_favorites : list Z;
  h_comments : list Z
}.

Record profile_view := mkProfileView {
  pf_id : Z;
  pf_username : string;
  pf_avatar_url : option string;
  pf_bio : option string;
  pf_signature : option string;
  pf_privacy_settings : option privacy_map;
  pf_stats : option stats_block;
  pf_history : option history_block;
  pf_is_own_profile : option bool    (* None is the JSON null *)
}.

(* The data property of a response. *)
Inductive payload :=
| NoData
| LikeData (review_id likes_count : Z) (is_liked : bool)
| LikeStatusData (review_id : Z) (title : string) (likes_count : Z) (is_liked : bool)
| BatchData (entries : list batch_entry)
| FavoriteData (review_id : Z) (title : string) (is_favorited : bool)
| ReviewData (review : option review_row)
| ViewData (views : Z) (counted : bool)
| CommentData (comment : option comment_row)
| RepliesCountData (replies_count : Z)
| ProfileData (p : profile_view).

Record response := mkResponse {
  status : Z;
  success : bool;
  message : msg;
  code : option string;
  data : payload
}.

Definition handler := request -> db -> response * db.

(* What a middleware does with a request: answer, or call next(). *)
Inductive outcome :=
| Next (req : request)
| Respond (r : response).

Definition middleware := db -> request -> outcome.

(* router.METHOD(path, mw, h): h runs only if mw calls next(); the
   middlewares here only read the store. *)
Definition guard (mw : middleware) (h : handler) : handler :=
  fun req d =>
    match mw d req with
    | Respond r => (r, d)
    | Next req' => h req' d
    end.

(* s.split(' ') *)
Fixpoint split_space (s : string) : list string :=
  match s with
  | EmptyString => [EmptyString]
  | String c rest =>
      if Ascii.eqb c " "%char then EmptyString :: split_space rest
      else match split_space rest with
           | w :: ws => String c w :: ws
           | [] => [String c EmptyString]
           end
  end.

(* authHeader && authHeader.split(' ')[1], with !token for a missing or
   empty result *)
Definition bearer_token (authHeader : option string) : option string :=
  match authHeader with
  | None => None
  | Some h =>
      match nth_error (split_space h) 1 with
      | Some t => if String.eqb t "" then None else Some t
      | None => None
      end
  end.

Definition req_user_of_row (u : user_row) : req_user :=
  mkReqUser (u_id u) (u_email u) (u_username u) (u_role u) (u_avatar_url u).

Definition error_response (st : Z) (m : msg) (c : option string) : response :=
  mkResponse st false m c NoData.

(* The catch block of a route: 500 with the generic message. *)
Definition server_error : response := error_response 500 MsgServerError None.

Section Auth.

Variable jwt_verify : string -> jwt_result.

(* authenticateToken, auth.js.  A payload without userId puts undefined
   among the parameters of the user query, which the driver refuses: the
   catch block answers 500 AUTH_ERROR. *)
Definition authenticateToken : middleware :=
  fun d req =>
    match bearer_token (authorization req) with
    | None => Respond (error_response 401 MsgLoginRequired (Some "NO_TOKEN"))
    | Some token =>
        match jwt_verify token with
        | JwtDecodedWithoutUserId =>
            Respond (error_response 500 MsgAuthFailed (Some "AUTH_ERROR"))
        | TokenExpiredError =>
            Respond (error_response 403 MsgTokenExpired (Some "TOKEN_EXPIRED"))
        | JsonWebTokenError =>
            Respond (error_response 403 MsgMalformedToken (Some "MALFORMED_TOKEN"))
        | NotBeforeError =>
            Respond (error_response 403 MsgInvalidToken (Some "INVALID_TOKEN"))
        | JwtDecoded uid =>
            match users_by_id d uid with
            | [] => Respond (error_response 403 MsgUserNotFound (Some "USER_NOT_FOUND"))
            | u :: _ =>
                if negb (user_status_eqb (u_status u) Active)
                then Respond (error_response 403 MsgAccountDisabled
                                             (Some "ACCOUNT_DISABLED"))
                else Next (set_user (Some (req_user_of_row u)) req)
            end
        end
    end.

(* optionalAuth, auth.js: the query selects active users only; an error,
   the refused query of a payload without userId included, leaves
   req.user null. *)
Definition optionalAuth : middleware :=
  fun d req =>
    match bearer_token (authorization req) with
    | None => Next (set_user None req)
    | Some token =>
        match jwt_verify token with
        | JwtDecoded uid =>
            match List.filter (fun u => user_status_eqb (u_status u) Active)
                              (users_by_id d uid) with
            | u :: _ => Next (set_user (Some (req_user_of_row u)) req)
            | [] => Next (set_user None req)
            end
        | _ => Next (set_user None req)
        end
    end.

(* The inline credential check of the public like-status routes:
   if (authHeader) { try { jwt.verify(authHeader.split(' ')[1]) ... }
   catch { } }.  An empty header is falsy; a missing or empty token
   makes jwt.verify throw, a payload without userId the query. *)
Definition inline_decoded (authHeader : option string) : option Z :=
  match authHeader with
  | None => None
  | Some h =>
      if String.eqb h "" then None
      else match nth_error (split_space h) 1 with
           | Some t =>
               if String.eqb t "" then None
               else match jwt_verify t with
                    | JwtDecoded uid => Some uid
                    | _ => None
                    end
           | None => None
           end
  end.

End Auth.

End Http.

Export Http.

(** ** Like routes (routes/likes.js) *)

Module LikeRoutes.

Section Routes.

Variable jwt_verify : string -> jwt_result.

(* POST /reviews/:reviewId, the function behind authenticateToken.
   Reading req.user.userId of an unset req.user throws inside the try
   block, which answers 500. *)
Definition like_review (reviewId : Z) : handler :=
  fun req d =>
    match user req with
    | None => (server_error, d)
    | Some u =>
        let userId := userId u in
        let reviews :=
          List.filter (fun r => review_status_eqb (r_status r) Approved)
                      (reviews_by_id d reviewId) in
        match reviews with
        | [] => (error_response 404 MsgReviewMissingOrUnapproved None, d)
        | review0 :: _ =>
            let existingLikes :=
              List.filter (is_like_of userId reviewId) (review_likes d) in
            if (0 <? length existingLikes)%nat
            then (error_response 409 MsgAlreadyLiked None, d)
            else if r_user_id review0 =? userId
            then (error_response 400 MsgOwnReviewLike None, d)
            else
              match insert_review_like userId reviewId d with
              | None => (server_error, d)
              | Some d' =>
                  match reviews_by_id d' reviewId with
                  | updated :: _ =>
                      (mkResponse 201 true MsgLiked None
                         (LikeData reviewId (r_likes_count updated) true), d')
                  | [] => (server_error, d')
                  end
              end
        end
    end.

(* DELETE /reviews/:reviewId, the function behind authenticateToken *)
Definition unlike_review (reviewId : Z) : handler :=
  fun req d =>
    match user req with
    | None => (server_error, d)
    | Some u =>
        let userId := userId u in
        let existingLikes :=
          List.filter (is_like_of userId reviewId) (review_likes d) in
        if (length existingLikes =? 0)%nat
        then (error_response 404 MsgNotLiked None, d)
        else
          let d' := delete_review_likes userId reviewId d in
          let likes_count := match reviews_by_id d' reviewId with
                             | updated :: _ => r_likes_count updated
                             | [] => 0
                             end in
          (mkResponse 200 true MsgUnliked None
             (LikeData reviewId likes_count false), d')
    end.

(* GET /reviews/:reviewId *)
Definition like_status (reviewId : Z) : handler :=
  fun req d =>
    match reviews_by_id d reviewId with
    | [] => (error_response 404 MsgReviewMissing None, d)
    | review :: _ =>
        let isLiked :=
          match inline_decoded jwt_verify (authorization req) with
          | Some uid =>
              (0 <? length (List.filter (is_like_of uid reviewId)
                                        (review_likes d)))%nat
          | None => false
          end in
        (mkResponse 200 true MsgNone None
           (LikeStatusData (r_id review) (r_title review)
                           (r_likes_count review) isLiked), d)
    end.

(* POST /reviews/batch; review_ids is None when the body holds no
   array under that name. *)
Definition batch_status (review_ids : option (list Z)) : handler :=
  fun req d =>
    match review_ids with
    | None => (error_response 400 MsgIdListRequired None, d)
    | Some ids =>
        if (length ids =? 0)%nat
        then (error_response 400 MsgIdListRequired None, d)
        else if (50 <? length ids)%nat
        then (error_response 400 MsgAtMostFifty None, d)
        else
          let in_ids x := existsb (Z.eqb x) ids in
          let reviews := List.filter (fun r => in_ids (r_id r)) (reviews d) in
          let userLikes : list like_row :=
            match inline_decoded jwt_verify (authorization req) with
            | Some uid =>
                List.filter (fun l => (l_user_id l =? uid) && in_ids (l_review_id l))
                            (review_likes d)
            | None => []
            end in
          let likedReviewIds : gset Z :=
            list_to_set (map l_review_id userLikes) in
          let result :=
            map (fun review =>
                   mkBatchEntry (r_id review) (r_title review)
                                (r_likes_count review)
                                (bool_decide (r_id review ∈ likedReviewIds)))
                reviews in
          (mkResponse 200 true MsgNone None (BatchData result), d)
    end.

(** The router: routes are tried in the order of their registration
    and the first whose method and path match takes the request; none
    of the functions of this file passes the request on once it runs.
    [:name] matches any single segment. *)

Inductive method := GET | POST | PUT | DELETE.

Definition method_eqb (a b : method) : bool :=
  match a, b with
  | GET, GET | POST, POST | PUT, PUT | DELETE, DELETE => true
  | _, _ => false
  end.

Inductive pattern :=
| Lit (w : string)
| Param (name : string).

Definition segment_matches (p : pattern) (s : segment) : bool :=
  match p, s with
  | Lit w, SWord v => String.eqb w v
  | Lit _, SInt _ => false
  | Param _, _ => true
  end.

Fixpoint path_matches (ps : list pattern) (path : list segment) : bool :=
  match ps, path with
  | [], [] => true
  | p :: ps', s :: path' => segment_matches p s && path_matches ps' path'
  | _, _ => false
  end.

(* The functions of a route receive the URL path and the review_ids
   of the body. *)
Record route := mkRoute {
  rt_method : method;
  rt_path : list pattern;
  rt_run : list segment -> option (list Z) -> handler
}.

(* The id bound to the parameter that is the second segment. *)
Definition second_id (path : list segment) : Z :=
  match nth_error path 1 with
  | Some s => id_of_segment s
  | None => 0
  end.

(* The two history routes (GET /user/:userId and GET /my) are
   parameters: they are GET routes whose bodies are not modelled. *)
Variable user_likes_history : list segment -> handler.
Variable my_likes_history : handler.

Definition likes_router : list route :=
  [ mkRoute POST [Lit "reviews"; Param "reviewId"]
            (fun path _ => guard (authenticateToken jwt_verify)
                                 (like_review (second_id path)));
    mkRoute DELETE [Lit "reviews"; Param "reviewId"]
            (fun path _ => guard (authenticateToken jwt_verify)
                                 (unlike_review (second_id path)));
    mkRoute GET [Lit "reviews"; Param "reviewId"]
            (fun path _ => like_status (second_id path));
    mkRoute GET [Lit "user"; Param "userId"]
            (fun path _ => user_likes_history path);
    mkRoute GET [Lit "my"]
            (fun _ _ => guard (authenticateToken jwt_verify) my_likes_history);
    mkRoute POST [Lit "reviews"; Lit "batch"]
            (fun _ review_ids => batch_status review_ids) ].

(* server.js: a request no route takes reaches the 404 handler. *)
Definition not_found : response :=
  error_response 404 MsgNone (Some "NOT_FOUND").

Fixpoint dispatch (routes : list route) (m : method) (path : list segment)
         (review_ids : option (list Z)) : handler :=
  match routes with
  | [] => fun _ d => (not_found, d)
  | rt :: rest =>
      if method_eqb (rt_method rt) m && path_matches (rt_path rt) path
      then rt_run rt path review_ids
      else dispatch rest m path review_ids
  end.

End Routes.

End LikeRoutes.

Export LikeRoutes.

(** ** Favorite routes (the favorites router, the second part of
       src/backend/routes/profile.js) *)

Module FavoriteRoutes.

(* POST /reviews/:reviewId, the function behind authenticateToken.  The
   source notes that, unlike a like, a favorite of one's own review is
   allowed. *)
Definition favorite_review (reviewId : Z) : handler :=
  fun req d =>
    match user req with
    | None => (server_error, d)
    | Some u =>
        let userId := userId u in
        let reviews :=
          List.filter (fun r => review_status_eqb (r_status r) Approved)
                      (reviews_by_id d reviewId) in
        match reviews with
        | [] => (error_response 404 MsgReviewMissingOrUnapproved None, d)
        | _ :: _ =>
            let existingFavorites :=
              List.filter (is_favorite_of userId reviewId) (user_favorites d) in
            if (0 <? length existingFavorites)%nat
            then (error_response 409 MsgAlreadyFavorited None, d)
            else
              match insert_user_favorite userId reviewId d with
              | None => (server_error, d)
              | Some d' =>
                  match reviews_by_id d' reviewId with
                  | reviewInfo :: _ =>
                      (mkResponse 201 true MsgFavorited None
                         (FavoriteData reviewId (r_title reviewInfo) true), d')
                  | [] => (server_error, d')
                  end
              end
        end
    end.

End FavoriteRoutes.

Export FavoriteRoutes.

(** ** Review routes (routes/reviews.js) *)

Module ReviewRoutes.

(* The body of POST /api/reviews; None is a property that is absent. *)
Record create_body := mkCreateBody {
  cb_book_id : option Z;
  cb_title : option string;
  cb_content : option string;
  cb_rating : option Z
}.

(* !x for a number or a string that may be absent *)
Definition falsy_number (x : option Z) : bool :=
  match x with
  | Some n => n =? 0
  | None => true
  end.

Definition falsy_string (x : option string) : bool :=
  match x with
  | Some s => String.eqb s ""
  | None => true
  end.

Definition get_Z (x : option Z) : Z := match x with Some n => n | None => 0 end.
Definition get_string (x : option string) : string :=
  match x with Some s => s | None => "" end.

(* POST /, the function behind authenticateToken and the body check *)
Definition create_review (body : create_body) : handler :=
  fun req d =>
    match user req with
    | None => (server_error, d)
    | Some u =>
        let userId := userId u in
        if falsy_number (cb_book_id body) || falsy_string (cb_title body)
           || falsy_string (cb_content body) || falsy_number (cb_rating body)
        then (error_response 400 MsgRequiredFields None, d)
        else
          let book_id := get_Z (cb_book_id body) in
          let rating := get_Z (cb_rating body) in
          if (rating <? 1) || (5 <? rating)
          then (error_response 400 MsgRatingRange None, d)
          else if (length (books_by_id d book_id) =? 0)%nat
          then (error_response 404 MsgBookMissing None, d)
          else
            let existingReviews :=
              List.filter (fun r => (r_user_id r =? userId) && (r_book_id r =? book_id))
                          (reviews d) in
            if (0 <? length existingReviews)%nat
            then (error_response 409 MsgAlreadyReviewed None, d)
            else
              match insert_review userId book_id (get_string (cb_title body))
                                  (get_string (cb_content body)) rating d with
              | None => (server_error, d)
              | Some (d', insertId) =>
                  (mkResponse 201 true MsgReviewCreated None
                     (ReviewData (hd_error (reviews_by_id d' insertId))), d')
              end
    end.

Definition view_window : Z := 30 * 60 * 1000.

(* POST /:id/view.  The route is registered without a middleware; now is
   Date.now(). *)
Definition record_view (now : Z) (id : Z) : handler :=
  fun req d =>
    let reviewId := id in
    let userId := match user req with
                  | Some u => Some (userId u)
                  | None => None
                  end in
    let ipAddress := ip req in
    let userAgent := match user_agent req with
                     | Some a => a
                     | None => ""
                     end in
    match List.filter (fun r => review_status_eqb (r_status r) Approved)
                      (reviews_by_id d reviewId) with
    | [] => (error_response 404 MsgReviewMissing (Some "REVIEW_NOT_FOUND"), d)
    | _ :: _ =>
        let windowStart := now - view_window in
        let recent (by_key : log_row -> bool) :=
          List.filter (fun g => by_key g
                                && String.eqb (g_action g) "view_review"
                                && (g_target_id g =? reviewId)
                                && (windowStart <? g_created_at g))
                      (system_logs d) in
        let shouldCount :=
          match userId with
          | Some uid =>
              if uid =? 0
              then (length (recent (fun g => String.eqb (g_ip_address g) ipAddress)) =? 0)%nat
              else (length (recent (fun g => opt_Z_eqb (g_user_id g) uid)) =? 0)%nat
          | None =>
              (length (recent (fun g => String.eqb (g_ip_address g) ipAddress)) =? 0)%nat
          end in
        if shouldCount then
          let d1 := increment_views reviewId d in
          match insert_view_log userId reviewId ipAddress userAgent now d1 with
          | None => (error_response 500 MsgViewRecordFailed (Some "VIEW_RECORD_ERROR"), d1)
          | Some d2 =>
              match reviews_by_id d2 reviewId with
              | updated :: _ =>
                  (mkResponse 200 true MsgViewCounted None
                     (ViewData (r_views updated) true), d2)
              | [] => (error_response 500 MsgViewRecordFailed
                                      (Some "VIEW_RECORD_ERROR"), d2)
              end
          end
        else
          match reviews_by_id d reviewId with
          | current :: _ =>
              (mkResponse 200 true MsgViewAlreadyCounted None
                 (ViewData (r_views current) false), d)
          | [] => (error_response 500 MsgViewRecordFailed
                                  (Some "VIEW_RECORD_ERROR"), d)
          end
    end.

(* The body of PUT /api/reviews/:id; None is undefined. *)
Record update_body := mkUpdateBody {
  ub_title : option string;
  ub_content : option string;
  ub_rating : option Z
}.

Definition is_some {A} (x : option A) : bool :=
  match x with Some _ => true | None => false end.

(* PUT /:id, the function behind authenticateToken *)
Definition update_review (id : Z) (body : update_body) : handler :=
  fun req d =>
    match user req with
    | None => (server_error, d)
    | Some u =>
        let reviewId := id in
        let userId := userId u in
        let userRole := role u in
        match reviews_by_id d reviewId with
        | [] => (error_response 404 MsgReviewMissing None, d)
        | review :: _ =>
            if negb (r_user_id review =? userId) && negb (role_eqb userRole RoleAdmin)
            then (error_response 403 MsgNoUpdatePermission None, d)
            else if match ub_rating body with
                    | Some rating => (rating <? 1) || (5 <? rating)
                    | None => false
                    end
            then (error_response 400 MsgRatingRange None, d)
            else if negb (is_some (ub_title body) || is_some (ub_content body)
                          || is_some (ub_rating body))
            then (error_response 400 MsgNothingToUpdate None, d)
            else
              let d' := update_review_fields (ub_title body) (ub_content body)
                                             (ub_rating body) reviewId d in
              (mkResponse 200 true MsgReviewUpdated None
                 (ReviewData (hd_error (reviews_by_id d' reviewId))), d')
        end
    end.

(* DELETE /:id, the function behind authenticateToken: a soft delete *)
Definition delete_review (id : Z) : handler :=
  fun req d =>
    match user req with
    | None => (server_error, d)
    | Some u =>
        let reviewId := id in
        let userId := userId u in
        let userRole := role u in
        match reviews_by_id d reviewId with
        | [] => (error_response 404 MsgReviewMissing None, d)
        | review :: _ =>
            if negb (r_user_id review =? userId) && negb (role_eqb userRole RoleAdmin)
            then (error_response 403 MsgNoDeletePermission None, d)
            else (mkResponse 200 true MsgReviewDeleted None NoData,
                  hide_review reviewId d)
        end
    end.

End ReviewRoutes.

Export ReviewRoutes.

(** ** Comment routes (the comments router, src/unnamed/part_002) *)

Module CommentRoutes.

(* The code units String.prototype.trim removes at both ends: the
   WhiteSpace and LineTerminator code points of ECMAScript (TAB, LF, VT,
   FF, CR, SP, NBSP, U+1680, U+2000 to U+200A, U+2028, U+2029, U+202F,
   U+205F, U+3000, U+FEFF), every one of them a single code unit. *)
Definition is_space (c : N) : bool :=
  ((9 <=? c) && (c <=? 13) || (c =? 32) || (c =? 160) || (c =? 5760)
   || (8192 <=? c) && (c <=? 8202) || (c =? 8232) || (c =? 8233)
   || (c =? 8239) || (c =? 8287) || (c =? 12288) || (c =? 65279))%N.

Fixpoint trim_start (s : js_string) : js_string :=
  match s with
  | [] => []
  | c :: rest => if is_space c then trim_start rest else s
  end.

Definition reverse (s : js_string) : js_string := rev s.

(* content.trim() *)
Definition trim (s : js_string) : js_string :=
  reverse (trim_start (reverse (trim_start s))).

(* The content property of the body: None when it is absent. *)
Definition get_text (content : option js_string) : js_string :=
  match content with Some s => s | None => [] end.

(* !content || content.trim().length === 0 *)
Definition blank (content : option js_string) : bool :=
  match content with
  | None => true
  | Some s => (length s =? 0)%nat || (length (trim s) =? 0)%nat
  end.

(* The code units of a text of ASCII characters. *)
Definition units (s : string) : js_string := map N_of_ascii (list_ascii_of_string s).

(* POST /reviews/:reviewId, the function behind authenticateToken: a
   top-level comment (the statement names no parent_id). *)
Definition create_comment (reviewId : Z) (content : option js_string) : handler :=
  fun req d =>
    match user req with
    | None => (server_error, d)
    | Some u =>
        let userId := userId u in
        if blank content then (error_response 400 MsgCommentEmpty None, d)
        else
          let text := get_text content in
          if (1000 <? length text)%nat
          then (error_response 400 MsgCommentTooLong None, d)
          else
            match reviews_by_id d reviewId with
            | [] => (error_response 404 MsgReviewMissing None, d)
            | review :: _ =>
                if negb (review_status_eqb (r_status review) Approved)
                then (error_response 403 MsgReviewNotApproved None, d)
                else
                  match insert_review_comment reviewId userId None (trim text) d with
                  | None => (server_error, d)
                  | Some (d', insertId) =>
                      (mkResponse 201 true MsgCommentCreated None
                         (CommentData (hd_error (comments_by_id d' insertId))), d')
                  end
            end
    end.

(* SELECT COUNT( * ) as count FROM review_comments WHERE parent_id = ? *)
Definition count_replies (d : db) (cid : Z) : Z :=
  Z.of_nat (length (List.filter (fun c => opt_Z_eqb (c_parent_id c) cid)
                                (review_comments d))).

(* DELETE /:id, the function behind authenticateToken *)
Definition delete_comment (id : Z) : handler :=
  fun req d =>
    match user req with
    | None => (server_error, d)
    | Some u =>
        let commentId := id in
        let userId := userId u in
        let userRole := role u in
        match comments_by_id d commentId with
        | [] => (error_response 404 MsgCommentMissing None, d)
        | comment :: _ =>
            if negb (c_user_id comment =? userId) && negb (role_eqb userRole RoleAdmin)
            then (error_response 403 MsgOwnCommentsOnly None, d)
            else
              let count := count_replies d commentId in
              if 0 <? count
              then (mkResponse 409 false MsgHasReplies None (RepliesCountData count), d)
              else (mkResponse 200 true MsgCommentDeleted None NoData,
                    delete_review_comment commentId d)
        end
    end.

(* SELECT rc.id, rc.review_id, r.status as review_status
   FROM review_comments rc JOIN reviews r ON rc.review_id = r.id
   WHERE rc.id = ? AND rc.status = 'approved' *)
Definition approved_parent_with_review (d : db) (cid : Z)
  : list (comment_row * review_row) :=
  flat_map (fun c => map (fun r => (c, r)) (reviews_by_id d (c_review_id c)))
           (List.filter (fun c => comment_status_eqb (c_status c) CApproved)
                        (comments_by_id d cid)).

(* POST /:id/reply, the function behind authenticateToken *)
Definition reply_comment (id : Z) (content : option js_string) : handler :=
  fun req d =>
    match user req with
    | None => (server_error, d)
    | Some u =>
        let parentId := id in
        let userId := userId u in
        if blank content then (error_response 400 MsgCommentEmpty None, d)
        else
          let text := get_text content in
          if (1000 <? length text)%nat
          then (error_response 400 MsgCommentTooLong None, d)
          else
            match approved_parent_with_review d parentId with
            | [] => (error_response 404 MsgParentMissing None, d)
            | (parentComment, review) :: _ =>
                if negb (review_status_eqb (r_status review) Approved)
                then (error_response 403 MsgReviewNotApproved None, d)
                else
                  match insert_review_comment (c_review_id parentComment) userId
                                              (Some parentId) (trim text) d with
                  | None => (server_error, d)
                  | Some (d', insertId) =>
                      (mkResponse 201 true MsgReplyCreated None
                         (CommentData (hd_error (comments_by_id d' insertId))), d')
                  end
            end
    end.

End CommentRoutes.

Export CommentRoutes.

(** ** Profile route (routes/profile.js) *)

Module ProfileRoutes.

Definition default_privacy : privacy_map := mkPrivacy true true true true.

(* null/undefined/false are falsy *)
Definition truthy (x : option bool) : bool :=
  match x with
  | Some b => b
  | None => false
  end.

Definition count {A} (f : A -> bool) (l : list A) : Z :=
  Z.of_nat (length (List.filter f l)).

Definition stats_of (d : db) (target : Z) (u : user_row) : stats_block :=
  mkStats (u_total_reviews u)
          (u_total_likes_received u)
          (count (fun f => f_user_id f =? target) (user_favorites d))
          (count (fun f => existsb (fun r => r_user_id r =? target)
                                   (reviews_by_id d (f_review_id f)))
                 (user_favorites d))
          (count (fun c => (c_user_id c =? target)
                           && comment_status_eqb (c_status c) CApproved)
                 (review_comments d)).

(* ORDER BY created_at DESC LIMIT 10 over a table kept in insertion
   order: the last ten matching rows, latest first. *)
Definition latest_ten {A} (rows : list A) : list A := firstn 10 (rev rows).

(* uf JOIN reviews r JOIN books b JOIN users u (the author), r approved *)
Definition approved_review (d : db) (rid : Z) : bool :=
  existsb (fun r => review_status_eqb (r_status r) Approved
                    && book_exists d (r_book_id r)
                    && user_exists d (r_user_id r))
          (reviews_by_id d rid).

Definition history_of (d : db) (target : Z) : history_block :=
  mkHistory
    (map r_id
         (latest_ten
            (List.filter (fun r => (r_user_id r =? target)
                                   && review_status_eqb (r_status r) Approved
                                   && book_exists d (r_book_id r))
                         (reviews d))))
    (map f_review_id
         (latest_ten
            (List.filter (fun f => (f_user_id f =? target)
                                   && approved_review d (f_review_id f))
                         (user_favorites d))))
    (map c_id
         (latest_ten
            (List.filter (fun c => (c_user_id c =? target)
                                   && comment_status_eqb (c_status c) CApproved
                                   && existsb (fun r => book_exists d (r_book_id r))
                                              (reviews_by_id d (c_review_id c)))
                         (review_comments d)))).

(* JSON.parse(user.privacy_settings) for a column that is not NULL.
   privacy_settings is a JSON column (database/add-signature-field.sql)
   and the driver hands its value over as an object, not as text;
   JSON.parse turns its argument into a string first, [object Object]
   for an object, which is no JSON text: it throws a SyntaxError, whatever
   the object holds. *)
Inductive parse_result :=
| Parsed (p : privacy_map)
| SyntaxError.

Definition json_parse_object (column : privacy_map) : parse_result := SyntaxError.

(* GET /:userId, the function behind optionalAuth.  privacySettings is
   the default map unless the column is not NULL and JSON.parse returns;
   the catch block of the parse keeps the default. *)
Definition get_profile (userId : segment) : handler :=
  fun req d =>
    let targetUserId := userId in
    let isOwnProfile : option bool :=
      match user req with
      | None => None
      | Some u => Some (loose_eq_param (get_prop u "id") targetUserId)
      end in
    let target := id_of_segment targetUserId in
    match List.filter (fun u => user_status_eqb (u_status u) Active)
                      (users_by_id d target) with
    | [] => (error_response 404 MsgProfileUserMissing None, d)
    | user :: _ =>
        let privacySettings :=
          match u_privacy_settings user with
          | Some p =>
              match json_parse_object p with
              | Parsed parsed => parsed
              | SyntaxError => default_privacy
              end
          | None => default_privacy
          end in
        let canViewStats := truthy isOwnProfile || pv_stats privacySettings in
        let canViewHistory := truthy isOwnProfile || pv_history privacySettings in
        let stats := stats_of d target user in
        let history := history_of d target in
        (mkResponse 200 true MsgNone None
           (ProfileData
              (mkProfileView
                 (u_id user)
                 (u_username user)
                 (u_avatar_url user)
                 (u_bio user)
                 (if truthy isOwnProfile || pv_signature privacySettings
                  then u_signature user else None)
                 (if truthy isOwnProfile then Some privacySettings else None)
                 (if canViewStats then Some stats else None)
                 (if canViewHistory then Some history else None)
                 isOwnProfile)), d)
    end.

End ProfileRoutes.

Export ProfileRoutes.

(** * Properties *)

(** ** The likes counter (C1) *)

Module LikesCounter.

(* Every review row carries the number of like rows that name it. *)
Definition likes_consistent (d : db) : Prop :=
  forall r, In r (reviews d) -> r_likes_count r = count_likes d (r_id r).

(* A like or unlike request as it reaches the router. *)
Inductive like_op :=
| OpLike (reviewId : Z) (req : request)
| OpUnlike (reviewId : Z) (req : request).

Section Run.

Variable jwt_verify : string -> jwt_result.

Definition run_like_op (d : db) (op : like_op) : db :=
  match op with
  | OpLike reviewId req =>
      snd (guard (authenticateToken jwt_verify) (like_review reviewId) req d)
  | OpUnlike reviewId req =>
      snd (guard (authenticateToken jwt_verify) (unlike_review reviewId) req d)
  end.

Definition run_like_ops (ops : list like_op) (d : db) : db :=
  fold_left run_like_op ops d.

End Run.

(* The number of rows of [ls] that name review [x]. *)
Definition named (ls : list like_row) (x : Z) : Z :=
  Z.of_nat (length (List.filter (fun l => l_review_id l =? x) ls)).

(* The counters are ahead of the rows by [k x] for review [x]. *)
Definition consistent_off (k : Z -> Z) (d : db) : Prop :=
  forall r, In r (reviews d) ->
            r_likes_count r = named (review_likes d) (r_id r) + k (r_id r).

End LikesCounter.

Export LikesCounter.

(** ** Names for callers, rows and properties of the store *)

Module Spec.

(* SELECT by primary key returns exactly this row. *)
Definition the_user (d : db) (u : user_row) : Prop :=
  users_by_id d (u_id u) = [u].

Definition the_review (d : db) (r : review_row) : Prop :=
  reviews_by_id d (r_id r) = [r].

Definition the_comment (d : db) (c : comment_row) : Prop :=
  comments_by_id d (c_id c) = [c].

(* The request carries a bearer token that verifies to the id of the
   active user u of the store. *)
Definition authenticated (jwt_verify : string -> jwt_result) (d : db)
           (req : request) (u : user_row) : Prop :=
  exists token,
    bearer_token (authorization req) = Some token
    /\ jwt_verify token = JwtDecoded (u_id u)
    /\ the_user d u
    /\ u_status u = Active.

(* The actor is the author of the review or has the admin role. *)
Definition may_update (u : user_row) (r : review_row) : Prop :=
  r_user_id r = u_id u \/ u_role u = RoleAdmin.

(* The actor is the author of the comment or has the admin role. *)
Definition may_delete (u : user_row) (c : comment_row) : Prop :=
  c_user_id c = u_id u \/ u_role u = RoleAdmin.

Definition liked_by (d : db) (uid rid : Z) : bool :=
  existsb (is_like_of uid rid) (review_likes d).

Definition favorited_by (d : db) (uid rid : Z) : bool :=
  existsb (is_favorite_of uid rid) (user_favorites d).

(* A creation request the route's own checks accept, for book b. *)
Definition well_formed_create (body : create_body) (b : Z) : Prop :=
  cb_book_id body = Some b /\ b <> 0
  /\ falsy_string (cb_title body) = false
  /\ falsy_string (cb_content body) = false
  /\ 1 <= get_Z (cb_rating body) <= 5.

(* Some review of user uid for book b is stored, in whatever status. *)
Definition reviewed_by (d : db) (uid b : Z) : bool :=
  existsb (fun r => (r_user_id r =? uid) && (r_book_id r =? b)) (reviews d).


(* The caller a view is counted for: the actor when one is resolved,
   the source address otherwise. *)
Definition dedup_key (actor : option Z) (ip : string) : log_row -> bool :=
  match actor with
  | Some uid => fun g => opt_Z_eqb (g_user_id g) uid
  | None => fun g => String.eqb (g_ip_address g) ip
  end.

Definition actor_of (req : request) : option Z :=
  match user req with
  | Some u => Some (userId u)
  | None => None
  end.



Definition is_none {A} (x : option A) : bool :=
  match x with Some _ => false | None => true end.

(* Every stored comment is top-level or the child of a top-level one. *)
Definition two_level (d : db) : bool :=
  forallb (fun c => match c_parent_id c with
                    | None => true
                    | Some p =>
                        existsb (fun pc => (c_id pc =? p) && is_none (c_parent_id pc))
                                (review_comments d)
                    end)
          (review_comments d).

(* The comment is top-level or the child of a comment of the same review
   among cs. *)
Definition has_parent (cs : list comment_row) (c : comment_row) : bool :=
  match c_parent_id c with
  | None => true
  | Some p =>
      existsb (fun pc => (c_id pc =? p) && (c_review_id pc =? c_review_id c)) cs
  end.

(* The parent a row names has a smaller id than the row. *)
Definition parent_older (c : comment_row) : bool :=
  match c_parent_id c with
  | None => true
  | Some p => p <? c_id c
  end.

(* The comment rows form a forest: ids are positive, unique and below
   the next AUTO_INCREMENT value, and a row with a parent_id names a
   stored comment of its own review that has a smaller id. *)
Definition comment_forest (d : db) : Prop :=
  List.NoDup (map c_id (review_comments d))
  /\ 0 < comments_auto_increment d
  /\ (forall c, In c (review_comments d) ->
                0 < c_id c < comments_auto_increment d)
  /\ (forall c, In c (review_comments d) ->
                has_parent (review_comments d) c = true
                /\ parent_older c = true).

(* The comment reached from c by following parent_id n times; None when
   the chain ends before. *)
Fixpoint climb (cs : list comment_row) (n : nat) (c : comment_row)
  : option comment_row :=
  match n with
  | O => Some c
  | S n' =>
      match c_parent_id c with
      | None => None
      | Some p =>
          match List.filter (fun pc => c_id pc =? p) cs with
          | pc :: _ => climb cs n' pc
          | [] => None
          end
      end
  end.

(* A request to one of the three comment routes that write. *)
Inductive comment_op :=
| OpComment (reviewId : Z) (content : option js_string) (req : request)
| OpReply (id : Z) (content : option js_string) (req : request)
| OpDeleteComment (id : Z) (req : request).

Section Run.

Variable jwt_verify : string -> jwt_result.

Definition run_comment_op (d : db) (op : comment_op) : db :=
  match op with
  | OpComment reviewId content req =>
      snd (guard (authenticateToken jwt_verify)
                 (create_comment reviewId content) req d)
  | OpReply id content req =>
      snd (guard (authenticateToken jwt_verify) (reply_comment id content) req d)
  | OpDeleteComment id req =>
      snd (guard (authenticateToken jwt_verify) (delete_comment id) req d)
  end.

Definition run_comment_ops (ops : list comment_op) (d : db) : db :=
  fold_left run_comment_op ops d.

End Run.

End Spec.

Export Spec.

(** ** A small store used for the concrete runs *)

Module Demo.

Definition verify (token : string) : jwt_result :=
  if String.eqb token "alice" then JwtDecoded 1
  else if String.eqb token "bob" then JwtDecoded 2
  else if String.eqb token "mallory" then JwtDecoded 3
  else if String.eqb token "root" then JwtDecoded 4
  else if String.eqb token "old" then TokenExpiredError
  else JsonWebTokenError.

Definition alice : user_row :=
  mkUser 1 "alice@example.org" "alice" RoleUser (Some "/uploads/avatars/a.jpg")
         None (Some "reader") (Some (mkPrivacy false false false false))
         Active 1 0.

Definition bob : user_row :=
  mkUser 2 "bob@example.org" "bob" RoleUser None None None None Active 0 0.

Definition mallory : user_row :=
  mkUser 3 "mallory@example.org" "mallory" RoleUser None None None None Banned 0 0.

Definition root : user_row :=
  mkUser 4 "admin@bookreviewer.com" "root" RoleAdmin None None None None Active 0 0.

Definition book5 : book_row := mkBook 5 "Dune" "Herbert" 1 500.

Definition review10 : review_row :=
  mkReview 10 1 5 "Spice" "A long walk in the sand." 5 Approved 7 0 2.

(* bob comments on review 10, alice answers him *)
Definition comment1 : comment_row :=
  mkComment 1 10 2 None (units "Agreed.") CApproved.
Definition comment2 : comment_row :=
  mkComment 2 10 1 (Some 1) (units "Thanks.") CApproved.

(* A database as database/init.js sets it up: without the triggers. *)
Definition store : db :=
  mkDb [alice; bob; mallory; root] [book5] [review10] [] []
       [comment1; comment2] [] 11 3 false.

(* The same rows in a database on which the mysql client has run
   schema.sql, triggers included. *)
Definition store_with_triggers : db :=
  mkDb [alice; bob; mallory; root] [book5] [review10] [] []
       [comment1; comment2] [] 11 3 true.

Definition anonymous : request := mkRequest None None "203.0.113.9" None.

Definition as_token (token : string) : request :=
  mkRequest (Some ("Bearer " ++ token)) None "203.0.113.9" (Some "curl").

(* bob likes review 10, likes it again, alice tries her own review, bob
   takes his like back twice, mallory (banned) tries *)
Definition like_ops : list like_op :=
  [ OpLike 10 (as_token "bob"); OpLike 10 (as_token "bob");
    OpLike 10 (as_token "alice"); OpUnlike 10 (as_token "bob");
    OpUnlike 10 (as_token "bob"); OpLike 10 (as_token "mallory");
    OpLike 10 (as_token "root") ].

Definition second_review : create_body :=
  mkCreateBody (Some 5) (Some "Again") (Some "Second thoughts.") (Some 3).

Definition comment_ops : list comment_op :=
  [ OpReply 2 (Some (units "A reply to a reply")) (as_token "bob");
    OpComment 10 (Some (units "Another thread")) (as_token "root");
    OpDeleteComment 3 (as_token "bob");
    OpDeleteComment 1 (as_token "bob") ].

End Demo.

(** ** Further routes and helpers of the cited files *)

Module FavoriteToggle.

(* The answer of DELETE /reviews/:reviewId of the favorites router
   (src/backend/routes/profile.js:927-968). *)
Inductive unfavorite_msg :=
| MsgNotFavorited             (* profile.js:941 *)
| MsgUnfavorited              (* profile.js:953 *)
| MsgUnfavoriteServerError.   (* profile.js:964 *)

Record unfavorite_response := mkUnfavoriteResponse {
  uf_status : Z;
  uf_success : bool;
  uf_message : unfavorite_msg;
  uf_data : option (Z * bool)      (* review_id, is_favorited *)
}.

(* DELETE /reviews/:reviewId, the function behind authenticateToken *)
Definition unfavorite_review (reviewId : Z) (req : request) (d : db)
  : unfavorite_response * db :=
  match user req with
  | None => (mkUnfavoriteResponse 500 false MsgUnfavoriteServerError None, d)
  | Some u =>
      let userId := userId u in
      let existingFavorites :=
        List.filter (is_favorite_of userId reviewId) (user_favorites d) in
      if (length existingFavorites =? 0)%nat
      then (mkUnfavoriteResponse 404 false MsgNotFavorited None, d)
      else (mkUnfavoriteResponse 200 true MsgUnfavorited (Some (reviewId, false)),
            delete_user_favorites userId reviewId d)
  end.

End FavoriteToggle.

Export FavoriteToggle.

Module RateLimit.

(* requestCounts (middleware/auth.js) is a gmap string (list Z): the times
   of the recent requests of each client address. *)

Inductive limit_outcome :=
| LimitNext
| LimitRespond (status : Z) (code : string) (windowMinutes : Z).

(* The loop over requestCounts.entries(): keep the records newer than
   windowStart, drop the addresses left without one. *)
Definition prune (windowStart : Z) (m : gmap string (list Z)) : gmap string (list Z) :=
  omap (fun records =>
          let validRecords := List.filter (fun time => windowStart <? time) records in
          if (length validRecords =? 0)%nat then None else Some validRecords)
       m.

(* rateLimit(maxRequests, windowMinutes) applied to a request from
   clientIP at time now (Date.now(), milliseconds). *)
Definition rateLimit (maxRequests windowMinutes : Z) (now : Z) (clientIP : string)
           (requestCounts : gmap string (list Z)) : limit_outcome * gmap string (list Z) :=
  let windowStart := now - windowMinutes * 60 * 1000 in
  let pruned := prune windowStart requestCounts in
  let clientRequests := match pruned !! clientIP with
                        | Some records => records
                        | None => []
                        end in
  let recentRequests := List.filter (fun time => windowStart <? time) clientRequests in
  if maxRequests <=? Z.of_nat (length recentRequests)
  then (LimitRespond 429 "RATE_LIMIT_EXCEEDED" windowMinutes, pruned)
  else (LimitNext, <[clientIP := (recentRequests ++ [now])%list]> pruned).

(* A run of requests (time, address) through one limiter. *)
Definition rate_limit_run (maxRequests windowMinutes : Z)
           (calls : list (Z * string)) (m : gmap string (list Z)) : gmap string (list Z) :=
  fold_left (fun acc call => snd (rateLimit maxRequests windowMinutes
                                            (fst call) (snd call) acc))
            calls m.

(* The records of an address that count at time now. *)
Definition recent_count (windowMinutes now : Z) (clientIP : string)
           (m : gmap string (list Z)) : Z :=
  Z.of_nat (length (List.filter (fun time => now - windowMinutes * 60 * 1000 <? time)
                                (match m !! clientIP with
                                 | Some records => records
                                 | None => []
                                 end))).

End RateLimit.

Export RateLimit.

Module Pagination.

(* parseInt(x) || dflt, x being None when parseInt gives NaN *)
Definition or_default (x : option Z) (dflt : Z) : Z :=
  match x with
  | Some n => if n =? 0 then dflt else n
  | None => dflt
  end.

(* page = Math.max(1, parseInt(page) || 1)  (likes.js:224, reviews.js:124) *)
Definition page_of (page : option Z) : Z := Z.max 1 (or_default page 1).

(* limit = Math.min(100, Math.max(1, parseInt(limit) || 20)) *)
Definition limit_of (limit : option Z) : Z :=
  Z.min 100 (Z.max 1 (or_default limit 20)).

(* offset = (page - 1) * limit *)
Definition offset_of (page limit : Z) : Z := (page - 1) * limit.

(* Math.ceil(total / limit), for limit > 0 *)
Definition pages_of (total limit : Z) : Z := - ((- total) / limit).

(* Number.MAX_SAFE_INTEGER: up to it the numbers of JavaScript are the
   integers, their products are exact and they print as plain decimal
   numerals, so that parseInt(offset) in the text of a query is offset.
   Beyond it offset is a rounded number, and from 1e21 on it prints with an
   exponent, of which parseInt reads the digits before the point. *)
Definition max_safe_integer : Z := 2 ^ 53 - 1.

(* LIMIT limit OFFSET offset over the rows of the selection, in the order
   in which this query returns them; offset is the exact product, as it is
   for offsets up to max_safe_integer. *)
Definition page_rows {A} (rows : list A) (page limit : Z) : list A :=
  firstn (Z.to_nat limit) (skipn (Z.to_nat (offset_of page limit)) rows).

End Pagination.

Export Pagination.

Module Coverage.

(* No address has more than maxRequests recorded requests. *)
Definition counts_bounded (maxRequests : Z) (m : gmap string (list Z)) : Prop :=
  forall clientIP records,
    m !! clientIP = Some records -> Z.of_nat (length records) <= maxRequests.

(* The store an accepted like of review rid by user uid leaves: the row is
   added and the insert trigger, where installed, has run. *)
Definition liked_store (uid rid : Z) (d : db) : db :=
  fire (update_review_likes_count rid)
       (set_review_likes (review_likes d ++ [mkLike uid rid]) d).

(* No two rows of review_likes are the same (user, review) pair. *)
Definition likes_unique (d : db) : Prop := List.NoDup (review_likes d).

(* The like rows on reviews written by user x, the author of a review
   being read with auth. *)
Definition received (auth : Z -> option Z) (ls : list like_row) (x : Z) : Z :=
  Z.of_nat (length (List.filter (fun l => opt_Z_eqb (auth (l_review_id l)) x) ls)).

(* Every user row carries the number of likes on the reviews it wrote. *)
Definition received_consistent (d : db) : Prop :=
  forall u, In u (users d) ->
            u_total_likes_received u
            = received (review_author d) (review_likes d) (u_id u).

(* The totals are ahead of the rows by [k x] for user [x], and auth reads
   the author of every review. *)
Definition received_off (auth : Z -> option Z) (k : Z -> Z) (d : db) : Prop :=
  (forall y, review_author d y = auth y)
  /\ forall u, In u (users d) ->
                u_total_likes_received u
                = received auth (review_likes d) (u_id u) + k (u_id u).

(* The id is a key of the reviews table. *)
Definition reviews_keyed (d : db) : Prop := List.NoDup (map r_id (reviews d)).

(* The comment rows of [cs] on review [x]. *)
Definition comments_on (cs : list comment_row) (x : Z) : Z :=
  Z.of_nat (length (List.filter (fun c => c_review_id c =? x) cs)).

(* Every review row carries the number of its comment rows. *)
Definition comments_consistent (d : db) : Prop :=
  forall r, In r (reviews d) ->
            r_comments_count r = comments_on (review_comments d) (r_id r).

(* The comment counters are ahead of the rows by [k x] for review [x]. *)
Definition comments_off (k : Z -> Z) (d : db) : Prop :=
  forall r, In r (reviews d) ->
            r_comments_count r = comments_on (review_comments d) (r_id r) + k (r_id r).

(* No like row belongs to the author of the review it names. *)
Definition no_self_likes (d : db) : Prop :=
  forall l r, In l (review_likes d) -> In r (reviews d) ->
              r_id r = l_review_id l -> r_user_id r <> l_user_id l.

(* Every stored rating is between 1 and 5. *)
Definition ratings_valid (d : db) : Prop :=
  forall r, In r (reviews d) -> 1 <= r_rating r <= 5.

(* The review rows for book [x], of user [x]. *)
Definition reviews_of_book (rs : list review_row) (x : Z) : Z :=
  Z.of_nat (length (List.filter (fun r => r_book_id r =? x) rs)).

Definition reviews_of_user (rs : list review_row) (x : Z) : Z :=
  Z.of_nat (length (List.filter (fun r => r_user_id r =? x) rs)).

(* books.total_reviews and users.total_reviews count the review rows,
   whatever their status. *)
Definition totals_consistent (d : db) : Prop :=
  (forall b, In b (books d) ->
             b_total_reviews b = reviews_of_book (reviews d) (b_id b))
  /\ (forall u, In u (users d) ->
                u_total_reviews u = reviews_of_user (reviews d) (u_id u)).

(* A call of one of the review route functions that write. *)
Inductive review_op :=
| OpCreateReview (body : create_body) (req : request)
| OpUpdateReview (id : Z) (body : update_body) (req : request)
| OpDeleteReview (id : Z) (req : request)
| OpView (now id : Z) (req : request).

Definition run_review_op (d : db) (op : review_op) : db :=
  match op with
  | OpCreateReview body req => snd (create_review body req d)
  | OpUpdateReview id body req => snd (update_review id body req d)
  | OpDeleteReview id req => snd (delete_review id req d)
  | OpView now id req => snd (record_view now id req d)
  end.

Definition is_create (op : review_op) : bool :=
  match op with
  | OpCreateReview _ _ => true
  | _ => false
  end.

Definition run_review_ops (ops : list review_op) (d : db) : db :=
  fold_left run_review_op ops d.

(* Views of review rid from one request, at the given times in turn. *)
Definition run_views (rid : Z) (req : request) (times : list Z) (d : db) : db :=
  fold_left (fun acc t => snd (record_view t rid req acc)) times d.

(* bob reviews book 5, sends the review again, sends a rating of 9; alice
   changes her rating; bob deletes his review; review 10 is viewed. *)
Definition demo_review_ops : list review_op :=
  let alice := set_user (Some (req_user_of_row Demo.alice)) (Demo.as_token "alice") in
  let bob := set_user (Some (req_user_of_row Demo.bob)) (Demo.as_token "bob") in
  [ OpCreateReview (mkCreateBody (Some 5) (Some "Sand") (Some "Too much of it.")
                                 (Some 4)) bob;
    OpCreateReview (mkCreateBody (Some 5) (Some "Sand") (Some "Too much of it.")
                                 (Some 4)) bob;
    OpCreateReview (mkCreateBody (Some 5) (Some "Sand") (Some "Too much of it.")
                                 (Some 9)) bob;
    OpUpdateReview 10 (mkUpdateBody None None (Some 3)) alice;
    OpDeleteReview 11 bob;
    OpView 10000000 10 Demo.anonymous ].

(* The string is empty or begins with a code unit that trim() leaves. *)
Definition starts_clean (s : js_string) : bool :=
  match s with
  | [] => true
  | c :: _ => negb (is_space c)
  end.

(* What the comment routes store as content: a text that is not empty,
   has at most 1000 code units and nothing at either end that trim()
   removes. *)
Definition content_stored_ok (s : js_string) : Prop :=
  s <> []
  /\ (length s <= 1000)%nat
  /\ starts_clean s = true
  /\ starts_clean (reverse s) = true.

Definition contents_valid (d : db) : Prop :=
  forall c, In c (review_comments d) -> content_stored_ok (c_content c).

Fixpoint has_space (s : string) : bool :=
  match s with
  | EmptyString => false
  | String c rest => Ascii.eqb c " "%char || has_space rest
  end.

(* The Authorization header the client sends (src/js/api.js:44). *)
Definition authorization_header (token : string) : string := "Bearer " ++ token.

End Coverage.

Export Coverage.

(** ** Comment moderation (PUT /:id/status of the comments router,
       src/unnamed/part_002, behind authenticateToken and requireAdmin) *)

Module Moderation.

Inductive admin_outcome :=
| AdminNext
| AdminRespond (status : Z) (code : string).

(* requireAdmin, auth.js *)
Definition requireAdmin (req : request) : admin_outcome :=
  match user req with
  | None => AdminRespond 401 "NOT_AUTHENTICATED"
  | Some u =>
      if negb (role_eqb (role u) RoleAdmin)
      then AdminRespond 403 "INSUFFICIENT_PERMISSIONS"
      else AdminNext
  end.

(* validStatuses.includes(status); None is a status that is absent or
   not a string. *)
Definition valid_status (status : option string) : option comment_status :=
  match status with
  | None => None
  | Some s =>
      if String.eqb s "approved" then Some CApproved
      else if String.eqb s "pending" then Some CPending
      else if String.eqb s "rejected" then Some CRejected
      else None
  end.

Definition with_comment_status (st : comment_status) (c : comment_row) : comment_row :=
  mkComment (c_id c) (c_review_id c) (c_user_id c) (c_parent_id c) (c_content c) st.

(* UPDATE review_comments SET status = ? WHERE id = ? *)
Definition set_comment_status (st : comment_status) (cid : Z) (d : db) : db :=
  set_review_comments
    (map (fun c => if c_id c =? cid then with_comment_status st c else c)
         (review_comments d)) d.

Inductive moderation_msg :=
| MsgInvalidStatus            (* part_002:702 *)
| MsgModeratedCommentMissing  (* part_002:716 *)
| MsgStatusUpdated.           (* part_002:733 *)

Record moderation_response := mkModeration {
  md_status : Z;
  md_success : bool;
  md_message : moderation_msg;
  md_data : option (Z * comment_status * option string)
    (* comment_id, status, admin_note *)
}.

(* The function of the route; it does not read req.user. *)
Definition moderate_comment (id : Z) (status admin_note : option string) (d : db)
  : moderation_response * db :=
  match valid_status status with
  | None => (mkModeration 400 false MsgInvalidStatus None, d)
  | Some st =>
      match comments_by_id d id with
      | [] => (mkModeration 404 false MsgModeratedCommentMissing None, d)
      | _ :: _ =>
          (mkModeration 200 true MsgStatusUpdated
             (Some (id, st, if falsy_string admin_note then None else admin_note)),
           set_comment_status st id d)
      end
  end.

(* Who answered the request. *)
Inductive moderation_answer :=
| ByAuthenticate (r : response)
| ByRequireAdmin (status : Z) (code : string)
| ByRoute (r : moderation_response).

(* router.put('/:id/status', authenticateToken, requireAdmin, ...) *)
Definition moderation_route (jwt_verify : string -> jwt_result) (id : Z)
           (status admin_note : option string) (req : request) (d : db)
  : moderation_answer * db :=
  match authenticateToken jwt_verify d req with
  | Respond r => (ByAuthenticate r, d)
  | Next req' =>
      match requireAdmin req' with
      | AdminRespond st code => (ByRequireAdmin st code, d)
      | AdminNext =>
          let out := moderate_comment id status admin_note d in
          (ByRoute (fst out), snd out)
      end
  end.

End Moderation.

Export Moderation.

(** ** The routes of the favorites and comments routers, in the order of
       their registration *)

Module Routing.

(* The first route of the table whose method and path match: the one
   Express hands the request to. *)
Fixpoint first_route {L} (table : list (method * list pattern * L))
         (m : method) (path : list segment) : option L :=
  match table with
  | [] => None
  | (m', ps, l) :: rest =>
      if method_eqb m' m && path_matches ps path
      then Some l
      else first_route rest m path
  end.

(* The favorites router (the second part of src/backend/routes/profile.js) *)
Inductive favorites_route :=
| FavAdd        (* profile.js:857 *)
| FavRemove     (* profile.js:927 *)
| FavStatus     (* profile.js:975 *)
| FavOfUser     (* profile.js:1045 *)
| FavMine       (* profile.js:1112 *)
| FavBatch      (* profile.js:1169 *)
| FavStats.     (* profile.js:1259 *)

Definition favorites_table : list (method * list pattern * favorites_route) :=
  [ (POST, [Lit "reviews"; Param "reviewId"], FavAdd);
    (DELETE, [Lit "reviews"; Param "reviewId"], FavRemove);
    (GET, [Lit "reviews"; Param "reviewId"], FavStatus);
    (GET, [Lit "user"; Param "userId"], FavOfUser);
    (GET, [Lit "my"], FavMine);
    (POST, [Lit "reviews"; Lit "batch"], FavBatch);
    (GET, [Lit "stats"], FavStats) ].

(* The comments router (src/unnamed/part_002) *)
Inductive comments_route :=
| ComCreate     (* part_002:27 *)
| ComStats      (* part_002:110 *)
| ComOfReview   (* part_002:171 *)
| ComDetail     (* part_002:258 *)
| ComUpdate     (* part_002:317 *)
| ComDelete     (* part_002:409 *)
| ComOfUser     (* part_002:477 *)
| ComMine       (* part_002:543 *)
| ComReply      (* part_002:609 *)
| ComModerate.  (* part_002:692 *)

Definition comments_table : list (method * list pattern * comments_route) :=
  [ (POST, [Lit "reviews"; Param "reviewId"], ComCreate);
    (GET, [Lit "stats"], ComStats);
    (GET, [Lit "reviews"; Param "reviewId"], ComOfReview);
    (GET, [Param "id"], ComDetail);
    (PUT, [Param "id"], ComUpdate);
    (DELETE, [Param "id"], ComDelete);
    (GET, [Lit "user"; Param "userId"], ComOfUser);
    (GET, [Lit "my"], ComMine);
    (POST, [Param "id"; Lit "reply"], ComReply);
    (PUT, [Param "id"; Lit "status"], ComModerate) ].

(* The reviews router (src/backend/routes/reviews.js) *)
Inductive reviews_route :=
| RevCreate     (* reviews.js:25 *)
| RevList       (* reviews.js:112 *)
| RevDetail     (* reviews.js:202 *)
| RevView       (* reviews.js:293 *)
| RevUpdate     (* reviews.js:380 *)
| RevDelete     (* reviews.js:476 *)
| RevOfBook.    (* reviews.js:523 *)

Definition reviews_table : list (method * list pattern * reviews_route) :=
  [ (POST, [], RevCreate);
    (GET, [], RevList);
    (GET, [Param "id"], RevDetail);
    (POST, [Param "id"; Lit "view"], RevView);
    (PUT, [Param "id"], RevUpdate);
    (DELETE, [Param "id"], RevDelete);
    (GET, [Lit "books"; Param "bookId"], RevOfBook) ].

End Routing.

Export Routing.

(** ** Installation of the schema (executeSchemaScript,
       src/backend/database/init.js:224-293, on schema.sql) *)

Module Install.

(* What a piece of schema.sql holds.  init.js cuts the script at every
   semicolon that ends a line, which also cuts the bodies of the
   triggers. *)
Inductive piece_kind :=
| TableDefinition (name : string)     (* CREATE TABLE IF NOT EXISTS *)
| DefaultRows (table : string)        (* INSERT IGNORE INTO *)
| TriggerHead (name : string)         (* ... CREATE TRIGGER name ... BEGIN and
                                         the first statement of the body *)
| TriggerTail (name : string)         (* the second statement of a body, cut
                                         loose: it names NEW or OLD *)
| ScriptEnd                           (* END$$ DELIMITER *)
| ViewDefinition (name : string).     (* CREATE OR REPLACE VIEW *)

Record piece := mkPiece {
  comment_first : bool;    (* the piece begins with a comment line: startsWith('--') *)
  has_delimiter : bool;    (* the piece holds a DELIMITER line *)
  kind : piece_kind
}.

(* schema.sql, the second part of src/config-template.js, cut as
   sqlScript.split(/;\s*[\r\n]+/) cuts it (the last, empty piece left
   out). *)
Definition schema_sql : list piece :=
  [ mkPiece true false (TableDefinition "users");
    mkPiece true false (TableDefinition "books");
    mkPiece true false (TableDefinition "reviews");
    mkPiece true false (TableDefinition "review_likes");
    mkPiece true false (TableDefinition "user_favorites");
    mkPiece true false (TableDefinition "review_comments");
    mkPiece true false (TableDefinition "tags");
    mkPiece true false (TableDefinition "book_tags");
    mkPiece true false (TableDefinition "system_logs");
    mkPiece true false (DefaultRows "users");
    mkPiece true false (DefaultRows "tags");
    mkPiece true true (TriggerHead "update_review_likes_count");
    mkPiece false false (TriggerTail "update_review_likes_count");
    mkPiece false false (TriggerHead "update_review_likes_count_delete");
    mkPiece false false (TriggerTail "update_review_likes_count_delete");
    mkPiece false false (TriggerHead "update_book_stats_insert");
    mkPiece false false (TriggerTail "update_book_stats_insert");
    mkPiece false false (TriggerHead "update_book_stats_delete");
    mkPiece false false (TriggerTail "update_book_stats_delete");
    mkPiece false false (TriggerHead "update_comment_count_insert");
    mkPiece false false (TriggerHead "update_comment_count_delete");
    mkPiece false true ScriptEnd;
    mkPiece true false (ViewDefinition "review_details");
    mkPiece true false (ViewDefinition "user_stats") ].

(* statement.includes('TRIGGER') || .includes('VIEW') || .includes('DELIMITER') *)
Definition skipped (p : piece) : bool :=
  has_delimiter p
  || match kind p with
     | TriggerHead _ | ViewDefinition _ => true
     | _ => false
     end.

(* A piece sent to the server as a statement of its own is accepted
   unless it is part of a trigger: a cut body names NEW or OLD outside a
   trigger, a head ends inside BEGIN. *)
Definition accepted_alone (p : piece) : bool :=
  match kind p with
  | TableDefinition _ | DefaultRows _ | ViewDefinition _ => negb (has_delimiter p)
  | _ => false
  end.

Definition trigger_of (p : piece) : list string :=
  match kind p with
  | TriggerHead name => [name]
  | _ => []
  end.

(* connection.query(sqlScript) with multipleStatements: the server runs
   statement after statement and fails at the first it cannot read.
   DELIMITER is a command of the mysql client, not of the server: the
   attempt ends there, before any trigger. *)
Fixpoint whole_script (script : list piece) : list piece * bool :=
  match script with
  | [] => ([], true)
  | p :: rest =>
      if has_delimiter p then ([], false)
      else let (done, ok) := whole_script rest in (p :: done, ok)
  end.

(* The catch block: the pieces that do not begin with a comment, one by
   one, those that name TRIGGER, VIEW or DELIMITER skipped, the errors of
   the others logged and passed over. *)
Definition piece_by_piece (script : list piece) : list piece :=
  List.filter (fun p => negb (skipped p) && accepted_alone p)
              (List.filter (fun p => negb (comment_first p)) script).

Definition executeSchemaScript (script : list piece) : list piece :=
  let (done, ok) := whole_script script in
  if ok then done else (done ++ piece_by_piece script)%list.

(* The triggers the database has after init.js. *)
Definition installed_triggers : list string :=
  flat_map trigger_of (executeSchemaScript schema_sql).

(* A database as init.js sets it up. *)
Definition as_installed (d : db) : Prop :=
  triggers d = negb (Nat.eqb (length installed_triggers) 0).

End Install.

Export Install.

(** ** The application (src/backend/server.js) *)

Module Server.

(* The routers of the repository; the first is routes/profile.js. *)
Inductive router :=
| ProfileRouter
| AuthRouter
| BooksRouter
| ReviewsRouter
| LikesRouter
| FavoritesRouter
| CommentsRouter.

(* app.use(prefix, router), server.js:318-333, in this order *)
Definition mounts : list (list string * router) :=
  [ (["api"; "auth"], AuthRouter);
    (["api"; "books"], BooksRouter);
    (["api"; "reviews"], ReviewsRouter);
    (["api"; "likes"], LikesRouter);
    (["api"; "favorites"], FavoritesRouter);
    (["api"; "comments"], CommentsRouter) ].

(* The path begins with the segments of the prefix; what follows is the
   path the router sees. *)
Fixpoint strip_prefix (prefix : list string) (path : list segment)
  : option (list segment) :=
  match prefix, path with
  | [], _ => Some path
  | w :: prefix', SWord v :: path' =>
      if String.eqb w v then strip_prefix prefix' path' else None
  | _, _ => None
  end.

Fixpoint mounted (ms : list (list string * router)) (path : list segment)
  : option (router * list segment) :=
  match ms with
  | [] => None
  | (prefix, r) :: rest =>
      match strip_prefix prefix path with
      | Some sub => Some (r, sub)
      | None => mounted rest path
      end
  end.

(* Who answers a request that the limiter on /api/ lets through. *)
Inductive taken_by :=
| ByStatic                         (* express.static on /uploads and /docs *)
| ByAppRoute (name : string)       (* app.get: /, /api/health, /api/info *)
| ByRouter (r : router) (sub : list segment)
| ByNotFound.                      (* server.js:344, 404 NOT_FOUND *)

Definition is_word (w : string) (s : segment) : bool :=
  match s with
  | SWord v => String.eqb w v
  | SInt _ => false
  end.

(* server.js in the order of its app.use and app.get calls.  A router
   that has no route for the rest of the path hands the request on, to
   the 404 function at the end. *)
Definition serve (m : method) (path : list segment) : taken_by :=
  match path with
  | s :: _ =>
      if is_word "uploads" s || is_word "docs" s then ByStatic
      else
        match m, path with
        | GET, [a; b] =>
            if is_word "api" a && is_word "health" b then ByAppRoute "health"
            else if is_word "api" a && is_word "info" b then ByAppRoute "info"
            else match mounted mounts path with
                 | Some (r, sub) => ByRouter r sub
                 | None => ByNotFound
                 end
        | _, _ =>
            match mounted mounts path with
            | Some (r, sub) => ByRouter r sub
            | None => ByNotFound
            end
        end
  | [] => match m with GET => ByAppRoute "root" | _ => ByNotFound end
  end.

End Server.

Export Server.

(** * Proofs *)

(** ** Triggers and the installation *)

Section Triggers.

Lemma fire_on (t : db -> db) d : triggers d = true -> fire t d = t d.
Proof. unfold fire. now intros ->. Qed.

Lemma fire_off (t : db -> db) d : triggers d = false -> fire t d = d.
Proof. unfold fire. now intros ->. Qed.

Lemma triggers_fire (t : db -> db) d :
  triggers (t d) = triggers d -> triggers (fire t d) = triggers d.
Proof. unfold fire. destruct (triggers d) eqn:E; [trivial | now rewrite E]. Qed.

Lemma fold_fire_on {A} (f : A -> db -> db) l :
  (forall x d, triggers (f x d) = triggers d) ->
  forall d, triggers d = true ->
    fold_left (fun acc x => fire (f x) acc) l d
    = fold_left (fun acc x => f x acc) l d.
Proof.
  intros Hf. induction l as [|x l IH]; intros d Hd; simpl; [reflexivity|].
  rewrite (fire_on _ d Hd). apply IH. now rewrite Hf.
Qed.

Lemma fold_fire_off {A} (f : A -> db -> db) l : forall d,
  triggers d = false -> fold_left (fun acc x => fire (f x) acc) l d = d.
Proof.
  induction l as [|x l IH]; intros d Hd; simpl; [reflexivity|].
  rewrite (fire_off _ d Hd). now apply IH.
Qed.

Lemma triggers_fold_fire {A} (f : A -> db -> db) l :
  (forall x d, triggers (f x d) = triggers d) ->
  forall d, triggers (fold_left (fun acc x => fire (f x) acc) l d) = triggers d.
Proof.
  intros Hf. induction l as [|x l IH]; intros d; simpl; [reflexivity|].
  rewrite IH. apply triggers_fire, Hf.
Qed.

(* init.js installs no trigger: the attempt on the whole script stops at
   DELIMITER, and the pieces that name a trigger are skipped or refused. *)
Lemma init_installs_no_trigger : installed_triggers = [].
Proof. reflexivity. Qed.

Lemma as_installed_spec d : as_installed d <-> triggers d = false.
Proof. unfold as_installed. rewrite init_installs_no_trigger. reflexivity. Qed.

Lemma insert_review_like_triggers uid rid d d' :
  insert_review_like uid rid d = Some d' -> triggers d' = triggers d.
Proof.
  unfold insert_review_like.
  destruct (existsb _ _); [discriminate|].
  destruct (negb (user_exists d uid)); [discriminate|].
  destruct (negb (review_exists d rid)); [discriminate|].
  intros H. injection H as <-. now rewrite triggers_fire.
Qed.

Lemma delete_review_likes_triggers uid rid d :
  triggers (delete_review_likes uid rid d) = triggers d.
Proof.
  unfold delete_review_likes.
  now rewrite (triggers_fold_fire
                 (fun l => update_review_likes_count_delete (l_review_id l))).
Qed.

Lemma like_review_triggers rid req d :
  triggers (snd (like_review rid req d)) = triggers d.
Proof.
  unfold like_review.
  destruct (user req) as [u|]; [|reflexivity].
  destruct (List.filter _ (reviews_by_id d rid)) as [|r0 rs]; [reflexivity|].
  destruct (0 <? length _)%nat; [reflexivity|].
  destruct (r_user_id r0 =? userId u); [reflexivity|].
  destruct (insert_review_like (userId u) rid d) as [d'|] eqn:Hins; [|reflexivity].
  apply insert_review_like_triggers in Hins.
  destruct (reviews_by_id d' rid); exact Hins.
Qed.

Lemma unlike_review_triggers rid req d :
  triggers (snd (unlike_review rid req d)) = triggers d.
Proof.
  unfold unlike_review.
  destruct (user req) as [u|]; [|reflexivity].
  destruct (length _ =? 0)%nat; [reflexivity|].
  simpl. apply delete_review_likes_triggers.
Qed.

Lemma guard_preserves (P : db -> Prop) (mw : middleware) (h : handler) req d :
  (forall req', P (snd (h req' d))) -> P d -> P (snd (guard mw h req d)).
Proof.
  intros Hh Hd. unfold guard. destruct (mw d req); [apply Hh | exact Hd].
Qed.

Lemma guard_triggers (mw : middleware) (h : handler) req d :
  (forall req', triggers (snd (h req' d)) = triggers d) ->
  triggers (snd (guard mw h req d)) = triggers d.
Proof.
  intros Hh. unfold guard. destruct (mw d req); [apply Hh | reflexivity].
Qed.

Lemma run_like_ops_triggers jwt_verify ops : forall d,
  triggers (run_like_ops jwt_verify ops d) = triggers d.
Proof.
  unfold run_like_ops. induction ops as [|op ops IH]; intros d; simpl; [reflexivity|].
  rewrite IH. destruct op as [rid req | rid req]; simpl; apply guard_triggers; intros req'.
  - apply like_review_triggers.
  - apply unlike_review_triggers.
Qed.

End Triggers.

(** ** The likes counter where the triggers are installed *)

Section LikesCounterProofs.

Lemma named_app ls ms x : named (ls ++ ms) x = named ls x + named ms x.
Proof.
  unfold named. rewrite List.filter_app, List.length_app. lia.
Qed.

(* Splitting a table by a predicate splits the count. *)
Lemma named_partition (q : like_row -> bool) ls x :
  named ls x
  = named (List.filter (fun l => negb (q l)) ls) x + named (List.filter q ls) x.
Proof.
  unfold named. induction ls as [|l ls IH]; simpl; [reflexivity|].
  destruct (q l); simpl; destruct (l_review_id l =? x); simpl in *; lia.
Qed.

Lemma consistent_off_zero d :
  likes_consistent d <-> consistent_off (fun _ => 0) d.
Proof.
  unfold likes_consistent, consistent_off, count_likes, named.
  split; intros H r Hr; specialize (H r Hr); lia.
Qed.

Lemma consistent_off_ext k k' d :
  (forall x, k x = k' x) -> consistent_off k d -> consistent_off k' d.
Proof.
  intros E H r Hr. rewrite <- E. exact (H r Hr).
Qed.

(* The counter statement moves the offset of one review. *)
Lemma add_likes_count_off delta rid k d :
  consistent_off k d ->
  consistent_off (fun x => k x + (if x =? rid then delta else 0))
                 (add_likes_count delta rid d).
Proof.
  intros H r Hr. unfold add_likes_count in Hr. simpl in Hr.
  apply in_map_iff in Hr. destruct Hr as [r0 [E Hr0]].
  specialize (H r0 Hr0). simpl.
  destruct (r_id r0 =? rid) eqn:Hid; subst r; simpl.
  - rewrite Hid. lia.
  - rewrite Hid. lia.
Qed.

(* The statement on users touches neither reviews nor like rows. *)
Lemma add_total_likes_received_off delta a k d :
  consistent_off k d -> consistent_off k (add_total_likes_received delta a d).
Proof. intros H r Hr. exact (H r Hr). Qed.

Lemma insert_trigger_off rid k d :
  consistent_off k d ->
  consistent_off (fun x => k x + (if x =? rid then 1 else 0))
                 (update_review_likes_count rid d).
Proof.
  intros H. unfold update_review_likes_count.
  apply add_total_likes_received_off. now apply add_likes_count_off.
Qed.

Lemma delete_trigger_off rid k d :
  consistent_off k d ->
  consistent_off (fun x => k x + (if x =? rid then -1 else 0))
                 (update_review_likes_count_delete rid d).
Proof.
  intros H. unfold update_review_likes_count_delete.
  apply add_total_likes_received_off. now apply add_likes_count_off.
Qed.

(* Replacing the like rows moves every offset by the change of its count. *)
Lemma set_review_likes_off ls k k' d :
  (forall x, named (review_likes d) x + k x = named ls x + k' x) ->
  consistent_off k d -> consistent_off k' (set_review_likes ls d).
Proof.
  intros E H r Hr. simpl in *. specialize (H r Hr). specialize (E (r_id r)). lia.
Qed.

(* Running the delete trigger for each removed row pays the offset the
   removal left behind. *)
Lemma delete_triggers_off gone : forall k d,
  consistent_off (fun x => k x + named gone x) d ->
  consistent_off k
    (fold_left (fun acc l => update_review_likes_count_delete (l_review_id l) acc)
               gone d).
Proof.
  induction gone as [|l gone IH]; intros k d H; simpl.
  - eapply consistent_off_ext; [|exact H]. intros x. unfold named. simpl. lia.
  - apply IH. apply delete_trigger_off with (rid := l_review_id l) in H.
    eapply consistent_off_ext; [|exact H].
    intros x. unfold named. simpl.
    destruct (l_review_id l =? x) eqn:E1.
    + apply Z.eqb_eq in E1. rewrite E1, Z.eqb_refl. simpl length. lia.
    + rewrite Z.eqb_sym, E1. lia.
Qed.

Lemma insert_review_like_consistent uid rid d d' :
  triggers d = true ->
  insert_review_like uid rid d = Some d' ->
  likes_consistent d -> likes_consistent d'.
Proof.
  unfold insert_review_like. intros Ht Hins H.
  destruct (existsb _ _); [discriminate|].
  destruct (negb (user_exists d uid)); [discriminate|].
  destruct (negb (review_exists d rid)); [discriminate|].
  injection Hins as <-. rewrite fire_on by exact Ht.
  apply consistent_off_zero. apply consistent_off_zero in H.
  eapply consistent_off_ext; [|apply insert_trigger_off with (rid := rid);
    apply (set_review_likes_off (review_likes d ++ [mkLike uid rid])
                                (fun _ => 0)
                                (fun x => if x =? rid then -1 else 0)); [|exact H]].
  - intros x. simpl. destruct (x =? rid); lia.
  - intros x. rewrite named_app. unfold named at 3. simpl.
    rewrite (Z.eqb_sym rid x). destruct (x =? rid); simpl; lia.
Qed.

Lemma delete_review_likes_consistent uid rid d :
  triggers d = true ->
  likes_consistent d -> likes_consistent (delete_review_likes uid rid d).
Proof.
  intros Ht H. unfold delete_review_likes.
  rewrite (fold_fire_on (fun l => update_review_likes_count_delete (l_review_id l)))
    by (trivial; exact Ht).
  apply consistent_off_zero. apply consistent_off_zero in H.
  apply delete_triggers_off.
  eapply set_review_likes_off; [|exact H].
  intros x. simpl.
  rewrite (named_partition (is_like_of uid rid) (review_likes d) x). lia.
Qed.

Lemma like_review_consistent rid req d :
  triggers d = true ->
  likes_consistent d -> likes_consistent (snd (like_review rid req d)).
Proof.
  intros Ht H. unfold like_review.
  destruct (user req) as [u|]; [|exact H].
  destruct (List.filter _ (reviews_by_id d rid)) as [|r0 rs]; [exact H|].
  destruct (0 <? length _)%nat; [exact H|].
  destruct (r_user_id r0 =? userId u); [exact H|].
  destruct (insert_review_like (userId u) rid d) as [d'|] eqn:Hins; [|exact H].
  apply (insert_review_like_consistent _ _ _ _ Ht) in Hins; [|exact H].
  destruct (reviews_by_id d' rid); exact Hins.
Qed.

Lemma unlike_review_consistent rid req d :
  triggers d = true ->
  likes_consistent d -> likes_consistent (snd (unlike_review rid req d)).
Proof.
  intros Ht H. unfold unlike_review.
  destruct (user req) as [u|]; [|exact H].
  destruct (length _ =? 0)%nat; [exact H|].
  simpl. now apply delete_review_likes_consistent.
Qed.

Variable jwt_verify : string -> jwt_result.

Lemma run_like_op_consistent d op :
  triggers d = true ->
  likes_consistent d -> likes_consistent (run_like_op jwt_verify d op).
Proof.
  intros Ht H. destruct op as [rid req | rid req]; simpl;
    apply guard_preserves; try exact H; intros req'.
  - now apply like_review_consistent.
  - now apply unlike_review_consistent.
Qed.

(* On a database that has the triggers of schema.sql, any sequence of like
   and unlike requests keeps every likes_count equal to the number of
   like rows of its review. *)
Lemma likes_count_kept_by_triggers (ops : list like_op) (d : db) :
  triggers d = true ->
  likes_consistent d ->
  likes_consistent (run_like_ops jwt_verify ops d).
Proof.
  intros Ht H. unfold run_like_ops. revert d Ht H.
  induction ops as [|op ops IH]; intros d Ht H; simpl; [exact H|].
  apply IH.
  - change (triggers (run_like_ops jwt_verify [op] d) = true).
    now rewrite run_like_ops_triggers.
  - now apply run_like_op_consistent.
Qed.

End LikesCounterProofs.

(* With the triggers, one like row survives the run and is counted;
   without them, as init.js leaves the database, the row is there and the
   counter has not moved. *)
Example like_ops_run :
  let d := run_like_ops Demo.verify Demo.like_ops Demo.store_with_triggers in
  let d' := run_like_ops Demo.verify Demo.like_ops Demo.store in
  review_likes d = [mkLike 4 10] /\ map r_likes_count (reviews d) = [1]
  /\ review_likes d' = [mkLike 4 10] /\ map r_likes_count (reviews d') = [0].
Proof. vm_compute. repeat split; reflexivity. Qed.

(** ** Authentication (C10) and what a guarded route sees *)

Section AuthProofs.

Variable jwt_verify : string -> jwt_result.

Lemma length_filter_pos {A} (f : A -> bool) l :
  (0 <? length (List.filter f l))%nat = existsb f l.
Proof.
  induction l as [|x l IH]; simpl; [reflexivity|].
  destruct (f x); simpl; [reflexivity | exact IH].
Qed.

Lemma length_filter_zero {A} (f : A -> bool) l :
  (length (List.filter f l) =? 0)%nat = negb (existsb f l).
Proof.
  induction l as [|x l IH]; simpl; [reflexivity|].
  destruct (f x); simpl; [reflexivity | exact IH].
Qed.

Lemma filter_cons_existsb {A} (f : A -> bool) l x xs :
  List.filter f l = x :: xs -> existsb f l = true.
Proof.
  intros E. rewrite <- length_filter_pos, E. reflexivity.
Qed.

Lemma the_user_exists d u : the_user d u -> user_exists d (u_id u) = true.
Proof. intros E. eapply filter_cons_existsb. exact E. Qed.

Lemma the_review_exists d r : the_review d r -> review_exists d (r_id r) = true.
Proof. intros E. eapply filter_cons_existsb. exact E. Qed.

Lemma authenticated_next d req u :
  authenticated jwt_verify d req u ->
  authenticateToken jwt_verify d req
  = Next (set_user (Some (req_user_of_row u)) req).
Proof.
  intros (token & Htok & Hjwt & Hrow & Hact).
  unfold authenticateToken. rewrite Htok, Hjwt, Hrow, Hact. reflexivity.
Qed.

Lemma guard_authenticated (h : handler) d req u :
  authenticated jwt_verify d req u ->
  guard (authenticateToken jwt_verify) h req d
  = h (set_user (Some (req_user_of_row u)) req) d.
Proof.
  intros H. unfold guard. now rewrite (authenticated_next d req u H).
Qed.

(** C10: a request whose token verifies to a user whose row is not
    'active' is answered 403 ACCOUNT_DISABLED by every route guarded by
    authenticateToken, whatever function the route runs, and the store
    is left as it was; optionalAuth hands such a request on with
    req.user = null, so a route behind it treats the caller as
    anonymous. *)
Theorem C10_inactive_user_blocked (h : handler) (req : request) (d : db)
        (token : string) (u : user_row) :
  bearer_token (authorization req) = Some token ->
  jwt_verify token = JwtDecoded (u_id u) ->
  the_user d u ->
  u_status u <> Active ->
  guard (authenticateToken jwt_verify) h req d
  = (error_response 403 MsgAccountDisabled (Some "ACCOUNT_DISABLED"), d)
  /\ optionalAuth jwt_verify d req = Next (set_user None req)
  /\ guard (optionalAuth jwt_verify) h req d = h (set_user None req) d.
Proof.
  intros Htok Hjwt Hrow Hst.
  assert (Hb : user_status_eqb (u_status u) Active = false).
  { destruct (u_status u); [congruence | reflexivity]. }
  assert (Hopt : optionalAuth jwt_verify d req = Next (set_user None req)).
  { unfold optionalAuth. rewrite Htok, Hjwt, Hrow. simpl. now rewrite Hb. }
  repeat split.
  - unfold guard, authenticateToken. rewrite Htok, Hjwt, Hrow, Hb. reflexivity.
  - exact Hopt.
  - unfold guard. now rewrite Hopt.
Qed.

End AuthProofs.

Lemma C10_inactive_user_blocked_witness :
  guard (authenticateToken Demo.verify) (like_review 10)
        (Demo.as_token "mallory") Demo.store
  = (error_response 403 MsgAccountDisabled (Some "ACCOUNT_DISABLED"), Demo.store)
  /\ optionalAuth Demo.verify Demo.store (Demo.as_token "mallory")
     = Next (set_user None (Demo.as_token "mallory"))
  /\ guard (optionalAuth Demo.verify) (like_review 10)
           (Demo.as_token "mallory") Demo.store
     = like_review 10 (set_user None (Demo.as_token "mallory")) Demo.store.
Proof.
  apply (C10_inactive_user_blocked Demo.verify (like_review 10)
           (Demo.as_token "mallory") Demo.store "mallory" Demo.mallory).
  - reflexivity.
  - reflexivity.
  - reflexivity.
  - discriminate.
Defined.

(** ** Self-like and self-favorite (C2) *)

Section SelfInteraction.

Variable jwt_verify : string -> jwt_result.

Lemma approved_filter r :
  r_status r = Approved ->
  List.filter (fun r0 => review_status_eqb (r_status r0) Approved) [r] = [r].
Proof. intros E. simpl. now rewrite E. Qed.

(** C2: for an authenticated user u and an approved review r written by
    u, the like request of u on r never changes the store (no like row is
    inserted) and, u having no like row on r, is answered 400 with the
    own-review message; the favorite request of u on r, u having no
    favorite row on r yet, is answered 201 and adds the row (u, r) to
    user_favorites. *)
Theorem C2_self_like_refused_self_favorite_accepted
        (req : request) (d : db) (u : user_row) (r : review_row) :
  authenticated jwt_verify d req u ->
  the_review d r ->
  r_status r = Approved ->
  r_user_id r = u_id u ->
  snd (guard (authenticateToken jwt_verify) (like_review (r_id r)) req d) = d
  /\ (liked_by d (u_id u) (r_id r) = false ->
        guard (authenticateToken jwt_verify) (like_review (r_id r)) req d
        = (error_response 400 MsgOwnReviewLike None, d))
  /\ (favorited_by d (u_id u) (r_id r) = false ->
        guard (authenticateToken jwt_verify) (favorite_review (r_id r)) req d
        = (mkResponse 201 true MsgFavorited None
             (FavoriteData (r_id r) (r_title r) true),
           set_user_favorites
             (user_favorites d ++ [mkFavorite (u_id u) (r_id r)]) d)).
Proof.
  intros Hauth Hr Happr Hown.
  pose proof Hauth as (_ & _ & _ & Hrow & _).
  rewrite !(guard_authenticated jwt_verify _ d req u Hauth).
  assert (Hlike : like_review (r_id r) (set_user (Some (req_user_of_row u)) req) d
                  = if liked_by d (u_id u) (r_id r)
                    then (error_response 409 MsgAlreadyLiked None, d)
                    else (error_response 400 MsgOwnReviewLike None, d)).
  { unfold like_review. simpl.
    rewrite Hr, (approved_filter r Happr), length_filter_pos.
    fold (liked_by d (u_id u) (r_id r)).
    destruct (liked_by d (u_id u) (r_id r)); [reflexivity|].
    rewrite Hown, Z.eqb_refl. reflexivity. }
  split; [|split].
  - rewrite Hlike. destruct (liked_by d (u_id u) (r_id r)); reflexivity.
  - intros Hno. rewrite Hlike, Hno. reflexivity.
  - intros Hfav. unfold favorite_review. simpl.
    rewrite Hr, (approved_filter r Happr), length_filter_pos.
    unfold favorited_by in Hfav. rewrite Hfav.
    unfold insert_user_favorite. rewrite Hfav.
    rewrite (the_user_exists d u Hrow), (the_review_exists d r Hr). simpl.
    unfold reviews_by_id. simpl. fold (reviews_by_id d (r_id r)).
    rewrite Hr. reflexivity.
Qed.

End SelfInteraction.

Lemma C2_self_like_refused_self_favorite_accepted_witness :
  guard (authenticateToken Demo.verify) (like_review 10)
        (Demo.as_token "alice") Demo.store
  = (error_response 400 MsgOwnReviewLike None, Demo.store)
  /\ guard (authenticateToken Demo.verify) (favorite_review 10)
           (Demo.as_token "alice") Demo.store
     = (mkResponse 201 true MsgFavorited None (FavoriteData 10 "Spice" true),
        set_user_favorites [mkFavorite 1 10] Demo.store).
Proof.
  assert (Hauth : authenticated Demo.verify Demo.store (Demo.as_token "alice")
                                Demo.alice).
  { exists "alice". repeat split; reflexivity. }
  destruct (C2_self_like_refused_self_favorite_accepted Demo.verify
              (Demo.as_token "alice") Demo.store Demo.alice Demo.review10
              Hauth eq_refl eq_refl eq_refl) as (_ & Hlike & Hfav).
  split; [apply Hlike | apply Hfav]; reflexivity.
Defined.

(* Favoriting twice: the second request meets the row of the first. *)
Example favorite_twice :
  let d1 := snd (guard (authenticateToken Demo.verify) (favorite_review 10)
                       (Demo.as_token "alice") Demo.store) in
  guard (authenticateToken Demo.verify) (favorite_review 10)
        (Demo.as_token "alice") d1
  = (error_response 409 MsgAlreadyFavorited None, d1).
Proof. reflexivity. Qed.

(** ** Review update authorization (C8) *)

Section UpdateAuthorization.

Variable jwt_verify : string -> jwt_result.

Lemma may_update_check u r :
  negb (r_user_id r =? u_id u) && negb (role_eqb (u_role u) RoleAdmin) = false
  <-> may_update u r.
Proof.
  unfold may_update.
  destruct (Z.eqb_spec (r_user_id r) (u_id u)) as [E|E];
    destruct (u_role u); simpl; split; intros H;
    try reflexivity; try discriminate; try (now left); try (now right).
  destruct H as [H|H]; [contradiction | discriminate].
Qed.

(** C8: for an authenticated actor u and a stored review r, PUT
    /reviews/:id of u on r is answered 403 exactly when u is neither the
    author of r nor an admin, and in that case the store (so every field
    of r) is left unchanged; hence the store can change only when u is
    the author or an admin. *)
Theorem C8_update_requires_owner_or_admin
        (req : request) (d : db) (u : user_row) (r : review_row)
        (body : update_body) :
  authenticated jwt_verify d req u ->
  the_review d r ->
  let out := guard (authenticateToken jwt_verify)
                   (update_review (r_id r) body) req d in
  (~ may_update u r ->
     out = (error_response 403 MsgNoUpdatePermission None, d))
  /\ (status (fst out) = 403 <-> ~ may_update u r)
  /\ (snd out <> d -> may_update u r).
Proof.
  intros Hauth Hr out.
  assert (Hout : out = update_review (r_id r) body
                         (set_user (Some (req_user_of_row u)) req) d).
  { unfold out. apply guard_authenticated. exact Hauth. }
  assert (Hdeny : ~ may_update u r ->
                  out = (error_response 403 MsgNoUpdatePermission None, d)).
  { intros Hno. rewrite Hout. unfold update_review. simpl. rewrite Hr.
    destruct (negb (r_user_id r =? u_id u) && negb (role_eqb (u_role u) RoleAdmin))
             eqn:E; [reflexivity|].
    apply may_update_check in E. contradiction. }
  assert (Hallow : may_update u r -> status (fst out) <> 403).
  { intros Hyes. apply may_update_check in Hyes.
    rewrite Hout. unfold update_review. simpl. rewrite Hr, Hyes.
    destruct (ub_rating body) as [rating|], (ub_title body), (ub_content body);
      simpl; try destruct ((rating <? 1) || (5 <? rating)); simpl; lia. }
  split; [exact Hdeny|]. split.
  - split.
    + intros E Hyes. exact (Hallow Hyes E).
    + intros Hno. rewrite (Hdeny Hno). reflexivity.
  - intros Hchg.
    destruct (Z.eqb_spec (r_user_id r) (u_id u)) as [E|E]; [now left|].
    destruct (u_role u) eqn:Hrole; [|now right].
    exfalso. apply Hchg. rewrite Hdeny; [reflexivity|].
    intros [H|H]; [contradiction | congruence].
Qed.

End UpdateAuthorization.

Lemma C8_update_requires_owner_or_admin_witness :
  let out := guard (authenticateToken Demo.verify)
                   (update_review 10 (mkUpdateBody (Some "Sand") None (Some 1)))
                   (Demo.as_token "bob") Demo.store in
  out = (error_response 403 MsgNoUpdatePermission None, Demo.store)
  /\ (status (fst out) = 403 <-> ~ may_update Demo.bob Demo.review10)
  /\ (snd out <> Demo.store -> may_update Demo.bob Demo.review10).
Proof.
  assert (Hauth : authenticated Demo.verify Demo.store (Demo.as_token "bob") Demo.bob).
  { exists "bob". repeat split; reflexivity. }
  assert (Hr : the_review Demo.store Demo.review10) by reflexivity.
  destruct (C8_update_requires_owner_or_admin Demo.verify (Demo.as_token "bob")
              Demo.store Demo.bob Demo.review10
              (mkUpdateBody (Some "Sand") None (Some 1)) Hauth Hr)
    as (Hdeny & Hiff & Hchg).
  split; [|split; [exact Hiff | exact Hchg]].
  apply Hdeny. intros [H|H]; discriminate H.
Defined.

(* bob is refused and nothing changes; alice and the admin are served. *)
Example update_by_stranger :
  guard (authenticateToken Demo.verify)
        (update_review 10 (mkUpdateBody (Some "Sand") None (Some 1)))
        (Demo.as_token "bob") Demo.store
  = (error_response 403 MsgNoUpdatePermission None, Demo.store).
Proof. reflexivity. Qed.

Example update_by_author_and_admin :
  let body := mkUpdateBody (Some "Sand") None (Some 1) in
  let run token := guard (authenticateToken Demo.verify) (update_review 10 body)
                         (Demo.as_token token) Demo.store in
  status (fst (run "alice")) = 200
  /\ status (fst (run "root")) = 200
  /\ map r_title (reviews (snd (run "root"))) = ["Sand"]
  /\ map r_rating (reviews (snd (run "alice"))) = [1].
Proof. vm_compute. repeat split; reflexivity. Qed.

(** ** Comment deletion guard (C9) *)

Section DeleteGuard.

Variable jwt_verify : string -> jwt_result.

Lemma may_delete_check u c :
  may_delete u c ->
  negb (c_user_id c =? u_id u) && negb (role_eqb (u_role u) RoleAdmin) = false.
Proof.
  intros [H|H].
  - rewrite H, Z.eqb_refl. reflexivity.
  - rewrite H. simpl. apply andb_false_r.
Qed.

(* The counter statement leaves the comment rows alone. *)
Lemma comment_triggers_rows gone : forall d,
  review_comments
    (fold_left (fun acc c => fire (add_comments_count (-1) (c_review_id c)) acc)
               gone d)
  = review_comments d.
Proof.
  induction gone as [|c gone IH]; intros d; simpl; [reflexivity|].
  rewrite IH. unfold fire. destruct (triggers d); reflexivity.
Qed.

Lemma delete_review_comment_rows cid d :
  review_comments (delete_review_comment cid d)
  = List.filter (fun c => negb (c_id c =? cid)) (review_comments d).
Proof.
  unfold delete_review_comment. rewrite comment_triggers_rows. reflexivity.
Qed.

Lemma filter_filter_neg {A} (f : A -> bool) l :
  List.filter f (List.filter (fun x => negb (f x)) l) = [].
Proof.
  induction l as [|x l IH]; simpl; [reflexivity|].
  destruct (f x) eqn:E; simpl; [exact IH|]. rewrite E. exact IH.
Qed.

Lemma count_replies_nonneg d cid : 0 <= count_replies d cid.
Proof. unfold count_replies. lia. Qed.

(** C9: for a stored comment c and an authenticated caller who is its
    author or an admin, DELETE /comments/:id on a comment with at least
    one reply row (parent_id = c.id) is answered 409 with the number of
    replies and leaves the store, and so the row of c, as it was; the
    row of c is removed (answer 200) exactly when c has no reply. *)
Theorem C9_delete_refused_when_replied
        (req : request) (d : db) (u : user_row) (c : comment_row) :
  authenticated jwt_verify d req u ->
  the_comment d c ->
  may_delete u c ->
  let n := count_replies d (c_id c) in
  let out := guard (authenticateToken jwt_verify) (delete_comment (c_id c)) req d in
  (0 < n ->
     out = (mkResponse 409 false MsgHasReplies None (RepliesCountData n), d)
     /\ comments_by_id (snd out) (c_id c) = [c])
  /\ (n = 0 ->
        fst out = mkResponse 200 true MsgCommentDeleted None NoData
        /\ comments_by_id (snd out) (c_id c) = [])
  /\ (comments_by_id (snd out) (c_id c) = [] <-> n = 0).
Proof.
  intros Hauth Hc Hmay n out.
  assert (Hout : out = delete_comment (c_id c)
                         (set_user (Some (req_user_of_row u)) req) d).
  { unfold out. apply guard_authenticated. exact Hauth. }
  assert (Hpos : 0 < n ->
            out = (mkResponse 409 false MsgHasReplies None (RepliesCountData n), d)).
  { intros Hn. rewrite Hout. unfold delete_comment. simpl.
    rewrite Hc, (may_delete_check u c Hmay). fold n.
    destruct (Z.ltb_spec 0 n); [reflexivity | lia]. }
  assert (Hzero : n = 0 ->
            out = (mkResponse 200 true MsgCommentDeleted None NoData,
                   delete_review_comment (c_id c) d)).
  { intros Hn. rewrite Hout. unfold delete_comment. simpl.
    rewrite Hc, (may_delete_check u c Hmay). fold n. rewrite Hn. reflexivity. }
  assert (Hgone : comments_by_id (delete_review_comment (c_id c) d) (c_id c) = []).
  { unfold comments_by_id at 1. rewrite delete_review_comment_rows.
    apply (filter_filter_neg (fun c0 => c_id c0 =? c_id c)). }
  split; [|split].
  - intros Hn. rewrite (Hpos Hn). split; [reflexivity | exact Hc].
  - intros Hn. rewrite (Hzero Hn). split; [reflexivity | exact Hgone].
  - split.
    + intros Hempty. pose proof (count_replies_nonneg d (c_id c)) as Hge. fold n in Hge.
      destruct (Z.eq_dec n 0) as [E|E]; [exact E|].
      rewrite Hpos in Hempty by lia. simpl in Hempty.
      rewrite Hc in Hempty. discriminate.
    + intros Hn. rewrite (Hzero Hn). exact Hgone.
Qed.

End DeleteGuard.

Lemma C9_delete_refused_when_replied_witness :
  let out := guard (authenticateToken Demo.verify) (delete_comment 1)
                   (Demo.as_token "bob") Demo.store in
  count_replies Demo.store 1 = 1
  /\ out = (mkResponse 409 false MsgHasReplies None (RepliesCountData 1), Demo.store)
  /\ comments_by_id (snd out) 1 = [Demo.comment1].
Proof.
  assert (Hauth : authenticated Demo.verify Demo.store (Demo.as_token "bob") Demo.bob).
  { exists "bob". repeat split; reflexivity. }
  assert (Hc : the_comment Demo.store Demo.comment1) by reflexivity.
  assert (Hmay : may_delete Demo.bob Demo.comment1) by (left; reflexivity).
  destruct (C9_delete_refused_when_replied Demo.verify (Demo.as_token "bob")
              Demo.store Demo.bob Demo.comment1 Hauth Hc Hmay)
    as (Hpos & _ & _).
  split; [reflexivity|]. apply Hpos. reflexivity.
Defined.

(* bob's comment has one reply: he is refused, and so is the admin; alice
   can delete her reply, which nobody answered (comments_count stays 2 on
   this database, which has no trigger). *)
Example delete_comment_runs :
  let run token id := guard (authenticateToken Demo.verify) (delete_comment id)
                            (Demo.as_token token) Demo.store in
  run "bob" 1
  = (mkResponse 409 false MsgHasReplies None (RepliesCountData 1), Demo.store)
  /\ run "root" 1
     = (mkResponse 409 false MsgHasReplies None (RepliesCountData 1), Demo.store)
  /\ status (fst (run "alice" 2)) = 200
  /\ review_comments (snd (run "alice" 2)) = [Demo.comment1]
  /\ map r_comments_count (reviews (snd (run "alice" 2))) = [2].
Proof. vm_compute. repeat split; reflexivity. Qed.

(** ** One review per user and book (C4) *)

Section Uniqueness.

Lemma the_review_in d r : the_review d r -> In r (reviews d).
Proof.
  intros E. assert (H : In r (reviews_by_id d (r_id r))) by (rewrite E; now left).
  apply filter_In in H. tauto.
Qed.

Lemma books_by_id_exists d b :
  (length (books_by_id d b) =? 0)%nat = negb (book_exists d b).
Proof. apply length_filter_zero. Qed.

(* The soft delete keeps the author and the book of every row. *)
Lemma hide_review_reviewed_by rid d uid b :
  reviewed_by (hide_review rid d) uid b = reviewed_by d uid b.
Proof.
  unfold reviewed_by, hide_review. simpl.
  induction (reviews d) as [|r rs IH]; simpl; [reflexivity|].
  rewrite IH. destruct (r_id r =? rid); reflexivity.
Qed.

Lemma hide_review_by_id rid d :
  reviews_by_id (hide_review rid d) rid
  = map (with_status Hidden) (reviews_by_id d rid).
Proof.
  unfold reviews_by_id, hide_review. simpl.
  induction (reviews d) as [|r rs IH]; simpl; [reflexivity|].
  destruct (r_id r =? rid) eqn:E; simpl; rewrite E; simpl; now rewrite IH.
Qed.

(* The duplicate check of POST /api/reviews answers before any write. *)
Lemma create_review_conflict body req d u b :
  user req = Some u ->
  well_formed_create body b ->
  book_exists d b = true ->
  reviewed_by d (userId u) b = true ->
  create_review body req d = (error_response 409 MsgAlreadyReviewed None, d).
Proof.
  intros Hu (Hb & Hb0 & Ht & Hc & Hrat) Hbook Hdup.
  unfold create_review. rewrite Hu, Hb, Ht, Hc. simpl.
  assert (E0 : (b =? 0) = false) by (apply Z.eqb_neq; exact Hb0).
  rewrite E0.
  destruct (cb_rating body) as [rating|]; simpl in *; [|lia].
  assert (E1 : (rating =? 0) = false) by (apply Z.eqb_neq; lia).
  assert (E2 : (rating <? 1) = false) by (apply Z.ltb_ge; lia).
  assert (E3 : (5 <? rating) = false) by (apply Z.ltb_ge; lia).
  rewrite E1, E2, E3. simpl.
  rewrite books_by_id_exists, Hbook. simpl.
  rewrite length_filter_pos. unfold reviewed_by in Hdup. rewrite Hdup.
  reflexivity.
Qed.

(** C4: when a review r of user u for book b is stored, in whatever
    moderation status, a further well-formed creation request of u for
    b is answered 409 and the store is unchanged (no row is inserted);
    after u soft-deletes r (DELETE /reviews/:id sets its status to
    'hidden') the same request is still answered 409: the soft delete
    does not free the (user, book) slot. *)
Theorem C4_second_review_conflicts
        (body : create_body) (req : request) (d : db)
        (u : req_user) (r : review_row) :
  user req = Some u ->
  the_review d r ->
  r_user_id r = userId u ->
  well_formed_create body (r_book_id r) ->
  book_exists d (r_book_id r) = true ->
  create_review body req d = (error_response 409 MsgAlreadyReviewed None, d)
  /\ let d' := snd (delete_review (r_id r) req d) in
     reviews_by_id d' (r_id r) = [with_status Hidden r]
     /\ create_review body req d'
        = (error_response 409 MsgAlreadyReviewed None, d').
Proof.
  intros Hu Hr Hown Hbody Hbook.
  assert (Hdup : reviewed_by d (userId u) (r_book_id r) = true).
  { unfold reviewed_by. apply existsb_exists. exists r.
    split; [now apply the_review_in|].
    rewrite Hown, !Z.eqb_refl. reflexivity. }
  split; [now apply (create_review_conflict body req d u (r_book_id r))|].
  assert (Hdel : snd (delete_review (r_id r) req d) = hide_review (r_id r) d).
  { unfold delete_review. rewrite Hu, Hr, Hown, Z.eqb_refl. reflexivity. }
  cbv zeta. rewrite Hdel. split.
  - rewrite hide_review_by_id, Hr. reflexivity.
  - apply (create_review_conflict body req _ u (r_book_id r)); try assumption.
    now rewrite hide_review_reviewed_by.
Qed.

End Uniqueness.

Lemma C4_second_review_conflicts_witness :
  let req := set_user (Some (req_user_of_row Demo.alice)) (Demo.as_token "alice") in
  create_review Demo.second_review req Demo.store
  = (error_response 409 MsgAlreadyReviewed None, Demo.store)
  /\ let d' := snd (delete_review 10 req Demo.store) in
     reviews_by_id d' 10 = [with_status Hidden Demo.review10]
     /\ create_review Demo.second_review req d'
        = (error_response 409 MsgAlreadyReviewed None, d').
Proof.
  apply (C4_second_review_conflicts Demo.second_review
           (set_user (Some (req_user_of_row Demo.alice)) (Demo.as_token "alice"))
           Demo.store (req_user_of_row Demo.alice) Demo.review10).
  - reflexivity.
  - reflexivity.
  - reflexivity.
  - unfold well_formed_create. simpl. repeat split; try reflexivity; lia.
  - reflexivity.
Defined.

(* bob has no review of book 5 yet: his request is served.  Where the
   insert trigger is installed it recomputes the statistics of the book
   ((5 + 3) / 2 = 4.00); without it the book row stays as it was. *)
Example first_review_accepted :
  let req := set_user (Some (req_user_of_row Demo.bob)) (Demo.as_token "bob") in
  let out := create_review Demo.second_review req Demo.store in
  let out' := create_review Demo.second_review req Demo.store_with_triggers in
  status (fst out) = 201
  /\ map r_id (reviews (snd out)) = [10; 11]
  /\ books (snd out) = [mkBook 5 "Dune" "Herbert" 1 500]
  /\ books (snd out') = [mkBook 5 "Dune" "Herbert" 2 400].
Proof. vm_compute. repeat split; reflexivity. Qed.

(** ** View tracking (C6) *)

Section ViewTracking.




(* The route is registered without optionalAuth, so the function always
   sees an unset req.user and the key is the source address, whatever
   Authorization header the request carries. *)
Lemma view_route_keyed_by_address auth ip agent :
  dedup_key (actor_of (mkRequest auth None ip agent)) ip
  = fun g => String.eqb (g_ip_address g) ip.
Proof. reflexivity. Qed.

End ViewTracking.


(* Three anonymous views from one address: the first is counted, the one
   ten minutes later is not, the one thirty-one minutes later is; a view by
   alice (were req.user set) right after the first is keyed by her id and
   counted. *)
Example view_runs :
  let t0 := 10000000 in
  let d1 := snd (record_view t0 10 Demo.anonymous Demo.store) in
  let as_alice := set_user (Some (req_user_of_row Demo.alice)) Demo.anonymous in
  fst (record_view t0 10 Demo.anonymous Demo.store)
  = mkResponse 200 true MsgViewCounted None (ViewData 8 true)
  /\ record_view (t0 + 600000) 10 Demo.anonymous d1
     = (mkResponse 200 true MsgViewAlreadyCounted None (ViewData 8 false), d1)
  /\ fst (record_view (t0 + 1860000) 10 Demo.anonymous d1)
     = mkResponse 200 true MsgViewCounted None (ViewData 9 true)
  /\ fst (record_view (t0 + 1) 10 as_alice d1)
     = mkResponse 200 true MsgViewCounted None (ViewData 9 true).
Proof. vm_compute. repeat split; reflexivity. Qed.

(** ** The comment tree (C7) *)

Section CommentTree.

Lemma insert_review_comment_rows rid uid parent content d d' id :
  insert_review_comment rid uid parent content d = Some (d', id) ->
  review_comments d'
  = (review_comments d
     ++ [mkComment (comments_auto_increment d) rid uid parent
                   (utf8_stored content) CApproved])%list
  /\ comments_auto_increment d' = comments_auto_increment d + 1
  /\ id = comments_auto_increment d
  /\ comment_exists d id = false.
Proof.
  unfold insert_review_comment. intros H.
  destruct (negb (review_exists d rid)); [discriminate|].
  destruct (negb (user_exists d uid)); [discriminate|].
  destruct (match parent with Some p => negb (comment_exists d p) | None => false end);
    [discriminate|].
  destruct (comment_exists d (comments_auto_increment d)) eqn:Hfresh; [discriminate|].
  injection H as <- <-. unfold fire. simpl.
  destruct (triggers d); repeat split; try reflexivity; exact Hfresh.
Qed.

Lemma NoDup_add_last {A} (l : list A) x :
  List.NoDup l -> ~ In x l -> List.NoDup (l ++ [x]).
Proof.
  intros Hl Hx. induction Hl as [|y l Hy Hl IH]; simpl.
  - constructor; [intros []|constructor].
  - constructor.
    + intros Hin. apply in_app_or in Hin. destruct Hin as [Hin|[->|[]]].
      * now apply Hy.
      * apply Hx. now left.
    + apply IH. intros Hin. apply Hx. now right.
Qed.

Lemma NoDup_map_filter {A B} (f : A -> B) (q : A -> bool) l :
  List.NoDup (map f l) -> List.NoDup (map f (List.filter q l)).
Proof.
  induction l as [|x l IH]; simpl; intros H; [constructor|].
  inversion H as [|y ys Hx Hl]; subst.
  destruct (q x); simpl; [|now apply IH].
  constructor; [|now apply IH].
  intros Hin. apply Hx. apply in_map_iff in Hin. destruct Hin as (z & E & Hz).
  apply in_map_iff. exists z. split; [exact E|]. apply filter_In in Hz. tauto.
Qed.

(* Two stored comments with the same id are the same row. *)
Lemma comment_by_key (cs : list comment_row) a b :
  List.NoDup (map c_id cs) -> In a cs -> In b cs -> c_id a = c_id b -> a = b.
Proof.
  induction cs as [|c cs IH]; simpl; intros Hnd Ha Hb E; [contradiction|].
  inversion Hnd as [|y ys Hc Hcs]; subst.
  destruct Ha as [->|Ha], Hb as [->|Hb].
  - reflexivity.
  - exfalso. apply Hc. rewrite E. now apply in_map.
  - exfalso. apply Hc. rewrite <- E. now apply in_map.
  - now apply IH.
Qed.

(* A parent that is stored stays a parent when rows are added. *)
Lemma has_parent_incl cs cs' c :
  incl cs cs' -> has_parent cs c = true -> has_parent cs' c = true.
Proof.
  unfold has_parent. intros Hincl. destruct (c_parent_id c) as [p|]; [|trivial].
  rewrite !existsb_exists. intros (pc & Hin & Hpc). exists pc. split; [|exact Hpc].
  now apply Hincl.
Qed.

(* A row added with the next id, whose parent (if any) is stored, keeps
   the forest. *)
Lemma comment_forest_insert d d' row :
  comment_forest d ->
  review_comments d' = (review_comments d ++ [row])%list ->
  comments_auto_increment d' = comments_auto_increment d + 1 ->
  c_id row = comments_auto_increment d ->
  has_parent (review_comments d) row = true ->
  comment_forest d'.
Proof.
  intros (Hnd & Hpos & Hids & Hpar) Hrows Hnext Hid Hrow.
  unfold comment_forest. rewrite Hrows, Hnext.
  split; [|split; [lia|split]].
  - rewrite List.map_app. simpl. apply NoDup_add_last; [exact Hnd|].
    intros Hin. apply in_map_iff in Hin. destruct Hin as (c & E & Hc).
    specialize (Hids c Hc). lia.
  - intros c Hc. apply in_app_or in Hc. destruct Hc as [Hc|[<-|[]]].
    + specialize (Hids c Hc). lia.
    + lia.
  - intros c Hc. apply in_app_or in Hc. destruct Hc as [Hc|[<-|[]]].
    + destruct (Hpar c Hc) as [Hp Ho]. split; [|exact Ho].
      apply has_parent_incl with (cs := review_comments d);
        [apply incl_appl, incl_refl | exact Hp].
    + split.
      * apply has_parent_incl with (cs := review_comments d);
          [apply incl_appl, incl_refl | exact Hrow].
      * unfold parent_older. unfold has_parent in Hrow.
        destruct (c_parent_id row) as [p|]; [|reflexivity].
        apply existsb_exists in Hrow. destruct Hrow as (pc & Hpc & Hm).
        apply andb_prop in Hm. destruct Hm as [Hm _]. apply Z.eqb_eq in Hm.
        specialize (Hids pc Hpc). apply Z.ltb_lt. lia.
Qed.

(* The row the reply route takes as the parent is a stored comment with
   the id of the request. *)
Lemma approved_parent_stored d pid pc rv rest :
  approved_parent_with_review d pid = (pc, rv) :: rest ->
  In pc (review_comments d) /\ c_id pc = pid.
Proof.
  intros E.
  assert (Hin : In (pc, rv) (approved_parent_with_review d pid))
    by (rewrite E; now left).
  unfold approved_parent_with_review in Hin.
  apply in_flat_map in Hin. destruct Hin as (c & Hc & Hpair).
  apply in_map_iff in Hpair. destruct Hpair as (r0 & Heq & _).
  injection Heq as -> _.
  apply filter_In in Hc. destruct Hc as [Hc _].
  apply filter_In in Hc. destruct Hc as [Hc Hid].
  split; [exact Hc | now apply Z.eqb_eq].
Qed.

Lemma delete_review_comment_next_id cid d :
  comments_auto_increment (delete_review_comment cid d) = comments_auto_increment d.
Proof.
  unfold delete_review_comment.
  assert (G : forall l d1,
             comments_auto_increment
               (fold_left (fun acc c =>
                             fire (add_comments_count (-1) (c_review_id c)) acc) l d1)
             = comments_auto_increment d1).
  { induction l as [|c l IH]; intros d1; simpl; [reflexivity|].
    rewrite IH. unfold fire. destruct (triggers d1); reflexivity. }
  rewrite G. reflexivity.
Qed.

Lemma create_comment_keeps_forest rid content req d :
  comment_forest d -> comment_forest (snd (create_comment rid content req d)).
Proof.
  intros H. unfold create_comment.
  destruct (user req) as [u|]; [|exact H].
  destruct (blank content); [exact H|].
  destruct (1000 <? _)%nat; [exact H|].
  destruct (reviews_by_id d rid) as [|rv rvs]; [exact H|].
  destruct (negb _); [exact H|].
  destruct (insert_review_comment _ _ _ _ d) as [[d' id]|] eqn:Hins; [|exact H].
  destruct (insert_review_comment_rows _ _ _ _ _ _ _ Hins) as (Hrows & Hnext & _ & _).
  simpl. eapply comment_forest_insert; [exact H | exact Hrows | exact Hnext | |];
    reflexivity.
Qed.

Lemma reply_comment_keeps_forest pid content req d :
  comment_forest d -> comment_forest (snd (reply_comment pid content req d)).
Proof.
  intros H. unfold reply_comment.
  destruct (user req) as [u|]; [|exact H].
  destruct (blank content); [exact H|].
  destruct (1000 <? _)%nat; [exact H|].
  destruct (approved_parent_with_review d pid) as [|[pc rv] rest] eqn:Hpar; [exact H|].
  destruct (negb _); [exact H|].
  destruct (insert_review_comment _ _ _ _ d) as [[d' id]|] eqn:Hins; [|exact H].
  destruct (insert_review_comment_rows _ _ _ _ _ _ _ Hins) as (Hrows & Hnext & _ & _).
  simpl. eapply comment_forest_insert;
    [exact H | exact Hrows | exact Hnext | reflexivity |].
  destruct (approved_parent_stored d pid pc rv rest Hpar) as [Hin Hid].
  unfold has_parent. simpl. apply existsb_exists. exists pc.
  split; [exact Hin|]. rewrite Hid, !Z.eqb_refl. reflexivity.
Qed.

Lemma delete_comment_keeps_forest cid req d :
  comment_forest d -> comment_forest (snd (delete_comment cid req d)).
Proof.
  intros H. unfold delete_comment.
  destruct (user req) as [u|]; [|exact H].
  destruct (comments_by_id d cid) as [|c0 cs0]; [exact H|].
  destruct (negb _ && negb _); [exact H|].
  destruct (0 <? count_replies d cid) eqn:Hcount; [exact H|].
  destruct H as (Hnd & Hpos & Hids & Hpar).
  pose proof (delete_review_comment_next_id cid d) as Hnext.
  simpl. unfold comment_forest. rewrite Hnext, delete_review_comment_rows.
  split; [now apply NoDup_map_filter|]. split; [exact Hpos|]. split.
  - intros c Hc. apply filter_In in Hc. exact (Hids c (proj1 Hc)).
  - intros c Hc. apply filter_In in Hc. destruct Hc as [Hc Hne].
    destruct (Hpar c Hc) as [Hp Ho]. split; [|exact Ho].
    unfold has_parent in *. destruct (c_parent_id c) as [p|] eqn:Hparent; [|trivial].
    apply existsb_exists in Hp. destruct Hp as (pc & Hpc & Hmatch).
    apply existsb_exists. exists pc. split; [|exact Hmatch].
    apply filter_In. split; [exact Hpc|].
    apply andb_prop in Hmatch. destruct Hmatch as [Hid _]. apply Z.eqb_eq in Hid.
    destruct (Z.eqb_spec (c_id pc) cid) as [E|E]; [|reflexivity].
    (* c would be a reply to the deleted comment, but it has none *)
    exfalso. apply Z.ltb_ge in Hcount. unfold count_replies in Hcount.
    assert (Hrep : In c (List.filter (fun c1 => opt_Z_eqb (c_parent_id c1) cid)
                                     (review_comments d))).
    { apply filter_In. split; [exact Hc|]. rewrite Hparent. simpl.
      apply Z.eqb_eq. congruence. }
    destruct (List.filter _ (review_comments d)); [contradiction | simpl in Hcount; lia].
Qed.

(* Following parent_id leads to rows with smaller ids. *)
Lemma climb_descends d (n : nat) : forall c a,
  comment_forest d ->
  In c (review_comments d) ->
  climb (review_comments d) n c = Some a ->
  In a (review_comments d) /\ (n = 0%nat /\ a = c \/ (0 < n)%nat /\ c_id a < c_id c).
Proof.
  induction n as [|n IH]; intros c a Hf Hc Hclimb; simpl in Hclimb.
  - injection Hclimb as <-. split; [exact Hc|]. left. split; reflexivity.
  - destruct (c_parent_id c) as [p|] eqn:Hp; [|discriminate].
    destruct (List.filter (fun pc => c_id pc =? p) (review_comments d))
      as [|pc rest] eqn:Hfilter; [discriminate|].
    assert (Hpc : In pc (review_comments d) /\ c_id pc = p).
    { assert (Hin : In pc (List.filter (fun pc => c_id pc =? p) (review_comments d)))
        by (rewrite Hfilter; now left).
      apply filter_In in Hin. destruct Hin as [Hin E]. apply Z.eqb_eq in E. tauto. }
    destruct Hpc as [Hpc Hid].
    destruct (IH pc a Hf Hpc Hclimb) as [Ha Hcases]. split; [exact Ha|]. right.
    destruct Hf as (_ & _ & _ & Hpar). destruct (Hpar c Hc) as [_ Ho].
    unfold parent_older in Ho. rewrite Hp in Ho. apply Z.ltb_lt in Ho.
    split; [lia|]. destruct Hcases as [[_ ->] | [_ Hlt]]; lia.
Qed.

(* Every comment hangs under a top-level comment of its review. *)
Lemma climb_reaches_root d :
  comment_forest d ->
  forall c, In c (review_comments d) ->
    exists n root, climb (review_comments d) n c = Some root
                   /\ c_parent_id root = None
                   /\ c_review_id root = c_review_id c.
Proof.
  intros Hf.
  assert (G : forall k c, In c (review_comments d) -> (Z.to_nat (c_id c) < k)%nat ->
                exists n root, climb (review_comments d) n c = Some root
                               /\ c_parent_id root = None
                               /\ c_review_id root = c_review_id c).
  { induction k as [|k IH]; intros c Hc Hk; [lia|].
    destruct (c_parent_id c) as [p|] eqn:Hp.
    - pose proof Hf as (Hnd & _ & Hids & Hpar).
      destruct (Hpar c Hc) as [Hhas Ho].
      unfold has_parent in Hhas. rewrite Hp in Hhas.
      apply existsb_exists in Hhas. destruct Hhas as (pc & Hpc & Hm).
      apply andb_prop in Hm. destruct Hm as [Hid Hrev].
      apply Z.eqb_eq in Hid. apply Z.eqb_eq in Hrev.
      unfold parent_older in Ho. rewrite Hp in Ho. apply Z.ltb_lt in Ho.
      destruct (List.filter (fun pc => c_id pc =? p) (review_comments d))
        as [|pc' rest] eqn:Hfilter.
      + exfalso.
        assert (Hin : In pc (List.filter (fun pc => c_id pc =? p) (review_comments d)))
          by (apply filter_In; split; [exact Hpc | now apply Z.eqb_eq]).
        now rewrite Hfilter in Hin.
      + assert (Hin : In pc' (List.filter (fun pc => c_id pc =? p) (review_comments d)))
          by (rewrite Hfilter; now left).
        apply filter_In in Hin. destruct Hin as [Hpc' Hid']. apply Z.eqb_eq in Hid'.
        assert (Esame : pc' = pc)
          by (apply (comment_by_key (review_comments d)); congruence).
        subst pc'.
        pose proof (Hids pc Hpc) as Hpos. pose proof (Hids c Hc) as Hposc.
        destruct (IH pc Hpc ltac:(lia)) as (n & root & Hclimb & Hroot & Hrv).
        exists (S n), root. simpl. rewrite Hp, Hfilter.
        split; [exact Hclimb|]. split; [exact Hroot | congruence].
    - exists 0%nat, c. simpl. repeat split; try reflexivity. exact Hp. }
  intros c Hc. apply (G (S (Z.to_nat (c_id c))) c Hc). lia.
Qed.

Variable jwt_verify : string -> jwt_result.

Lemma run_comment_op_keeps_forest d op :
  comment_forest d -> comment_forest (run_comment_op jwt_verify d op).
Proof.
  intros H. destruct op as [rid content req | id content req | id req]; simpl;
    apply (guard_preserves comment_forest); try exact H; intros req'.
  - now apply create_comment_keeps_forest.
  - now apply reply_comment_keeps_forest.
  - now apply delete_comment_keeps_forest.
Qed.

Lemma run_comment_ops_keep_forest ops : forall d,
  comment_forest d -> comment_forest (run_comment_ops jwt_verify ops d).
Proof.
  unfold run_comment_ops.
  induction ops as [|op ops IH]; intros d H; simpl; [exact H|].
  apply IH. now apply run_comment_op_keeps_forest.
Qed.

(* The reply of an authenticated user to an approved comment of an
   approved review is stored under that comment, whatever its level. *)
Lemma reply_comment_attaches req d u p rv text :
  comment_forest d ->
  authenticated jwt_verify d req u ->
  the_comment d p ->
  c_status p = CApproved ->
  the_review d rv ->
  r_id rv = c_review_id p ->
  r_status rv = Approved ->
  blank (Some text) = false ->
  (length text <= 1000)%nat ->
  let out := guard (authenticateToken jwt_verify)
                   (reply_comment (c_id p) (Some text)) req d in
  status (fst out) = 201
  /\ review_comments (snd out)
     = (review_comments d
        ++ [mkComment (comments_auto_increment d) (c_review_id p) (u_id u)
                      (Some (c_id p)) (utf8_stored (trim text)) CApproved])%list.
Proof.
  intros Hf Hauth Hp Hpst Hrv Hrid Hrst Hblank Hlen out.
  pose proof Hauth as (_ & _ & _ & Hrow & _).
  subst out. rewrite (guard_authenticated jwt_verify _ d req u Hauth).
  unfold reply_comment. simpl user. cbv beta iota zeta.
  rewrite Hblank.
  assert (Hl : (1000 <? length (get_text (Some text)))%nat = false)
    by (apply Nat.ltb_ge; exact Hlen).
  rewrite Hl.
  assert (Hpar : approved_parent_with_review d (c_id p) = [(p, rv)]).
  { unfold approved_parent_with_review. rewrite Hp. simpl. rewrite Hpst. simpl.
    rewrite <- Hrid, Hrv. reflexivity. }
  rewrite Hpar, Hrst. simpl negb. cbv iota.
  assert (Hfresh : comment_exists d (comments_auto_increment d) = false).
  { destruct Hf as (_ & _ & Hids & _).
    unfold comment_exists.
    destruct (existsb _ (review_comments d)) eqn:E; [|reflexivity].
    apply existsb_exists in E. destruct E as (c & Hc & Hid).
    apply Z.eqb_eq in Hid. specialize (Hids c Hc). lia. }
  assert (Hins : exists d', insert_review_comment (c_review_id p) (u_id u)
                              (Some (c_id p)) (trim text) d
                            = Some (d', comments_auto_increment d)).
  { unfold insert_review_comment.
    rewrite <- Hrid, (the_review_exists d rv Hrv), (the_user_exists d u Hrow).
    assert (Hex : comment_exists d (c_id p) = true)
      by (eapply filter_cons_existsb; exact Hp).
    rewrite Hex, Hfresh. simpl. eexists. reflexivity. }
  destruct Hins as [d' Hins]. simpl userId. simpl get_text. rewrite Hins.
  simpl. split; [reflexivity|].
  exact (proj1 (insert_review_comment_rows _ _ _ _ _ _ _ Hins)).
Qed.

(** C7 (as amended): comments form a forest.  From a store whose comment
    rows form one (ids positive, unique and below the next id; every
    parent_id naming a stored comment of the same review with a smaller
    id), any sequence of comment, reply and comment-delete requests leads
    to such a store; in it every comment hangs, through its parent_id
    links, under a top-level comment of its review, and no comment is
    among its own ancestors.  The reply of an authenticated user to an
    approved comment p of an approved review, p being top-level or itself
    a reply, is accepted and stored with parent_id = p.id and the
    review_id of p, so chains of any length can be built. *)
Theorem C7_replies_attach_to_any_comment (ops : list comment_op) (d : db) :
  comment_forest d ->
  let d1 := run_comment_ops jwt_verify ops d in
  comment_forest d1
  /\ (forall c, In c (review_comments d1) ->
        (exists n root, climb (review_comments d1) n c = Some root
                        /\ c_parent_id root = None
                        /\ c_review_id root = c_review_id c)
        /\ (forall n, (0 < n)%nat -> climb (review_comments d1) n c <> Some c))
  /\ forall req u p rv text,
       authenticated jwt_verify d1 req u ->
       the_comment d1 p ->
       c_status p = CApproved ->
       the_review d1 rv ->
       r_id rv = c_review_id p ->
       r_status rv = Approved ->
       blank (Some text) = false ->
       (length text <= 1000)%nat ->
       let out := guard (authenticateToken jwt_verify)
                        (reply_comment (c_id p) (Some text)) req d1 in
       status (fst out) = 201
       /\ review_comments (snd out)
          = (review_comments d1
             ++ [mkComment (comments_auto_increment d1) (c_review_id p) (u_id u)
                           (Some (c_id p)) (utf8_stored (trim text)) CApproved])%list
       /\ comment_forest (snd out).
Proof.
  intros H d1.
  assert (H1 : comment_forest d1) by now apply run_comment_ops_keep_forest.
  split; [exact H1|]. split.
  - intros c Hc. split; [now apply climb_reaches_root|].
    intros n Hn Hclimb.
    destruct (climb_descends d1 n c c H1 Hc Hclimb) as [_ [[E _] | [_ Hlt]]]; lia.
  - intros req u p rv text Hauth Hp Hpst Hrv Hrid Hrst Hblank Hlen out.
    destruct (reply_comment_attaches req d1 u p rv text H1 Hauth Hp Hpst Hrv Hrid
                                     Hrst Hblank Hlen) as [Hst Hrows].
    split; [exact Hst|]. split; [exact Hrows|].
    subst out. apply (guard_preserves comment_forest); [|exact H1].
    intros req'. now apply reply_comment_keeps_forest.
Qed.

End CommentTree.

(* A reply to a reply is accepted: the store is two-level before the
   request and is not after it. *)
Lemma C7_reply_to_reply_counterexample :
  let out := guard (authenticateToken Demo.verify)
                   (reply_comment 2 (Some (units "A reply to a reply")))
                   (Demo.as_token "bob") Demo.store in
  two_level Demo.store = true
  /\ status (fst out) = 201
  /\ review_comments (snd out)
     = [Demo.comment1; Demo.comment2;
        mkComment 3 10 2 (Some 2) (units "A reply to a reply") CApproved]
  /\ two_level (snd out) = false.
Proof. vm_compute. repeat split; reflexivity. Qed.

Lemma demo_store_forest : comment_forest Demo.store.
Proof.
  split; [|split; [reflexivity|split]].
  - repeat constructor; simpl; intuition discriminate.
  - intros c [<- | [<- | []]]; simpl; lia.
  - intros c [<- | [<- | []]]; split; reflexivity.
Qed.

Lemma C7_replies_attach_to_any_comment_witness :
  let d1 := run_comment_ops Demo.verify Demo.comment_ops Demo.store in
  let out := guard (authenticateToken Demo.verify)
                   (reply_comment 2 (Some (units " Indeed. ")))
                   (Demo.as_token "root") d1 in
  comment_forest Demo.store
  /\ comment_forest d1
  /\ status (fst out) = 201
  /\ review_comments (snd out)
     = (review_comments d1
        ++ [mkComment 5 10 4 (Some 2) (units "Indeed.") CApproved])%list
  /\ comment_forest (snd out).
Proof.
  pose proof demo_store_forest as H.
  destruct (C7_replies_attach_to_any_comment Demo.verify Demo.comment_ops
              Demo.store H) as (H1 & _ & H2).
  split; [exact H|]. split; [exact H1|].
  apply (H2 (Demo.as_token "root") Demo.root Demo.comment2 Demo.review10
            (units " Indeed. ")).
  - exists "root". repeat split; reflexivity.
  - reflexivity.
  - reflexivity.
  - reflexivity.
  - reflexivity.
  - reflexivity.
  - reflexivity.
  - simpl. lia.
Defined.

(* The requests of the run: the reply to a reply is stored as comment 3,
   the admin's comment as 4, bob may delete his unanswered reply but not
   his answered comment. *)
Example comment_ops_run :
  map c_id (review_comments
              (run_comment_ops Demo.verify Demo.comment_ops Demo.store))
  = [1; 2; 4].
Proof. reflexivity. Qed.

(** ** Batch like status (C3) *)

Section BatchStatus.

Variable jwt_verify : string -> jwt_result.
Variable user_likes_history : list segment -> handler.
Variable my_likes_history : handler.

(** C3: on the router as registered, POST /reviews/batch is taken by the
    route POST /reviews/:reviewId, registered first, with reviewId =
    "batch"; a caller without a credential is answered 401 NO_TOKEN by
    authenticateToken and never receives the per-id map. *)
Theorem C3_batch_route_shadowed
        (review_ids : option (list Z)) (u : option req_user)
        (ip : string) (agent : option string) (d : db) :
  dispatch (likes_router jwt_verify user_likes_history my_likes_history)
           POST [SWord "reviews"; SWord "batch"] review_ids
           (mkRequest None u ip agent) d
  = (error_response 401 MsgLoginRequired (Some "NO_TOKEN"), d).
Proof. reflexivity. Qed.

(* For every caller the request is handled as a like of review "batch":
   batch_status is never run by the router. *)
Lemma batch_request_runs_like_route review_ids req d :
  dispatch (likes_router jwt_verify user_likes_history my_likes_history)
           POST [SWord "reviews"; SWord "batch"] review_ids req d
  = guard (authenticateToken jwt_verify) (like_review 0) req d.
Proof. reflexivity. Qed.

(* The function itself, had the request reached it. *)
Lemma batch_status_bounds review_ids req d :
  match review_ids with
  | None => True
  | Some ids => (length ids = 0 \/ 50 < length ids)%nat
  end ->
  status (fst (batch_status jwt_verify review_ids req d)) = 400
  /\ snd (batch_status jwt_verify review_ids req d) = d.
Proof.
  unfold batch_status. destruct review_ids as [ids|]; [|split; reflexivity].
  intros [H|H].
  - rewrite H. split; reflexivity.
  - destruct (Nat.eqb_spec (length ids) 0); [lia|].
    destruct (Nat.ltb_spec 50 (length ids)); [split; reflexivity | lia].
Qed.

Lemma batch_status_anonymous ids u ip agent d :
  (1 <= length ids <= 50)%nat ->
  exists entries,
    batch_status jwt_verify (Some ids) (mkRequest None u ip agent) d
    = (mkResponse 200 true MsgNone None (BatchData entries), d)
    /\ Forall (fun e => be_is_liked e = false) entries
    /\ map be_review_id entries
       = map r_id (List.filter (fun r => existsb (Z.eqb (r_id r)) ids) (reviews d)).
Proof.
  intros Hlen. unfold batch_status.
  destruct (Nat.eqb_spec (length ids) 0); [lia|].
  destruct (Nat.ltb_spec 50 (length ids)); [lia|].
  simpl. eexists. split; [reflexivity|]. split.
  - apply List.Forall_forall. intros e He. apply in_map_iff in He.
    destruct He as (r & <- & _). simpl.
    apply bool_decide_eq_false. apply not_elem_of_empty.
  - rewrite map_map. reflexivity.
Qed.

End BatchStatus.

(* With a valid credential the request is answered as a like of a review
   that does not exist. *)
Example batch_request_with_token :
  let unused : handler := fun _ d => (server_error, d) in
  dispatch (likes_router Demo.verify (fun _ => unused) unused)
           POST [SWord "reviews"; SWord "batch"] (Some [10; 11; 12])
           (Demo.as_token "bob") Demo.store
  = (error_response 404 MsgReviewMissingOrUnapproved None, Demo.store).
Proof. reflexivity. Qed.

(* The same caller on the route of a numbered review is served; the
   likes_count of the answer is the stored one, raised by the trigger
   where there is one. *)
Example like_request_with_token :
  let unused : handler := fun _ d => (server_error, d) in
  fst (dispatch (likes_router Demo.verify (fun _ => unused) unused)
                POST [SWord "reviews"; SInt 10] None
                (Demo.as_token "bob") Demo.store)
  = mkResponse 201 true MsgLiked None (LikeData 10 0 true)
  /\ fst (dispatch (likes_router Demo.verify (fun _ => unused) unused)
                   POST [SWord "reviews"; SInt 10] None
                   (Demo.as_token "bob") Demo.store_with_triggers)
     = mkResponse 201 true MsgLiked None (LikeData 10 1 true).
Proof. split; reflexivity. Qed.

(** ** Profile privacy (C5) *)

Section ProfilePrivacy.

(* req.user has no property named id, so the comparison with the route
   parameter is false for every caller. *)
Lemma own_profile_test_fails (u : req_user) (target : segment) :
  loose_eq_param (get_prop u "id") target = false.
Proof. reflexivity. Qed.

(* A router that serves a request is one of the mounted ones. *)
Lemma mounted_in ms : forall path r sub,
  mounted ms path = Some (r, sub) -> In r (map snd ms).
Proof.
  induction ms as [|[prefix r0] ms IH]; intros path r sub H; simpl in H;
    [discriminate|].
  destruct (strip_prefix prefix path).
  - injection H as <- _. now left.
  - right. eapply IH. exact H.
Qed.

Lemma serve_router m path r sub :
  serve m path = ByRouter r sub -> mounted mounts path = Some (r, sub).
Proof.
  unfold serve. intros H.
  destruct path as [|a [|b [|c rest]]]; destruct m;
    repeat match type of H with
           | (if ?b then _ else _) = _ => destruct b
           | match mounted mounts ?p with _ => _ end = _ =>
               destruct (mounted mounts p) as [[r1 s1]|]
           end;
    try discriminate; injection H as <- <-; reflexivity.
Qed.

(* What every viewer of an active user's profile would receive from the
   function of the route: the stored privacy flags gate nothing. *)
Lemma get_profile_ignores_flags target req d u us :
  List.filter (fun x => user_status_eqb (u_status x) Active)
              (users_by_id d (id_of_segment target)) = u :: us ->
  get_profile target req d
  = (mkResponse 200 true MsgNone None
       (ProfileData
          (mkProfileView
             (u_id u) (u_username u) (u_avatar_url u) (u_bio u)
             (u_signature u)
             None
             (Some (stats_of d (id_of_segment target) u))
             (Some (history_of d (id_of_segment target)))
             (match user req with Some _ => Some false | None => None end))), d).
Proof.
  intros E. unfold get_profile. rewrite E.
  destruct (u_privacy_settings u) as [p|]; destruct (user req) as [v|]; reflexivity.
Qed.

(** C5: the profile view does not behave as claimed.  server.js mounts no
    router under /api/profile, so every request for a profile is answered
    by the 404 function and no path reaches the router of profile.js.
    The function of the route itself, were it mounted, recognises no
    caller as the owner (is_own_profile is never true and the privacy
    settings are never sent), and it sends avatar, signature, stats block
    and history block of an active user to every viewer, whatever privacy
    flags the user has stored. *)
Theorem C5_profile_flags_not_applied :
  (forall m rest, serve m (SWord "api" :: SWord "profile" :: rest) = ByNotFound)
  /\ (forall m path sub, serve m path <> ByRouter ProfileRouter sub)
  /\ (forall (viewer : req_user) target,
        loose_eq_param (get_prop viewer "id") target = false)
  /\ forall target req d u us,
       List.filter (fun x => user_status_eqb (u_status x) Active)
                   (users_by_id d (id_of_segment target)) = u :: us ->
       let out := get_profile target req d in
       snd out = d
       /\ status (fst out) = 200
       /\ data (fst out)
          = ProfileData
              (mkProfileView
                 (u_id u) (u_username u) (u_avatar_url u) (u_bio u)
                 (u_signature u)
                 None
                 (Some (stats_of d (id_of_segment target) u))
                 (Some (history_of d (id_of_segment target)))
                 (match user req with Some _ => Some false | None => None end)).
Proof.
  split; [|split; [|split]].
  - intros m rest. destruct m; destruct rest as [|c rest]; reflexivity.
  - intros m path sub H. apply serve_router in H. apply mounted_in in H.
    simpl in H. intuition discriminate.
  - apply own_profile_test_fails.
  - intros target req d u us E out. subst out.
    rewrite (get_profile_ignores_flags target req d u us E). repeat split.
Qed.

End ProfilePrivacy.

(* alice, whose four stored flags are false, asks for her own profile with
   her token: the application answers 404; the function of the route would
   send her signature, no privacy settings and is_own_profile false. *)
Lemma C5_profile_flags_not_applied_witness :
  serve GET [SWord "api"; SWord "profile"; SInt 1] = ByNotFound
  /\ u_privacy_settings Demo.alice = Some (mkPrivacy false false false false)
  /\ let out := get_profile (SInt 1)
                  (mkRequest (Some "Bearer alice")
                             (Some (mkReqUser 1 "alice@example.org" "alice" RoleUser
                                              (Some "/uploads/avatars/a.jpg")))
                             "203.0.113.9" None)
                  Demo.store in
     snd out = Demo.store
     /\ status (fst out) = 200
     /\ data (fst out)
        = ProfileData
            (mkProfileView 1 "alice" (Some "/uploads/avatars/a.jpg") None
               (Some "reader") None
               (Some (stats_of Demo.store 1 Demo.alice))
               (Some (history_of Demo.store 1))
               (Some false)).
Proof.
  destruct C5_profile_flags_not_applied as (Hserve & _ & _ & Hprofile).
  split; [apply Hserve|]. split; [reflexivity|].
  exact (Hprofile (SInt 1)
                  (mkRequest (Some "Bearer alice")
                             (Some (mkReqUser 1 "alice@example.org" "alice" RoleUser
                                              (Some "/uploads/avatars/a.jpg")))
                             "203.0.113.9" None)
                  Demo.store Demo.alice [] eq_refl).
Defined.

(** * Further properties of the modelled code *)

(** ** The two authentication middlewares *)

Section MiddlewareOutcomes.

Variable jwt_verify : string -> jwt_result.

Lemma users_by_id_in d uid u us :
  users_by_id d uid = u :: us -> In u (users d) /\ u_id u = uid.
Proof.
  intros E. assert (H : In u (users_by_id d uid)) by (rewrite E; now left).
  apply filter_In in H. destruct H as [H1 H2]. apply Z.eqb_eq in H2. tauto.
Qed.

(** X1: authenticateToken calls next() only for a request whose bearer
    token verifies to the id of a stored user with status 'active', and
    then req.user is built from that row; otherwise it answers 401 when
    no token can be read from the header, 500 AUTH_ERROR when the token
    verifies but its payload carries no userId (the user query is refused
    and the catch block answers), and 403 in every other case. *)
Theorem authenticateToken_outcomes (d : db) (req : request) :
  match authenticateToken jwt_verify d req with
  | Next req' =>
      exists token u,
        bearer_token (authorization req) = Some token
        /\ jwt_verify token = JwtDecoded (u_id u)
        /\ In u (users d)
        /\ u_status u = Active
        /\ req' = set_user (Some (req_user_of_row u)) req
  | Respond r =>
      success r = false
      /\ ((bearer_token (authorization req) = None
           /\ status r = 401 /\ code r = Some "NO_TOKEN")
          \/ (exists token,
                bearer_token (authorization req) = Some token
                /\ jwt_verify token = JwtDecodedWithoutUserId
                /\ status r = 500 /\ code r = Some "AUTH_ERROR")
          \/ (exists token,
                bearer_token (authorization req) = Some token
                /\ jwt_verify token <> JwtDecodedWithoutUserId
                /\ status r = 403))
  end.
Proof.
  unfold authenticateToken.
  destruct (bearer_token (authorization req)) as [token|] eqn:Htok.
  - destruct (jwt_verify token) as [uid| | | |] eqn:Hjwt;
      try (split; [reflexivity | right; right; exists token;
                   split; [reflexivity | split; [congruence | reflexivity]]]).
    + destruct (users_by_id d uid) as [|u us] eqn:Hrow;
        [split; [reflexivity | right; right; exists token;
                 split; [reflexivity | split; [congruence | reflexivity]]]|].
      destruct (users_by_id_in d uid u us Hrow) as [Hin Hid].
      destruct (u_status u) eqn:Hst; simpl.
      * exists token, u. rewrite Hid. repeat split; assumption.
      * split; [reflexivity | right; right; exists token;
                split; [reflexivity | split; [congruence | reflexivity]]].
    + split; [reflexivity | right; left; exists token; repeat split; assumption || reflexivity].
  - split; [reflexivity | left; repeat split; reflexivity].
Qed.

(** X2: optionalAuth never answers the request itself: it always calls
    next(), leaving the header and the address as they were, with
    req.user either null or built from a stored 'active' user whose id the
    bearer token verifies to. *)
Theorem optionalAuth_always_next (d : db) (req : request) :
  exists req',
    optionalAuth jwt_verify d req = Next req'
    /\ authorization req' = authorization req
    /\ ip req' = ip req
    /\ (user req' = None
        \/ exists token u,
             bearer_token (authorization req) = Some token
             /\ jwt_verify token = JwtDecoded (u_id u)
             /\ In u (users d)
             /\ u_status u = Active
             /\ user req' = Some (req_user_of_row u)).
Proof.
  unfold optionalAuth.
  destruct (bearer_token (authorization req)) as [token|] eqn:Htok;
    [|eexists; repeat split; now left].
  destruct (jwt_verify token) as [uid| | | |] eqn:Hjwt;
    try (eexists; repeat split; now left).
  destruct (List.filter _ (users_by_id d uid)) as [|u us] eqn:Hrow;
    [eexists; repeat split; now left|].
  assert (Hin : In u (List.filter (fun x => user_status_eqb (u_status x) Active)
                                  (users_by_id d uid)))
    by (rewrite Hrow; now left).
  apply filter_In in Hin. destruct Hin as [Hin Hact].
  apply filter_In in Hin. destruct Hin as [Hin Hid]. apply Z.eqb_eq in Hid.
  eexists. repeat split. right. exists token, u. rewrite Hid.
  repeat split; try assumption; try reflexivity.
  destruct (u_status u); [reflexivity | discriminate].
Qed.

Lemma split_space_no_space t : has_space t = false -> split_space t = [t].
Proof.
  induction t as [|c t IH]; simpl; [reflexivity|].
  destruct (Ascii.eqb c " "%char); simpl; [discriminate|].
  intros H. rewrite (IH H). reflexivity.
Qed.

(** X3: the header the client builds, "Bearer " followed by the token,
    is read back by the middleware as that token, for any non-empty token
    without a space. *)
Theorem bearer_token_round_trip (token : string) :
  token <> "" ->
  has_space token = false ->
  bearer_token (Some (authorization_header token)) = Some token.
Proof.
  intros Hne Hsp. unfold bearer_token, authorization_header.
  change (split_space ("Bearer " ++ token)) with ("Bearer" :: split_space token).
  rewrite (split_space_no_space token Hsp). simpl.
  destruct (String.eqb_spec token ""); [contradiction | reflexivity].
Qed.

End MiddlewareOutcomes.

Lemma bearer_token_round_trip_witness :
  bearer_token (Some (authorization_header "eyJhbGciOi.eyJ1c2VySWQi.c2ln"))
  = Some "eyJhbGciOi.eyJ1c2VySWQi.c2ln".
Proof.
  apply bearer_token_round_trip.
  - discriminate.
  - reflexivity.
Defined.

(* A header without a second word, and one with two spaces, carry no
   token for the middleware. *)
Example bearer_token_unreadable :
  bearer_token (Some "Bearer") = None
  /\ bearer_token (Some "Bearer  abc") = None
  /\ bearer_token (Some "abc") = None.
Proof. repeat split; reflexivity. Qed.

(** ** Like and unlike in sequence *)

Section LikeSequences.

Variable jwt_verify : string -> jwt_result.

Lemma filter_map_preserved {A} (p : A -> bool) (f : A -> A) l :
  (forall x, p (f x) = p x) ->
  List.filter p (map f l) = map f (List.filter p l).
Proof.
  intros Hp. induction l as [|x l IH]; simpl; [reflexivity|].
  rewrite Hp. destruct (p x); simpl; now rewrite IH.
Qed.

Lemma filter_none {A} (f : A -> bool) l :
  existsb f l = false -> List.filter f l = [].
Proof.
  induction l as [|x l IH]; simpl; [reflexivity|].
  destruct (f x); simpl; [discriminate | exact IH].
Qed.

Lemma filter_all_negb {A} (f : A -> bool) l :
  existsb f l = false -> List.filter (fun x => negb (f x)) l = l.
Proof.
  induction l as [|x l IH]; simpl; [reflexivity|].
  destruct (f x); simpl; [discriminate|]. intros H. now rewrite IH.
Qed.

Lemma map_undo {A} (f g : A -> A) l :
  (forall x, g (f x) = x) -> map g (map f l) = l.
Proof.
  intros H. rewrite map_map. induction l as [|x l IH]; simpl; [reflexivity|].
  now rewrite H, IH.
Qed.

Lemma add_likes_count_by_id delta rid d x :
  reviews_by_id (add_likes_count delta rid d) x
  = map (fun r => if r_id r =? rid
                  then with_likes_count (r_likes_count r + delta) r else r)
        (reviews_by_id d x).
Proof.
  unfold reviews_by_id, add_likes_count. simpl.
  apply filter_map_preserved. intros r. destruct (r_id r =? rid); reflexivity.
Qed.

(* The counter statements never change who wrote a review. *)
Lemma add_likes_count_author delta rid d x :
  review_author (add_likes_count delta rid d) x = review_author d x.
Proof.
  unfold review_author. rewrite add_likes_count_by_id.
  destruct (reviews_by_id d x) as [|r rs]; simpl; [reflexivity|].
  destruct (r_id r =? rid); reflexivity.
Qed.

Lemma the_review_author d r : the_review d r -> review_author d (r_id r) = Some (r_user_id r).
Proof. intros E. unfold review_author. rewrite E. reflexivity. Qed.

(* Undoing the two counter statements of the insert trigger. *)
Lemma likes_count_undo rid (r : review_row) :
  (fun r0 => if r_id r0 =? rid
             then with_likes_count (r_likes_count r0 + -1) r0 else r0)
    ((fun r0 => if r_id r0 =? rid
                then with_likes_count (r_likes_count r0 + 1) r0 else r0) r)
  = r.
Proof.
  cbv beta. destruct (r_id r =? rid) eqn:E; simpl; rewrite E; [|reflexivity].
  destruct r; unfold with_likes_count; simpl. f_equal. lia.
Qed.

Lemma likes_received_undo a (u : user_row) :
  (fun u0 => if opt_Z_eqb a (u_id u0)
             then with_total_likes_received (u_total_likes_received u0 + -1) u0
             else u0)
    ((fun u0 => if opt_Z_eqb a (u_id u0)
                then with_total_likes_received (u_total_likes_received u0 + 1) u0
                else u0) u)
  = u.
Proof.
  cbv beta. destruct (opt_Z_eqb a (u_id u)) eqn:E; simpl; rewrite E; [|reflexivity].
  destruct u; unfold with_total_likes_received; simpl. f_equal. lia.
Qed.

Lemma liked_store_on uid rid d :
  triggers d = true ->
  liked_store uid rid d
  = update_review_likes_count rid
      (set_review_likes (review_likes d ++ [mkLike uid rid]) d).
Proof. intros Ht. unfold liked_store. now rewrite fire_on. Qed.

Lemma liked_store_off uid rid d :
  triggers d = false ->
  liked_store uid rid d = set_review_likes (review_likes d ++ [mkLike uid rid]) d.
Proof. intros Ht. unfold liked_store. now rewrite fire_off. Qed.

Lemma liked_store_triggers uid rid d :
  triggers (liked_store uid rid d) = triggers d.
Proof. unfold liked_store. now rewrite triggers_fire. Qed.

Lemma liked_store_review uid d r :
  the_review d r ->
  reviews_by_id (liked_store uid (r_id r) d) (r_id r)
  = [if triggers d then with_likes_count (r_likes_count r + 1) r else r].
Proof.
  intros Hr. destruct (triggers d) eqn:Ht.
  - rewrite liked_store_on by exact Ht. unfold update_review_likes_count.
    change (reviews_by_id
              (add_likes_count 1 (r_id r)
                 (set_review_likes (review_likes d ++ [mkLike uid (r_id r)]) d))
              (r_id r) = [with_likes_count (r_likes_count r + 1) r]).
    rewrite add_likes_count_by_id.
    change (reviews_by_id (set_review_likes _ d) (r_id r))
      with (reviews_by_id d (r_id r)).
    rewrite Hr. simpl. rewrite Z.eqb_refl. reflexivity.
  - rewrite liked_store_off by exact Ht. exact Hr.
Qed.

Lemma liked_store_user uid d r u :
  the_review d r -> the_user d u -> r_user_id r <> u_id u ->
  the_user (liked_store uid (r_id r) d) u.
Proof.
  intros Hr Hu Hne. destruct (triggers d) eqn:Ht.
  - rewrite liked_store_on by exact Ht.
    unfold the_user, users_by_id, update_review_likes_count,
      add_total_likes_received. simpl.
    rewrite filter_map_preserved
      by (intros x; destruct (opt_Z_eqb _ (u_id x)); reflexivity).
    fold (users_by_id d (u_id u)). rewrite Hu. simpl.
    rewrite add_likes_count_author.
    change (review_author (set_review_likes _ d) (r_id r))
      with (review_author d (r_id r)).
    rewrite (the_review_author d r Hr). simpl.
    destruct (Z.eqb_spec (r_user_id r) (u_id u)); [contradiction | reflexivity].
  - rewrite liked_store_off by exact Ht. exact Hu.
Qed.

(* An accepted like: the row is stored, and the answer carries the
   likes_count read back after the insert, one more than before only where
   the insert trigger exists. *)
Lemma like_accepted req d u r :
  authenticated jwt_verify d req u ->
  the_review d r ->
  r_status r = Approved ->
  r_user_id r <> u_id u ->
  liked_by d (u_id u) (r_id r) = false ->
  guard (authenticateToken jwt_verify) (like_review (r_id r)) req d
  = (mkResponse 201 true MsgLiked None
       (LikeData (r_id r) (r_likes_count r + (if triggers d then 1 else 0)) true),
     liked_store (u_id u) (r_id r) d).
Proof.
  intros Hauth Hr Happr Hne Hno.
  pose proof Hauth as (_ & _ & _ & Hrow & _).
  rewrite (guard_authenticated jwt_verify _ d req u Hauth).
  unfold like_review. simpl user. cbv beta iota zeta. simpl userId.
  rewrite Hr, (approved_filter r Happr), length_filter_pos.
  fold (liked_by d (u_id u) (r_id r)). rewrite Hno.
  destruct (Z.eqb_spec (r_user_id r) (u_id u)) as [E|_]; [contradiction|].
  unfold insert_review_like. fold (liked_by d (u_id u) (r_id r)). rewrite Hno.
  rewrite (the_user_exists d u Hrow), (the_review_exists d r Hr). simpl negb. cbv iota.
  fold (liked_store (u_id u) (r_id r) d).
  rewrite (liked_store_review (u_id u) d r Hr).
  destruct (triggers d); [reflexivity|]. now rewrite Z.add_0_r.
Qed.

Lemma liked_store_authenticated req d u r :
  authenticated jwt_verify d req u ->
  the_review d r -> r_user_id r <> u_id u ->
  authenticated jwt_verify (liked_store (u_id u) (r_id r) d) req u.
Proof.
  intros (token & Htok & Hjwt & Hrow & Hact) Hr Hne.
  exists token. repeat split; try assumption.
  now apply liked_store_user.
Qed.

Lemma liked_store_likes uid rid d :
  review_likes (liked_store uid rid d) = (review_likes d ++ [mkLike uid rid])%list.
Proof.
  unfold liked_store, fire. simpl triggers.
  destruct (triggers d); reflexivity.
Qed.

(* Taking the like back leaves the store as it was before the like. *)
Lemma unlike_liked_store uid d r :
  the_review d r ->
  liked_by d uid (r_id r) = false ->
  delete_review_likes uid (r_id r) (liked_store uid (r_id r) d) = d.
Proof.
  intros Hr Hno. unfold delete_review_likes. rewrite liked_store_likes.
  rewrite !List.filter_app. unfold liked_by in Hno.
  rewrite (filter_none _ _ Hno), (filter_all_negb _ _ Hno). simpl.
  unfold is_like_of. simpl. rewrite !Z.eqb_refl. simpl.
  rewrite app_nil_r.
  destruct (triggers d) eqn:Ht.
  - rewrite fire_on by (simpl; rewrite liked_store_triggers; exact Ht).
    rewrite liked_store_on by exact Ht.
    unfold update_review_likes_count_delete, update_review_likes_count.
    rewrite !add_likes_count_author.
    change (review_author (set_review_likes (review_likes d) _) (r_id r))
      with (review_author
              (add_total_likes_received 1
                 (review_author
                    (add_likes_count 1 (r_id r)
                       (set_review_likes (review_likes d ++ [mkLike uid (r_id r)]) d))
                    (r_id r))
                 (add_likes_count 1 (r_id r)
                    (set_review_likes (review_likes d ++ [mkLike uid (r_id r)]) d)))
              (r_id r)).
    change (review_author (add_total_likes_received 1 _ ?x) (r_id r))
      with (review_author x (r_id r)).
    rewrite !add_likes_count_author.
    change (review_author (set_review_likes _ d) (r_id r))
      with (review_author d (r_id r)).
    destruct d as [us bs rs ls fs cs gs ai ci tr].
    unfold add_total_likes_received, add_likes_count, set_review_likes, set_users,
      set_reviews. simpl.
    f_equal.
    + apply map_undo. intros x. apply likes_received_undo.
    + apply map_undo. intros x. apply likes_count_undo.
  - rewrite fire_off by (simpl; rewrite liked_store_triggers; exact Ht).
    rewrite liked_store_off by exact Ht.
    destruct d; reflexivity.
Qed.

(* Without the triggers the like and unlike requests write neither
   reviews nor users. *)
Lemma run_like_ops_tables_off ops : forall d,
  triggers d = false ->
  reviews (run_like_ops jwt_verify ops d) = reviews d
  /\ users (run_like_ops jwt_verify ops d) = users d.
Proof.
  unfold run_like_ops. induction ops as [|op ops IH]; intros d Ht; simpl;
    [split; reflexivity|].
  assert (Hstep : triggers (run_like_op jwt_verify d op) = false
                  /\ reviews (run_like_op jwt_verify d op) = reviews d
                  /\ users (run_like_op jwt_verify d op) = users d).
  { split.
    - change (triggers (run_like_ops jwt_verify [op] d) = false).
      now rewrite run_like_ops_triggers.
    - destruct op as [rid req | rid req]; simpl;
        apply (guard_preserves
                 (fun d' => reviews d' = reviews d /\ users d' = users d));
        try (split; reflexivity); intros req'.
      + unfold like_review.
        destruct (user req') as [v|]; [|split; reflexivity].
        destruct (List.filter _ (reviews_by_id d rid)) as [|r0 rs];
          [split; reflexivity|].
        destruct (0 <? length _)%nat; [split; reflexivity|].
        destruct (r_user_id r0 =? userId v); [split; reflexivity|].
        unfold insert_review_like.
        destruct (existsb _ _); [split; reflexivity|].
        destruct (negb (user_exists d (userId v))); [split; reflexivity|].
        destruct (negb (review_exists d rid)); [split; reflexivity|].
        rewrite fire_off by exact Ht.
        destruct (reviews_by_id _ rid); split; reflexivity.
      + unfold unlike_review.
        destruct (user req') as [v|]; [|split; reflexivity].
        destruct (length _ =? 0)%nat; [split; reflexivity|].
        simpl. unfold delete_review_likes.
        rewrite fold_fire_off by exact Ht. split; reflexivity. }
  destruct Hstep as (Ht' & Hrev & Hus).
  destruct (IH _ Ht') as [IH1 IH2]. rewrite IH1, IH2. now split.
Qed.

(** C1: the counter is not maintained on the database the program sets
    up.  database/init.js installs none of the triggers of schema.sql, and
    the like and unlike routes write review_likes only; so on such a
    database no sequence of like and unlike requests changes any review
    row, and one accepted like (an authenticated user, not the author, on
    an approved review r that they have not liked) adds a like row for r,
    answers with the old likes_count, and leaves likes_count of r one
    below the number of like rows of r, also where the two agreed
    before. *)
Theorem C1_likes_count_not_maintained (d : db) :
  as_installed d ->
  (forall ops, reviews (run_like_ops jwt_verify ops d) = reviews d)
  /\ forall req u r,
       authenticated jwt_verify d req u ->
       the_review d r ->
       r_status r = Approved ->
       r_user_id r <> u_id u ->
       liked_by d (u_id u) (r_id r) = false ->
       likes_consistent d ->
       let out := guard (authenticateToken jwt_verify) (like_review (r_id r)) req d in
       let d1 := run_like_ops jwt_verify [OpLike (r_id r) req] d in
       snd out = d1
       /\ fst out = mkResponse 201 true MsgLiked None
                      (LikeData (r_id r) (r_likes_count r) true)
       /\ In r (reviews d1)
       /\ count_likes d1 (r_id r) = count_likes d (r_id r) + 1
       /\ r_likes_count r = count_likes d1 (r_id r) - 1
       /\ ~ likes_consistent d1.
Proof.
  intros Hinst. apply as_installed_spec in Hinst.
  split; [intros ops; now apply run_like_ops_tables_off|].
  intros req u r Hauth Hr Happr Hne Hno Hcons out d1.
  assert (Hout : out = (mkResponse 201 true MsgLiked None
                          (LikeData (r_id r) (r_likes_count r) true),
                        liked_store (u_id u) (r_id r) d)).
  { subst out. rewrite (like_accepted req d u r Hauth Hr Happr Hne Hno), Hinst.
    now rewrite Z.add_0_r. }
  assert (Hd1 : d1 = liked_store (u_id u) (r_id r) d)
    by (subst d1; unfold run_like_ops; simpl; fold out; now rewrite Hout).
  assert (Hin : In r (reviews d1)).
  { rewrite Hd1, liked_store_off by exact Hinst. now apply the_review_in. }
  assert (Hcount : count_likes d1 (r_id r) = count_likes d (r_id r) + 1).
  { rewrite Hd1. unfold count_likes.
    rewrite liked_store_likes, List.filter_app, List.length_app.
    simpl. rewrite Z.eqb_refl. simpl. lia. }
  pose proof (Hcons r (the_review_in d r Hr)) as Hold.
  split; [now rewrite Hout, Hd1|]. split; [now rewrite Hout|].
  split; [exact Hin|]. split; [exact Hcount|]. split; [lia|].
  intros Hnew. specialize (Hnew r Hin). lia.
Qed.

(** X4: a like that is accepted and then taken back leaves the store
    exactly as it was: for an authenticated user u who is not the author
    of the approved review r and has no like row on it, the like is
    answered 201 with the likes_count read back after the insert (one
    higher where the insert trigger is installed, the stored one where it
    is not), the unlike that follows is answered 200 with the former
    likes_count, and every table (like rows, likes_count, the author's
    total_likes_received) is as before. *)
Theorem like_then_unlike_restores
        (req : request) (d : db) (u : user_row) (r : review_row) :
  authenticated jwt_verify d req u ->
  the_review d r ->
  r_status r = Approved ->
  r_user_id r <> u_id u ->
  liked_by d (u_id u) (r_id r) = false ->
  let out1 := guard (authenticateToken jwt_verify) (like_review (r_id r)) req d in
  let out2 := guard (authenticateToken jwt_verify) (unlike_review (r_id r)) req
                    (snd out1) in
  fst out1 = mkResponse 201 true MsgLiked None
               (LikeData (r_id r)
                         (r_likes_count r + (if triggers d then 1 else 0)) true)
  /\ review_likes (snd out1) = (review_likes d ++ [mkLike (u_id u) (r_id r)])%list
  /\ out2 = (mkResponse 200 true MsgUnliked None
               (LikeData (r_id r) (r_likes_count r) false), d).
Proof.
  intros Hauth Hr Happr Hne Hno out1 out2.
  assert (H1 : out1 = (mkResponse 201 true MsgLiked None
                         (LikeData (r_id r)
                            (r_likes_count r + (if triggers d then 1 else 0)) true),
                       liked_store (u_id u) (r_id r) d))
    by now apply like_accepted.
  split; [now rewrite H1|]. split; [rewrite H1; apply liked_store_likes|].
  subst out2. rewrite H1. simpl snd.
  rewrite (guard_authenticated jwt_verify _ _ req u
             (liked_store_authenticated req d u r Hauth Hr Hne)).
  unfold unlike_review. simpl user. cbv beta iota zeta. simpl userId.
  rewrite length_filter_zero, liked_store_likes, existsb_app. simpl.
  unfold is_like_of at 2. simpl. rewrite !Z.eqb_refl, orb_true_r. simpl.
  rewrite (unlike_liked_store (u_id u) d r Hr Hno), Hr. reflexivity.
Qed.


End LikeSequences.

(** ** Invariants of the like routes *)

Section LikeInvariants.

(* What a call of the like function does to the store: nothing, or the
   insert statement for a user other than the author of the approved
   review with that id. *)
Lemma like_review_step rid req d :
  snd (like_review rid req d) = d
  \/ exists uid r0 rs,
       List.filter (fun r => review_status_eqb (r_status r) Approved)
                   (reviews_by_id d rid) = r0 :: rs
       /\ r_user_id r0 <> uid
       /\ insert_review_like uid rid d = Some (snd (like_review rid req d)).
Proof.
  unfold like_review.
  destruct (user req) as [u|]; [|now left].
  destruct (List.filter _ (reviews_by_id d rid)) as [|r0 rs] eqn:Hrev; [now left|].
  destruct (0 <? length _)%nat; [now left|].
  destruct (Z.eqb_spec (r_user_id r0) (userId u)) as [E|E]; [now left|].
  destruct (insert_review_like (userId u) rid d) as [d'|] eqn:Hins; [|now left].
  right. exists (userId u), r0, rs. split; [reflexivity|]. split; [exact E|].
  rewrite Hins. destruct (reviews_by_id d' rid); reflexivity.
Qed.

Lemma unlike_review_step rid req d :
  snd (unlike_review rid req d) = d
  \/ exists uid, snd (unlike_review rid req d) = delete_review_likes uid rid d.
Proof.
  unfold unlike_review.
  destruct (user req) as [u|]; [|now left].
  destruct (length _ =? 0)%nat; [now left|].
  right. exists (userId u). reflexivity.
Qed.

(* An invariant of the two statements is an invariant of every run. *)
Lemma run_like_ops_invariant (jwt_verify : string -> jwt_result) (P : db -> Prop) :
  (forall d uid rid d' r0 rs,
      P d ->
      List.filter (fun r => review_status_eqb (r_status r) Approved)
                  (reviews_by_id d rid) = r0 :: rs ->
      r_user_id r0 <> uid ->
      insert_review_like uid rid d = Some d' -> P d') ->
  (forall d uid rid, P d -> P (delete_review_likes uid rid d)) ->
  forall ops d, P d -> P (run_like_ops jwt_verify ops d).
Proof.
  intros Hins Hdel. unfold run_like_ops.
  induction ops as [|op ops IH]; intros d H; simpl; [exact H|].
  apply IH. destruct op as [rid req | rid req]; simpl;
    apply guard_preserves; try exact H; intros req'.
  - destruct (like_review_step rid req' d) as [E|(uid & r0 & rs & Hrev & Hne & E)].
    + now rewrite E.
    + exact (Hins d uid rid _ r0 rs H Hrev Hne E).
  - destruct (unlike_review_step rid req' d) as [E|(uid & E)]; rewrite E;
      [exact H | now apply Hdel].
Qed.

Lemma insert_review_like_store uid rid d d' :
  insert_review_like uid rid d = Some d' ->
  d' = liked_store uid rid d
  /\ liked_by d uid rid = false
  /\ review_exists d rid = true.
Proof.
  unfold insert_review_like, liked_by. intros H.
  destruct (existsb _ _); [discriminate|].
  destruct (negb (user_exists d uid)); [discriminate|].
  destruct (review_exists d rid); [|discriminate].
  injection H as <-. repeat split.
Qed.

Lemma delete_triggers_likes gone : forall d,
  review_likes
    (fold_left (fun acc l =>
                  fire (update_review_likes_count_delete (l_review_id l)) acc)
               gone d)
  = review_likes d.
Proof.
  induction gone as [|l gone IH]; intros d; simpl; [reflexivity|].
  rewrite IH. unfold fire. destruct (triggers d); reflexivity.
Qed.

Lemma delete_review_likes_rows uid rid d :
  review_likes (delete_review_likes uid rid d)
  = List.filter (fun l => negb (is_like_of uid rid l)) (review_likes d).
Proof. unfold delete_review_likes. rewrite delete_triggers_likes. reflexivity. Qed.

Lemma not_liked_not_in uid rid ls :
  existsb (is_like_of uid rid) ls = false -> ~ In (mkLike uid rid) ls.
Proof.
  intros H Hin. assert (E : existsb (is_like_of uid rid) ls = true).
  { apply existsb_exists. exists (mkLike uid rid). split; [exact Hin|].
    unfold is_like_of. simpl. now rewrite !Z.eqb_refl. }
  congruence.
Qed.

Lemma NoDup_snoc {A} (l : list A) x :
  List.NoDup l -> ~ In x l -> List.NoDup (l ++ [x]).
Proof.
  induction l as [|y l IH]; intros Hnd Hx; simpl.
  - constructor; [intros [] | constructor].
  - inversion Hnd as [|? ? Hy Hl]; subst. constructor.
    + intros Hin. apply in_app_or in Hin. destruct Hin as [Hin|[->|[]]].
      * contradiction.
      * apply Hx. now left.
    + apply IH; [exact Hl|]. intros Hin. apply Hx. now right.
Qed.

(** X6: the like rows never hold the same (user, review) pair twice:
    from a store without duplicate like rows, any sequence of like and
    unlike requests leads to a store without duplicate like rows. *)
Theorem likes_stay_unique (jwt_verify : string -> jwt_result)
        (ops : list like_op) (d : db) :
  likes_unique d -> likes_unique (run_like_ops jwt_verify ops d).
Proof.
  apply run_like_ops_invariant.
  - intros d0 uid rid d' r0 rs H _ _ Hins.
    destruct (insert_review_like_store uid rid d0 d' Hins) as (-> & Hno & _).
    unfold likes_unique. rewrite liked_store_likes.
    apply NoDup_snoc; [exact H | now apply not_liked_not_in].
  - intros d0 uid rid H. unfold likes_unique. rewrite delete_review_likes_rows.
    now apply List.NoDup_filter.
Qed.

Lemma keyed_same_row (rs : list review_row) a b :
  List.NoDup (map r_id rs) -> In a rs -> In b rs -> r_id a = r_id b -> a = b.
Proof.
  induction rs as [|r rs IH]; intros Hnd Ha Hb E; [contradiction|].
  simpl in Hnd. inversion Hnd as [|? ? Hr Hrs]; subst.
  destruct Ha as [->|Ha], Hb as [->|Hb].
  - reflexivity.
  - exfalso. apply Hr. rewrite E. now apply in_map.
  - exfalso. apply Hr. rewrite <- E. now apply in_map.
  - now apply IH.
Qed.

Lemma add_likes_count_ids delta rid d :
  map r_id (reviews (add_likes_count delta rid d)) = map r_id (reviews d).
Proof.
  unfold add_likes_count. simpl. rewrite map_map. apply map_ext.
  intros r. destruct (r_id r =? rid); reflexivity.
Qed.

(* A row of reviews after a counter statement is a row of before with the
   same id and author. *)
Lemma add_likes_count_row delta rid d r :
  In r (reviews (add_likes_count delta rid d)) ->
  exists r0, In r0 (reviews d) /\ r_id r0 = r_id r /\ r_user_id r0 = r_user_id r.
Proof.
  unfold add_likes_count. simpl. intros H. apply in_map_iff in H.
  destruct H as (r0 & E & Hin). exists r0. split; [exact Hin|].
  subst r. destruct (r_id r0 =? rid); split; reflexivity.
Qed.

Lemma delete_triggers_row gone : forall d r,
  In r (reviews (fold_left
                   (fun acc l =>
                      fire (update_review_likes_count_delete (l_review_id l)) acc)
                   gone d)) ->
  exists r0, In r0 (reviews d) /\ r_id r0 = r_id r /\ r_user_id r0 = r_user_id r.
Proof.
  induction gone as [|l gone IH]; intros d r H; simpl in H.
  - exists r. repeat split. exact H.
  - apply IH in H. destruct H as (r1 & H1 & Hid & Hu).
    unfold fire in H1. destruct (triggers d).
    + apply (add_likes_count_row (-1) (l_review_id l) d) in H1.
      destruct H1 as (r0 & H0 & Hid0 & Hu0). exists r0. repeat split; congruence.
    + exists r1. repeat split; assumption.
Qed.

Lemma delete_triggers_ids gone : forall d,
  map r_id (reviews (fold_left
                       (fun acc l =>
                          fire (update_review_likes_count_delete (l_review_id l)) acc)
                       gone d))
  = map r_id (reviews d).
Proof.
  induction gone as [|l gone IH]; intros d; simpl; [reflexivity|].
  rewrite IH. unfold fire. destruct (triggers d); [|reflexivity].
  apply (add_likes_count_ids (-1) (l_review_id l) d).
Qed.

Lemma liked_store_ids uid rid d :
  map r_id (reviews (liked_store uid rid d)) = map r_id (reviews d).
Proof.
  destruct (triggers d) eqn:Ht.
  - rewrite liked_store_on by exact Ht. unfold update_review_likes_count.
    change (map r_id (reviews
              (add_likes_count 1 rid
                 (set_review_likes (review_likes d ++ [mkLike uid rid]) d)))
            = map r_id (reviews d)).
    now rewrite add_likes_count_ids.
  - now rewrite liked_store_off.
Qed.

Lemma liked_store_row uid rid d r :
  In r (reviews (liked_store uid rid d)) ->
  exists r0, In r0 (reviews d) /\ r_id r0 = r_id r /\ r_user_id r0 = r_user_id r.
Proof.
  destruct (triggers d) eqn:Ht.
  - rewrite liked_store_on by exact Ht. intros Hr.
    change (In r (reviews
              (add_likes_count 1 rid
                 (set_review_likes (review_likes d ++ [mkLike uid rid]) d)))) in Hr.
    apply add_likes_count_row in Hr. exact Hr.
  - rewrite liked_store_off by exact Ht. intros Hr. exists r. repeat split. exact Hr.
Qed.

(** X7: no user ever holds a like on a review of their own: from a
    store whose review ids are distinct and in which no like row belongs
    to the author of the review it names, any sequence of like and unlike
    requests leads to such a store. *)
Theorem self_likes_never_stored (jwt_verify : string -> jwt_result)
        (ops : list like_op) (d : db) :
  reviews_keyed d /\ no_self_likes d ->
  reviews_keyed (run_like_ops jwt_verify ops d)
  /\ no_self_likes (run_like_ops jwt_verify ops d).
Proof.
  apply (run_like_ops_invariant jwt_verify
           (fun x => reviews_keyed x /\ no_self_likes x)).
  - intros d0 uid rid d' ra rs [Hkey Hno] Hrev Hne Hins.
    destruct (insert_review_like_store uid rid d0 d' Hins) as (-> & _ & _).
    split.
    + unfold reviews_keyed. rewrite liked_store_ids. exact Hkey.
    + intros l r Hl Hr Hid.
      apply liked_store_row in Hr. destruct Hr as (r0 & Hr0 & Hid0 & Hu0).
      rewrite <- Hu0.
      rewrite liked_store_likes in Hl. apply in_app_or in Hl.
      destruct Hl as [Hl|[<-|[]]].
      * apply (Hno l r0 Hl Hr0). congruence.
      * simpl in *.
        assert (Hra : In ra (List.filter
                               (fun r => review_status_eqb (r_status r) Approved)
                               (reviews_by_id d0 rid)))
          by (rewrite Hrev; now left).
        apply filter_In in Hra. destruct Hra as [Hra _].
        apply filter_In in Hra. destruct Hra as [Hra Hida]. apply Z.eqb_eq in Hida.
        assert (r0 = ra).
        { apply (keyed_same_row (reviews d0));
            [exact Hkey | exact Hr0 | exact Hra | congruence]. }
        subst r0. exact Hne.
  - intros d0 uid rid [Hkey Hno]. split.
    + unfold reviews_keyed, delete_review_likes. rewrite delete_triggers_ids. exact Hkey.
    + intros l r Hl Hr Hid. rewrite delete_review_likes_rows in Hl.
      apply filter_In in Hl. destruct Hl as [Hl _].
      unfold delete_review_likes in Hr. apply delete_triggers_row in Hr.
      destruct Hr as (r0 & Hr0 & Hid0 & Hu0). simpl in Hr0. rewrite <- Hu0.
      apply (Hno l r0 Hl Hr0). congruence.
Qed.

End LikeInvariants.

(** ** The received-likes total of the author *)

Section ReceivedLikes.

Lemma received_app auth ls ms x :
  received auth (ls ++ ms) x = received auth ls x + received auth ms x.
Proof. unfold received. rewrite List.filter_app, List.length_app. lia. Qed.

Lemma received_partition auth (q : like_row -> bool) ls x :
  received auth ls x
  = received auth (List.filter (fun l => negb (q l)) ls) x
    + received auth (List.filter q ls) x.
Proof.
  unfold received. induction ls as [|l ls IH]; simpl; [reflexivity|].
  destruct (q l); simpl; destruct (opt_Z_eqb (auth (l_review_id l)) x);
    simpl in *; lia.
Qed.

Lemma received_ext auth auth' ls x :
  (forall y, auth y = auth' y) -> received auth ls x = received auth' ls x.
Proof.
  intros E. unfold received. f_equal. f_equal. apply filter_ext.
  intros l. now rewrite E.
Qed.

Lemma received_off_start d :
  received_consistent d -> received_off (review_author d) (fun _ => 0) d.
Proof.
  intros H. split; [reflexivity|]. intros u Hu. rewrite (H u Hu). lia.
Qed.

Lemma received_off_finish auth d :
  received_off auth (fun _ => 0) d -> received_consistent d.
Proof.
  intros [Hauth H] u Hu. rewrite (H u Hu), Z.add_0_r.
  apply received_ext. intros y. now rewrite Hauth.
Qed.

Lemma received_off_ext auth k k' d :
  (forall x, k x = k' x) -> received_off auth k d -> received_off auth k' d.
Proof.
  intros E [Hauth H]. split; [exact Hauth|]. intros u Hu. rewrite <- E. exact (H u Hu).
Qed.

(* The two statements of a like trigger move the total of the author. *)
Lemma like_trigger_received delta rid auth k d :
  received_off auth k d ->
  received_off auth
    (fun x => k x + (if opt_Z_eqb (auth rid) x then delta else 0))
    (add_total_likes_received delta
       (review_author (add_likes_count delta rid d) rid)
       (add_likes_count delta rid d)).
Proof.
  intros [Hauth H]. split.
  - intros y.
    change (review_author (add_likes_count delta rid d) y = auth y).
    rewrite add_likes_count_author. apply Hauth.
  - intros u Hu. unfold add_total_likes_received in Hu. simpl in Hu.
    apply in_map_iff in Hu. destruct Hu as (u0 & E & Hu0).
    specialize (H u0 Hu0). rewrite add_likes_count_author, Hauth in E.
    simpl. subst u.
    destruct (opt_Z_eqb (auth rid) (u_id u0)) eqn:Ha; simpl; rewrite ?Ha; lia.
Qed.

Lemma set_review_likes_received ls auth k k' d :
  (forall x, received auth (review_likes d) x + k x = received auth ls x + k' x) ->
  received_off auth k d -> received_off auth k' (set_review_likes ls d).
Proof.
  intros E [Hauth H]. split; [exact Hauth|].
  intros u Hu. simpl in *. specialize (H u Hu). specialize (E (u_id u)). lia.
Qed.

Lemma delete_triggers_received auth gone : forall k d,
  received_off auth (fun x => k x + received auth gone x) d ->
  received_off auth k
    (fold_left (fun acc l => update_review_likes_count_delete (l_review_id l) acc)
               gone d).
Proof.
  induction gone as [|l gone IH]; intros k d H; simpl.
  - eapply received_off_ext; [|exact H]. intros x. unfold received. simpl. lia.
  - apply IH. unfold update_review_likes_count_delete.
    apply (like_trigger_received (-1) (l_review_id l)) in H.
    eapply received_off_ext; [|exact H].
    intros x. unfold received. simpl.
    destruct (opt_Z_eqb (auth (l_review_id l)) x); simpl length; lia.
Qed.

(** X8: the author's total of received likes follows the like rows
    where the triggers of schema.sql are installed: from such a store in
    which every user's total_likes_received is the number of like rows on
    the reviews that user wrote, any sequence of like and unlike requests
    leads to such a store.  Where they are not installed, as on the
    database database/init.js sets up, no such sequence writes users or
    reviews: every total_likes_received stays what it was. *)
Theorem received_likes_invariant (jwt_verify : string -> jwt_result)
        (ops : list like_op) (d : db) :
  (triggers d = true ->
   received_consistent d -> received_consistent (run_like_ops jwt_verify ops d))
  /\ (triggers d = false ->
      users (run_like_ops jwt_verify ops d) = users d
      /\ reviews (run_like_ops jwt_verify ops d) = reviews d).
Proof.
  split.
  - intros Ht H.
    apply (run_like_ops_invariant jwt_verify
             (fun x => triggers x = true /\ received_consistent x));
      [| |split; assumption].
    + intros d0 uid rid d' r0 rs [Ht0 H0] _ _ Hins.
      split; [now rewrite (insert_review_like_triggers uid rid d0 d' Hins)|].
      destruct (insert_review_like_store uid rid d0 d' Hins) as (-> & _ & _).
      apply (received_off_finish (review_author d0)).
      rewrite liked_store_on by exact Ht0. unfold update_review_likes_count.
      eapply received_off_ext;
        [|apply (like_trigger_received 1 rid);
          apply (set_review_likes_received
                   (review_likes d0 ++ [mkLike uid rid]) (review_author d0)
                   (fun _ => 0)
                   (fun x => if opt_Z_eqb (review_author d0 rid) x then -1 else 0));
          [|apply received_off_start; exact H0]].
      * intros x. simpl. destruct (opt_Z_eqb (review_author d0 rid) x); lia.
      * intros x. rewrite received_app. unfold received at 3. simpl.
        destruct (opt_Z_eqb (review_author d0 rid) x); simpl; lia.
    + intros d0 uid rid [Ht0 H0].
      split; [now rewrite delete_review_likes_triggers|].
      apply (received_off_finish (review_author d0)).
      unfold delete_review_likes.
      rewrite (fold_fire_on
                 (fun l => update_review_likes_count_delete (l_review_id l)))
        by (trivial; exact Ht0).
      apply delete_triggers_received.
      eapply set_review_likes_received; [|apply received_off_start; exact H0].
      intros x. simpl.
      rewrite (received_partition (review_author d0) (is_like_of uid rid)
                                  (review_likes d0) x). lia.
  - intros Ht. destruct (run_like_ops_tables_off jwt_verify ops d Ht) as [H1 H2].
    now split.
Qed.

End ReceivedLikes.

Lemma like_then_unlike_restores_witness :
  let out1 := guard (authenticateToken Demo.verify) (like_review 10)
                    (Demo.as_token "bob") Demo.store_with_triggers in
  let out2 := guard (authenticateToken Demo.verify) (unlike_review 10)
                    (Demo.as_token "bob") (snd out1) in
  fst out1 = mkResponse 201 true MsgLiked None (LikeData 10 (0 + 1) true)
  /\ review_likes (snd out1) = [mkLike 2 10]
  /\ out2 = (mkResponse 200 true MsgUnliked None (LikeData 10 0 false),
             Demo.store_with_triggers).
Proof.
  apply (like_then_unlike_restores Demo.verify (Demo.as_token "bob")
           Demo.store_with_triggers Demo.bob Demo.review10).
  - exists "bob". repeat split; reflexivity.
  - reflexivity.
  - reflexivity.
  - discriminate.
  - reflexivity.
Defined.


Lemma likes_stay_unique_witness :
  likes_unique Demo.store
  /\ likes_unique (run_like_ops Demo.verify Demo.like_ops Demo.store).
Proof.
  assert (H : likes_unique Demo.store) by constructor.
  split; [exact H|].
  exact (likes_stay_unique Demo.verify Demo.like_ops Demo.store H).
Defined.

Lemma self_likes_never_stored_witness :
  (reviews_keyed Demo.store /\ no_self_likes Demo.store)
  /\ reviews_keyed (run_like_ops Demo.verify Demo.like_ops Demo.store)
  /\ no_self_likes (run_like_ops Demo.verify Demo.like_ops Demo.store).
Proof.
  assert (H : reviews_keyed Demo.store /\ no_self_likes Demo.store).
  { split.
    - constructor; [intros [] | constructor].
    - intros l r []. }
  split; [exact H|].
  exact (self_likes_never_stored Demo.verify Demo.like_ops Demo.store H).
Defined.

Lemma received_likes_invariant_witness :
  let d := run_like_ops Demo.verify Demo.like_ops Demo.store_with_triggers in
  let d' := run_like_ops Demo.verify Demo.like_ops Demo.store in
  received_consistent Demo.store_with_triggers
  /\ received_consistent d
  /\ users d' = users Demo.store
  /\ reviews d' = reviews Demo.store.
Proof.
  assert (H : received_consistent Demo.store_with_triggers).
  { intros u [<-|[<-|[<-|[<-|[]]]]]; reflexivity. }
  split; [exact H|]. split.
  - exact (proj1 (received_likes_invariant Demo.verify Demo.like_ops
                    Demo.store_with_triggers) eq_refl H).
  - exact (proj2 (received_likes_invariant Demo.verify Demo.like_ops Demo.store)
                 eq_refl).
Defined.

(* The database init.js sets up: bob likes review 10 of alice; the answer
   carries the old likes_count, the row is stored and the counter of the
   review is one behind. *)
Lemma C1_likes_count_not_maintained_witness :
  let out := guard (authenticateToken Demo.verify) (like_review 10)
                   (Demo.as_token "bob") Demo.store in
  let d1 := run_like_ops Demo.verify [OpLike 10 (Demo.as_token "bob")] Demo.store in
  as_installed Demo.store
  /\ likes_consistent Demo.store
  /\ snd out = d1
  /\ fst out = mkResponse 201 true MsgLiked None (LikeData 10 0 true)
  /\ In Demo.review10 (reviews d1)
  /\ count_likes d1 10 = count_likes Demo.store 10 + 1
  /\ r_likes_count Demo.review10 = count_likes d1 10 - 1
  /\ ~ likes_consistent d1.
Proof.
  assert (Hinst : as_installed Demo.store) by reflexivity.
  assert (Hcons : likes_consistent Demo.store)
    by (intros r [<-|[]]; reflexivity).
  split; [exact Hinst|]. split; [exact Hcons|].
  apply (proj2 (C1_likes_count_not_maintained Demo.verify Demo.store Hinst)
               (Demo.as_token "bob") Demo.bob Demo.review10).
  - exists "bob". repeat split; reflexivity.
  - reflexivity.
  - reflexivity.
  - discriminate.
  - reflexivity.
  - exact Hcons.
Defined.

(* At the end of the run the one like row is root's, on alice's review;
   her total follows it only where the triggers are installed. *)
Example like_ops_totals :
  map u_total_likes_received
      (users (run_like_ops Demo.verify Demo.like_ops Demo.store_with_triggers))
  = [1; 0; 0; 0]
  /\ map u_total_likes_received
         (users (run_like_ops Demo.verify Demo.like_ops Demo.store))
     = [0; 0; 0; 0].
Proof. split; reflexivity. Qed.

(** ** The comments counter *)

Section CommentsCounter.

Lemma comments_on_app cs ds x :
  comments_on (cs ++ ds) x = comments_on cs x + comments_on ds x.
Proof. unfold comments_on. rewrite List.filter_app, List.length_app. lia. Qed.

Lemma comments_on_partition (q : comment_row -> bool) cs x :
  comments_on cs x
  = comments_on (List.filter (fun c => negb (q c)) cs) x
    + comments_on (List.filter q cs) x.
Proof.
  unfold comments_on. induction cs as [|c cs IH]; simpl; [reflexivity|].
  destruct (q c); simpl; destruct (c_review_id c =? x); simpl in *; lia.
Qed.

Lemma comments_off_zero d : comments_consistent d <-> comments_off (fun _ => 0) d.
Proof.
  unfold comments_consistent, comments_off.
  split; intros H r Hr; specialize (H r Hr); lia.
Qed.

Lemma comments_off_ext k k' d :
  (forall x, k x = k' x) -> comments_off k d -> comments_off k' d.
Proof. intros E H r Hr. rewrite <- E. exact (H r Hr). Qed.

Lemma add_comments_count_off delta rid k d :
  comments_off k d ->
  comments_off (fun x => k x + (if x =? rid then delta else 0))
               (add_comments_count delta rid d).
Proof.
  intros H r Hr. unfold add_comments_count in Hr. simpl in Hr.
  apply in_map_iff in Hr. destruct Hr as (r0 & E & Hr0).
  specialize (H r0 Hr0). simpl.
  destruct (r_id r0 =? rid) eqn:Hid; subst r; simpl; rewrite Hid; lia.
Qed.

Lemma set_review_comments_off cs k k' d :
  (forall x, comments_on (review_comments d) x + k x = comments_on cs x + k' x) ->
  comments_off k d -> comments_off k' (set_review_comments cs d).
Proof.
  intros E H r Hr. simpl in *. specialize (H r Hr). specialize (E (r_id r)). lia.
Qed.

Lemma set_comments_auto_increment_off n k d :
  comments_off k d -> comments_off k (set_comments_auto_increment n d).
Proof. intros H r Hr. exact (H r Hr). Qed.

Lemma delete_comment_triggers_off gone : forall k d,
  comments_off (fun x => k x + comments_on gone x) d ->
  comments_off k
    (fold_left (fun acc c => add_comments_count (-1) (c_review_id c) acc) gone d).
Proof.
  induction gone as [|c gone IH]; intros k d H; simpl.
  - eapply comments_off_ext; [|exact H]. intros x. unfold comments_on. simpl. lia.
  - apply IH. apply (add_comments_count_off (-1) (c_review_id c)) in H.
    eapply comments_off_ext; [|exact H].
    intros x. unfold comments_on. simpl.
    destruct (c_review_id c =? x) eqn:E1.
    + apply Z.eqb_eq in E1. rewrite E1, Z.eqb_refl. simpl length. lia.
    + rewrite Z.eqb_sym, E1. lia.
Qed.

(* What a request may do to the counter: follow the rows where the
   triggers are installed, and keep the review rows where they are not. *)
Lemma counter_step_refl d :
  triggers d = triggers d
  /\ (triggers d = true -> comments_consistent d -> comments_consistent d)
  /\ (triggers d = false -> reviews d = reviews d).
Proof. repeat split; trivial. Qed.

Lemma insert_review_comment_counter rid uid parent content d d' id :
  insert_review_comment rid uid parent content d = Some (d', id) ->
  triggers d' = triggers d
  /\ (triggers d = true -> comments_consistent d -> comments_consistent d')
  /\ (triggers d = false -> reviews d' = reviews d).
Proof.
  unfold insert_review_comment. intros Hins.
  destruct (negb (review_exists d rid)); [discriminate|].
  destruct (negb (user_exists d uid)); [discriminate|].
  destruct (match parent with Some p => negb (comment_exists d p) | None => false end);
    [discriminate|].
  destruct (comment_exists d (comments_auto_increment d)); [discriminate|].
  injection Hins as <- _. split; [|split].
  - now rewrite triggers_fire.
  - intros Ht H. rewrite fire_on by exact Ht.
    apply comments_off_zero. apply comments_off_zero in H.
    eapply comments_off_ext;
      [|apply (add_comments_count_off 1 rid);
        apply set_comments_auto_increment_off;
        apply (set_review_comments_off
                 (review_comments d
                  ++ [mkComment (comments_auto_increment d) rid uid parent
                                (utf8_stored content) CApproved])
                 (fun _ => 0) (fun x => if x =? rid then -1 else 0)); [|exact H]].
    + intros x. simpl. destruct (x =? rid); lia.
    + intros x. rewrite comments_on_app. unfold comments_on at 3. simpl.
      rewrite (Z.eqb_sym rid x). destruct (x =? rid); simpl; lia.
  - intros Ht. now rewrite fire_off.
Qed.

Lemma delete_review_comment_counter cid d :
  triggers (delete_review_comment cid d) = triggers d
  /\ (triggers d = true ->
      comments_consistent d -> comments_consistent (delete_review_comment cid d))
  /\ (triggers d = false -> reviews (delete_review_comment cid d) = reviews d).
Proof.
  unfold delete_review_comment. split; [|split].
  - now rewrite (triggers_fold_fire
                   (fun c => add_comments_count (-1) (c_review_id c))).
  - intros Ht H.
    rewrite (fold_fire_on (fun c => add_comments_count (-1) (c_review_id c)))
      by (trivial; exact Ht).
    apply comments_off_zero. apply comments_off_zero in H.
    apply delete_comment_triggers_off.
    eapply set_review_comments_off; [|exact H].
    intros x. simpl. unfold comments_by_id.
    rewrite (comments_on_partition (fun c => c_id c =? cid) (review_comments d) x).
    lia.
  - intros Ht. now rewrite fold_fire_off.
Qed.

Lemma create_comment_counter rid content req d :
  let d' := snd (create_comment rid content req d) in
  triggers d' = triggers d
  /\ (triggers d = true -> comments_consistent d -> comments_consistent d')
  /\ (triggers d = false -> reviews d' = reviews d).
Proof.
  unfold create_comment.
  destruct (user req) as [u|]; [|apply counter_step_refl].
  destruct (blank content); [apply counter_step_refl|].
  destruct (1000 <? _)%nat; [apply counter_step_refl|].
  destruct (reviews_by_id d rid) as [|rv rvs]; [apply counter_step_refl|].
  destruct (negb _); [apply counter_step_refl|].
  destruct (insert_review_comment _ _ _ _ d) as [[d' id]|] eqn:Hins;
    [|apply counter_step_refl].
  exact (insert_review_comment_counter _ _ _ _ _ _ _ Hins).
Qed.

Lemma reply_comment_counter pid content req d :
  let d' := snd (reply_comment pid content req d) in
  triggers d' = triggers d
  /\ (triggers d = true -> comments_consistent d -> comments_consistent d')
  /\ (triggers d = false -> reviews d' = reviews d).
Proof.
  unfold reply_comment.
  destruct (user req) as [u|]; [|apply counter_step_refl].
  destruct (blank content); [apply counter_step_refl|].
  destruct (1000 <? _)%nat; [apply counter_step_refl|].
  destruct (approved_parent_with_review d pid) as [|[pc rv] rest];
    [apply counter_step_refl|].
  destruct (negb _); [apply counter_step_refl|].
  destruct (insert_review_comment _ _ _ _ d) as [[d' id]|] eqn:Hins;
    [|apply counter_step_refl].
  exact (insert_review_comment_counter _ _ _ _ _ _ _ Hins).
Qed.

Lemma delete_comment_counter cid req d :
  let d' := snd (delete_comment cid req d) in
  triggers d' = triggers d
  /\ (triggers d = true -> comments_consistent d -> comments_consistent d')
  /\ (triggers d = false -> reviews d' = reviews d).
Proof.
  unfold delete_comment.
  destruct (user req) as [u|]; [|apply counter_step_refl].
  destruct (comments_by_id d cid) as [|c0 cs0]; [apply counter_step_refl|].
  destruct (negb _ && negb _); [apply counter_step_refl|].
  destruct (0 <? count_replies d cid); [apply counter_step_refl|].
  apply delete_review_comment_counter.
Qed.

Lemma run_comment_op_counter (jwt_verify : string -> jwt_result) d op :
  let d' := run_comment_op jwt_verify d op in
  triggers d' = triggers d
  /\ (triggers d = true -> comments_consistent d -> comments_consistent d')
  /\ (triggers d = false -> reviews d' = reviews d).
Proof.
  destruct op as [rid content req | id content req | id req]; simpl;
    apply (guard_preserves
             (fun d' => triggers d' = triggers d
                        /\ (triggers d = true ->
                            comments_consistent d -> comments_consistent d')
                        /\ (triggers d = false -> reviews d' = reviews d)));
    try apply counter_step_refl; intros req'.
  - apply create_comment_counter.
  - apply reply_comment_counter.
  - apply delete_comment_counter.
Qed.

(** X9: replies count like top-level comments, and the counter follows
    the rows where the triggers of schema.sql are installed: from such a
    store in which every review's comments_count is the number of its
    comment rows, any sequence of comment, reply and comment-delete
    requests leads to such a store.  Where they are not installed, as on
    the database database/init.js sets up, no such sequence writes a
    review row: every comments_count stays what it was. *)
Theorem comments_count_invariant (jwt_verify : string -> jwt_result)
        (ops : list comment_op) (d : db) :
  (triggers d = true ->
   comments_consistent d ->
   comments_consistent (run_comment_ops jwt_verify ops d))
  /\ (triggers d = false ->
      reviews (run_comment_ops jwt_verify ops d) = reviews d).
Proof.
  unfold run_comment_ops. revert d.
  induction ops as [|op ops IH]; intros d; simpl; [split; trivial|].
  destruct (run_comment_op_counter jwt_verify d op) as (Ht & Hon & Hoff).
  destruct (IH (run_comment_op jwt_verify d op)) as [IHon IHoff].
  split; intros Hd.
  - intros H. apply IHon; [now rewrite Ht | now apply Hon].
  - rewrite IHoff by now rewrite Ht. now apply Hoff.
Qed.

End CommentsCounter.

Lemma comments_count_invariant_witness :
  let d := run_comment_ops Demo.verify Demo.comment_ops Demo.store_with_triggers in
  let d' := run_comment_ops Demo.verify Demo.comment_ops Demo.store in
  comments_consistent Demo.store_with_triggers
  /\ comments_consistent d
  /\ reviews d' = reviews Demo.store.
Proof.
  assert (H : comments_consistent Demo.store_with_triggers).
  { intros r [<-|[]]. reflexivity. }
  split; [exact H|]. split.
  - exact (proj1 (comments_count_invariant Demo.verify Demo.comment_ops
                    Demo.store_with_triggers) eq_refl H).
  - exact (proj2 (comments_count_invariant Demo.verify Demo.comment_ops Demo.store)
                 eq_refl).
Defined.

(* Two comments, then a reply and a comment added, then one reply deleted:
   three rows, counted only where the triggers are installed. *)
Example comment_ops_count :
  map r_comments_count
      (reviews (run_comment_ops Demo.verify Demo.comment_ops
                                Demo.store_with_triggers))
  = [3]
  /\ map r_comments_count
         (reviews (run_comment_ops Demo.verify Demo.comment_ops Demo.store))
     = [2].
Proof. split; reflexivity. Qed.

(** ** The request limiter *)

Section RequestLimiter.

Lemma prune_lookup windowStart (m : gmap string (list Z)) clientIP records :
  prune windowStart m !! clientIP = Some records ->
  exists older,
    m !! clientIP = Some older
    /\ records = List.filter (fun time => windowStart <? time) older
    /\ records <> [].
Proof.
  unfold prune. rewrite lookup_omap.
  destruct (m !! clientIP) as [older|]; simpl; [|discriminate].
  destruct (List.filter _ older) as [|t ts] eqn:E; simpl; [discriminate|].
  intros H. injection H as <-. exists older. repeat split.
  - now rewrite E.
  - discriminate.
Qed.

Lemma filter_twice {A} (f : A -> bool) l :
  List.filter f (List.filter f l) = List.filter f l.
Proof.
  induction l as [|x l IH]; simpl; [reflexivity|].
  destruct (f x) eqn:E; simpl; [rewrite E, IH; reflexivity | exact IH].
Qed.

(* Pruning first does not change which records of an address count. *)
Lemma recent_after_prune windowStart (m : gmap string (list Z)) clientIP :
  List.filter (fun time => windowStart <? time)
              (match prune windowStart m !! clientIP with
               | Some records => records
               | None => []
               end)
  = List.filter (fun time => windowStart <? time)
                (match m !! clientIP with
                 | Some records => records
                 | None => []
                 end).
Proof.
  unfold prune. rewrite lookup_omap.
  destruct (m !! clientIP) as [older|]; simpl; [|reflexivity].
  destruct (List.filter _ older) as [|t ts] eqn:E; simpl; [reflexivity|].
  change (List.filter (fun time => windowStart <? time) (t :: ts) = t :: ts).
  rewrite <- E. apply filter_twice.
Qed.

Lemma prune_bounded maxRequests windowStart m :
  counts_bounded maxRequests m -> counts_bounded maxRequests (prune windowStart m).
Proof.
  intros H clientIP records Hl.
  destruct (prune_lookup _ _ _ _ Hl) as (older & Ho & -> & _).
  specialize (H clientIP older Ho).
  pose proof (List.filter_length_le (fun time => windowStart <? time) older). lia.
Qed.

Lemma rateLimit_bounded maxRequests windowMinutes now clientIP m :
  counts_bounded maxRequests m ->
  counts_bounded maxRequests
    (snd (rateLimit maxRequests windowMinutes now clientIP m)).
Proof.
  intros H. unfold rateLimit.
  set (windowStart := now - windowMinutes * 60 * 1000).
  set (recent := List.filter _ _).
  destruct (Z.leb_spec maxRequests (Z.of_nat (length recent))) as [Hfull|Hroom]; simpl.
  - now apply prune_bounded.
  - intros ip records Hl.
    destruct (decide (clientIP = ip)) as [->|Hne].
    + rewrite lookup_insert_eq in Hl. injection Hl as <-.
      rewrite List.length_app. simpl. lia.
    + rewrite lookup_insert_ne in Hl by exact Hne.
      exact (prune_bounded maxRequests windowStart m H ip records Hl).
Qed.

Lemma rate_limit_run_bounded maxRequests windowMinutes calls : forall m,
  counts_bounded maxRequests m ->
  counts_bounded maxRequests (rate_limit_run maxRequests windowMinutes calls m).
Proof.
  unfold rate_limit_run.
  induction calls as [|[now ip] calls IH]; intros m H; simpl; [exact H|].
  apply IH. now apply rateLimit_bounded.
Qed.

(** X10: a limiter never records more than maxRequests requests for an
    address: starting from the empty map, after any sequence of requests
    through it (any times, any addresses) every list stored in
    requestCounts has at most maxRequests entries. *)
Theorem rate_limit_records_bounded (maxRequests windowMinutes : Z)
        (calls : list (Z * string)) (clientIP : string) (records : list Z) :
  rate_limit_run maxRequests windowMinutes calls ∅ !! clientIP = Some records ->
  Z.of_nat (length records) <= maxRequests.
Proof.
  apply (rate_limit_run_bounded maxRequests windowMinutes calls ∅).
  intros ip l Hl. rewrite lookup_empty in Hl. discriminate.
Qed.

(** X11: the limiter decides on the requests of the same address newer
    than the window alone: with maxRequests or more of them the request is
    answered 429 RATE_LIMIT_EXCEEDED and is not recorded; with fewer it is
    passed on and its time is appended to exactly those; the records of
    every other address are only pruned. *)
Theorem rate_limit_decision (maxRequests windowMinutes now : Z)
        (clientIP : string) (m : gmap string (list Z)) :
  let windowStart := now - windowMinutes * 60 * 1000 in
  let recent := List.filter (fun time => windowStart <? time)
                            (match m !! clientIP with
                             | Some records => records
                             | None => []
                             end) in
  let out := rateLimit maxRequests windowMinutes now clientIP m in
  (maxRequests <= recent_count windowMinutes now clientIP m ->
     out = (LimitRespond 429 "RATE_LIMIT_EXCEEDED" windowMinutes,
            prune windowStart m))
  /\ (recent_count windowMinutes now clientIP m < maxRequests ->
        fst out = LimitNext
        /\ snd out !! clientIP = Some (recent ++ [now])%list)
  /\ (forall other, other <> clientIP ->
        snd out !! other = prune windowStart m !! other).
Proof.
  intros windowStart recent out. subst out. unfold rateLimit.
  fold windowStart. rewrite (recent_after_prune windowStart m clientIP).
  fold recent. unfold recent_count. fold windowStart. fold recent.
  destruct (Z.leb_spec maxRequests (Z.of_nat (length recent))) as [Hfull|Hroom];
    simpl.
  - split; [reflexivity|]. split; [lia|]. reflexivity.
  - split; [lia|]. split.
    + intros _. split; [reflexivity|]. apply lookup_insert_eq.
    + intros other Hne. apply lookup_insert_ne. congruence.
Qed.

End RequestLimiter.

Lemma rate_limit_records_bounded_witness :
  let calls := [(1000, "203.0.113.9"); (2000, "203.0.113.9"); (3000, "203.0.113.9")] in
  rate_limit_run 2 15 calls ∅ !! "203.0.113.9" = Some [1000; 2000]
  /\ Z.of_nat (length [1000; 2000]) <= 2.
Proof.
  assert (H : rate_limit_run 2 15
                [(1000, "203.0.113.9"); (2000, "203.0.113.9"); (3000, "203.0.113.9")]
                ∅ !! "203.0.113.9" = Some [1000; 2000]) by (vm_compute; reflexivity).
  split; [exact H|].
  exact (rate_limit_records_bounded 2 15 _ "203.0.113.9" [1000; 2000] H).
Defined.

(* rateLimit(5, 15) as the register and login routes use it: five
   requests in a row pass, the sixth is refused, and a request fifteen
   minutes after the first five passes again. *)
Example rate_limit_five :
  let ip := "203.0.113.9" in
  let five := rate_limit_run 5 15 [(1, ip); (2, ip); (3, ip); (4, ip); (5, ip)] ∅ in
  five !! ip = Some [1; 2; 3; 4; 5]
  /\ fst (rateLimit 5 15 6 ip five) = LimitRespond 429 "RATE_LIMIT_EXCEEDED" 15
  /\ fst (rateLimit 5 15 (5 + 15 * 60 * 1000) ip five) = LimitNext
  /\ snd (rateLimit 5 15 (5 + 15 * 60 * 1000) ip five) !! ip = Some [900005].
Proof. vm_compute. repeat split; reflexivity. Qed.

(** ** Pagination of the list routes *)

Section Paging.

(* Math.ceil(total / limit) pages hold total rows, and one page fewer
   does not. *)
Lemma pages_of_spec (total limit : Z) :
  0 < limit ->
  (pages_of total limit - 1) * limit < total <= pages_of total limit * limit.
Proof.
  intros Hl. unfold pages_of.
  pose proof (Z.div_mod (- total) limit ltac:(lia)) as E.
  pose proof (Z.mod_pos_bound (- total) limit Hl) as B.
  nia.
Qed.

Lemma page_rows_empty {A} (rows : list A) (page limit : Z) :
  0 < limit ->
  page_rows rows page limit = []
  <-> (length rows <= Z.to_nat (offset_of page limit))%nat.
Proof.
  intros Hl. unfold page_rows. rewrite <- List.length_zero_iff_nil.
  rewrite List.length_firstn, List.length_skipn. lia.
Qed.

(** X12: whatever page and limit the query string holds (missing, not a
    number, zero, negative, huge), the list routes work with page >= 1 and
    1 <= limit <= 100, a missing or zero value giving page 1 and limit 20;
    the offset is never negative and a page never holds more than limit
    rows. *)
Theorem pagination_bounds {A} (page limit : option Z) (rows : list A) :
  1 <= page_of page
  /\ 1 <= limit_of limit <= 100
  /\ 0 <= offset_of (page_of page) (limit_of limit)
  /\ Z.of_nat (length (page_rows rows (page_of page) (limit_of limit)))
     <= limit_of limit
  /\ (or_default page 1 = 1 -> page_of page = 1)
  /\ (limit = None \/ limit = Some 0 -> limit_of limit = 20).
Proof.
  assert (Hp : 1 <= page_of page) by (unfold page_of; lia).
  assert (Hl : 1 <= limit_of limit <= 100) by (unfold limit_of; lia).
  repeat split; try lia.
  - unfold offset_of. nia.
  - unfold page_rows. rewrite List.length_firstn. lia.
  - unfold page_of. lia.
  - intros [-> | ->]; reflexivity.
Qed.

(** X13: the page count the list route of the reviews reports,
    Math.ceil(total / limit), is exact wherever the offset is an exact
    number: for limit >= 1, a page >= 1 whose offset (page - 1) * limit is
    at most Number.MAX_SAFE_INTEGER and a selection of total rows (the
    rows of the page query, in whatever order it returns them, total
    being their number), the page holds min(limit, total - offset) rows,
    or none when the offset is not below total; it holds a row exactly
    when its number is at most pages, every page before the last is full,
    and pages is the least number of pages of limit rows that hold total
    rows. *)
Theorem pages_cover_rows {A} (rows : list A) (limit page : Z) :
  1 <= limit ->
  1 <= page ->
  offset_of page limit <= max_safe_integer ->
  let total := Z.of_nat (length rows) in
  let pages := pages_of total limit in
  Z.of_nat (length (page_rows rows page limit))
  = Z.max 0 (Z.min limit (total - offset_of page limit))
  /\ (page_rows rows page limit <> [] <-> page <= pages)
  /\ (page < pages -> Z.of_nat (length (page_rows rows page limit)) = limit)
  /\ (pages - 1) * limit < total <= pages * limit.
Proof.
  intros Hl Hpage _ total pages.
  pose proof (pages_of_spec total limit ltac:(lia)) as S.
  fold pages in S.
  assert (Hlen : Z.of_nat (length (page_rows rows page limit))
                 = Z.max 0 (Z.min limit (total - offset_of page limit))).
  { unfold page_rows. rewrite List.length_firstn, List.length_skipn.
    unfold offset_of. subst total. nia. }
  split; [exact Hlen|]. split; [|split; [|exact S]].
  - rewrite page_rows_empty by lia. unfold offset_of. subst total.
    split; intros H.
    + destruct (Z_le_gt_dec page pages) as [Hle|Hgt]; [exact Hle|].
      exfalso. apply H. nia.
    + intros Hrows. nia.
  - intros Hlt. rewrite Hlen. unfold offset_of. nia.
Qed.

End Paging.

Lemma pages_cover_rows_witness :
  Z.of_nat (length (page_rows [1; 2; 3; 4; 5] 3 2)) = 1
  /\ (page_rows [1; 2; 3; 4; 5] 3 2 <> [] <-> 3 <= pages_of 5 2)
  /\ (3 < pages_of 5 2 -> Z.of_nat (length (page_rows [1; 2; 3; 4; 5] 3 2)) = 2)
  /\ (pages_of 5 2 - 1) * 2 < 5 <= pages_of 5 2 * 2.
Proof.
  apply (pages_cover_rows [1; 2; 3; 4; 5] 2 3).
  - lia.
  - lia.
  - vm_compute. discriminate.
Defined.

(* ?page=-3&limit=1000 is served as page 1 with 100 rows a page; seven
   rows at three a page make three pages, the last with one row. *)
Example pagination_edges :
  page_of (Some (-3)) = 1 /\ limit_of (Some 1000) = 100
  /\ pages_of 7 3 = 3 /\ page_rows [1; 2; 3; 4; 5; 6; 7] 3 3 = [7]
  /\ pages_of 0 20 = 0.
Proof. repeat split; reflexivity. Qed.

(** ** Favorites: adding and removing *)

Section FavoriteRoundTrip.

Variable jwt_verify : string -> jwt_result.

Lemma is_favorite_of_new uid rid :
  is_favorite_of uid rid (mkFavorite uid rid) = true.
Proof. unfold is_favorite_of. simpl. now rewrite !Z.eqb_refl. Qed.

Lemma set_user_favorites_undo fs d :
  set_user_favorites (user_favorites d) (set_user_favorites fs d) = d.
Proof. destruct d. reflexivity. Qed.

(* The store an accepted favorite leaves. *)
Lemma favorite_accepted req d u r :
  authenticated jwt_verify d req u ->
  the_review d r ->
  r_status r = Approved ->
  favorited_by d (u_id u) (r_id r) = false ->
  guard (authenticateToken jwt_verify) (favorite_review (r_id r)) req d
  = (mkResponse 201 true MsgFavorited None
       (FavoriteData (r_id r) (r_title r) true),
     set_user_favorites (user_favorites d ++ [mkFavorite (u_id u) (r_id r)]) d).
Proof.
  intros Hauth Hr Happr Hno.
  rewrite (guard_authenticated jwt_verify _ d req u Hauth).
  destruct Hauth as (token & _ & _ & Hu & _).
  unfold favorite_review. simpl user. cbv beta iota zeta. simpl userId.
  rewrite Hr, (approved_filter r Happr), length_filter_pos.
  unfold favorited_by in Hno. rewrite Hno.
  unfold insert_user_favorite.
  rewrite Hno, (the_user_exists d u Hu), (the_review_exists d r Hr). simpl negb.
  cbv iota.
  change (reviews_by_id (set_user_favorites _ d) (r_id r))
    with (reviews_by_id d (r_id r)).
  rewrite Hr. reflexivity.
Qed.

(** X14: a favorite that is accepted and then removed leaves the store as
    it was: for an authenticated user u with no favorite row on the
    approved review r, the favorite is answered 201, the removal that
    follows is answered 200 and gives back the store of before, and a
    second removal is answered 404 and changes nothing. *)
Theorem favorite_then_unfavorite_restores
        (req : request) (d : db) (u : user_row) (r : review_row) :
  authenticated jwt_verify d req u ->
  the_review d r ->
  r_status r = Approved ->
  favorited_by d (u_id u) (r_id r) = false ->
  let req' := set_user (Some (req_user_of_row u)) req in
  let out1 := guard (authenticateToken jwt_verify) (favorite_review (r_id r)) req d in
  let out2 := unfavorite_review (r_id r) req' (snd out1) in
  let out3 := unfavorite_review (r_id r) req' (snd out2) in
  fst out1 = mkResponse 201 true MsgFavorited None
               (FavoriteData (r_id r) (r_title r) true)
  /\ out2 = (mkUnfavoriteResponse 200 true MsgUnfavorited (Some (r_id r, false)), d)
  /\ out3 = (mkUnfavoriteResponse 404 false MsgNotFavorited None, d).
Proof.
  intros Hauth Hr Happr Hno req' out1 out2 out3.
  assert (H1 : out1 = (mkResponse 201 true MsgFavorited None
                         (FavoriteData (r_id r) (r_title r) true),
                       set_user_favorites
                         (user_favorites d ++ [mkFavorite (u_id u) (r_id r)]) d))
    by now apply favorite_accepted.
  assert (H2 : out2 = (mkUnfavoriteResponse 200 true MsgUnfavorited
                         (Some (r_id r, false)), d)).
  { subst out2. rewrite H1. simpl snd.
    unfold unfavorite_review. simpl user. cbv beta iota zeta. simpl userId.
    rewrite length_filter_zero. simpl user_favorites.
    rewrite existsb_app. simpl existsb.
    rewrite is_favorite_of_new, orb_true_r. simpl.
    unfold delete_user_favorites. simpl user_favorites.
    rewrite List.filter_app. simpl List.filter.
    rewrite is_favorite_of_new. simpl.
    unfold favorited_by in Hno. rewrite (filter_all_negb _ _ Hno), app_nil_r.
    now rewrite set_user_favorites_undo. }
  split; [now rewrite H1|]. split; [exact H2|].
  subst out3. rewrite H2. simpl snd.
  unfold unfavorite_review. simpl user. cbv beta iota zeta. simpl userId.
  rewrite length_filter_zero. unfold favorited_by in Hno. now rewrite Hno.
Qed.

End FavoriteRoundTrip.

Lemma favorite_then_unfavorite_restores_witness :
  let req' := set_user (Some (req_user_of_row Demo.bob)) (Demo.as_token "bob") in
  let out1 := guard (authenticateToken Demo.verify) (favorite_review 10)
                    (Demo.as_token "bob") Demo.store in
  let out2 := unfavorite_review 10 req' (snd out1) in
  let out3 := unfavorite_review 10 req' (snd out2) in
  fst out1 = mkResponse 201 true MsgFavorited None (FavoriteData 10 "Spice" true)
  /\ out2 = (mkUnfavoriteResponse 200 true MsgUnfavorited (Some (10, false)),
             Demo.store)
  /\ out3 = (mkUnfavoriteResponse 404 false MsgNotFavorited None, Demo.store).
Proof.
  apply (favorite_then_unfavorite_restores Demo.verify (Demo.as_token "bob")
           Demo.store Demo.bob Demo.review10).
  - exists "bob". repeat split; reflexivity.
  - reflexivity.
  - reflexivity.
  - reflexivity.
Defined.

(** ** A deleted review *)

Section HiddenReview.

Variable jwt_verify : string -> jwt_result.

Lemma delete_review_accepted req d u r :
  authenticated jwt_verify d req u ->
  the_review d r ->
  r_user_id r = u_id u \/ u_role u = RoleAdmin ->
  guard (authenticateToken jwt_verify) (delete_review (r_id r)) req d
  = (mkResponse 200 true MsgReviewDeleted None NoData, hide_review (r_id r) d).
Proof.
  intros Hauth Hr Hmay.
  rewrite (guard_authenticated jwt_verify _ d req u Hauth).
  unfold delete_review. simpl user. cbv beta iota zeta. simpl userId. simpl role.
  rewrite Hr.
  assert (E : negb (r_user_id r =? u_id u) && negb (role_eqb (u_role u) RoleAdmin)
              = false).
  { destruct Hmay as [-> | ->].
    - now rewrite Z.eqb_refl.
    - simpl. apply andb_false_r. }
  now rewrite E.
Qed.

Lemma hidden_not_approved d r :
  the_review d r ->
  List.filter (fun r0 => review_status_eqb (r_status r0) Approved)
              (reviews_by_id (hide_review (r_id r) d) (r_id r)) = [].
Proof.
  intros Hr. rewrite hide_review_by_id, Hr. reflexivity.
Qed.

(** X15: deleting a review hides it and keeps its row: after the author or
    an admin deletes review r (answer 200) the row is still stored, with
    status 'hidden'; from then on a view of it is answered 404
    REVIEW_NOT_FOUND, a like and a favorite are answered 404 and a
    well-formed comment 403, each leaving the store untouched; deleting it
    once more is answered 200 again and changes nothing. *)
Theorem deleted_review_is_closed
        (req : request) (d : db) (u : user_row) (r : review_row) :
  authenticated jwt_verify d req u ->
  the_review d r ->
  r_user_id r = u_id u \/ u_role u = RoleAdmin ->
  let out := guard (authenticateToken jwt_verify) (delete_review (r_id r)) req d in
  let d' := snd out in
  fst out = mkResponse 200 true MsgReviewDeleted None NoData
  /\ reviews_by_id d' (r_id r) = [with_status Hidden r]
  /\ (forall now req2,
        record_view now (r_id r) req2 d'
        = (error_response 404 MsgReviewMissing (Some "REVIEW_NOT_FOUND"), d'))
  /\ (forall req2 actor, user req2 = Some actor ->
        like_review (r_id r) req2 d'
        = (error_response 404 MsgReviewMissingOrUnapproved None, d')
        /\ favorite_review (r_id r) req2 d'
           = (error_response 404 MsgReviewMissingOrUnapproved None, d')
        /\ forall content,
             blank content = false ->
             (length (get_text content) <= 1000)%nat ->
             create_comment (r_id r) content req2 d'
             = (error_response 403 MsgReviewNotApproved None, d'))
  /\ guard (authenticateToken jwt_verify) (delete_review (r_id r)) req d'
     = (mkResponse 200 true MsgReviewDeleted None NoData, d').
Proof.
  intros Hauth Hr Hmay out d'.
  assert (H1 : out = (mkResponse 200 true MsgReviewDeleted None NoData,
                      hide_review (r_id r) d))
    by exact (delete_review_accepted req d u r Hauth Hr Hmay).
  assert (Hd : d' = hide_review (r_id r) d) by (subst d'; now rewrite H1).
  assert (Hrow : reviews_by_id d' (r_id r) = [with_status Hidden r])
    by (rewrite Hd, hide_review_by_id, Hr; reflexivity).
  assert (Hnone : List.filter (fun r0 => review_status_eqb (r_status r0) Approved)
                              (reviews_by_id d' (r_id r)) = [])
    by (rewrite Hd; now apply hidden_not_approved).
  split; [now rewrite H1|]. split; [exact Hrow|]. split; [|split].
  - intros now req2. unfold record_view. cbv beta zeta. now rewrite Hnone.
  - intros req2 actor Hactor. split; [|split].
    + unfold like_review. rewrite Hactor. cbv beta zeta. now rewrite Hnone.
    + unfold favorite_review. rewrite Hactor. cbv beta zeta. now rewrite Hnone.
    + intros content Hblank Hlen. unfold create_comment.
      rewrite Hactor, Hblank. cbv beta zeta.
      destruct (Nat.ltb_spec 1000 (length (get_text content))) as [Hl|_];
        [lia|].
      rewrite Hrow. reflexivity.
  - rewrite (guard_authenticated jwt_verify _ d' req u).
    + unfold delete_review. simpl user. cbv beta iota zeta. simpl userId. simpl role.
      rewrite Hrow.
      assert (E : negb (r_user_id (with_status Hidden r) =? u_id u)
                  && negb (role_eqb (u_role u) RoleAdmin) = false).
      { destruct r; simpl in *. destruct Hmay as [-> | ->].
        - now rewrite Z.eqb_refl.
        - simpl. apply andb_false_r. }
      rewrite E. f_equal. rewrite Hd. unfold hide_review. simpl.
      destruct d as [us bs rs ls fs cs gs ra ca tr]. unfold set_reviews. simpl.
      f_equal. rewrite List.map_map. apply List.map_ext. intros x.
      destruct (r_id x =? r_id r) eqn:Ex.
      * destruct x; simpl in *. now rewrite Ex.
      * now rewrite Ex.
    + destruct Hauth as (token & Ht & Hj & Hu & Ha).
      exists token. repeat split; try assumption.
      rewrite Hd. exact Hu.
Qed.

End HiddenReview.

Lemma deleted_review_is_closed_witness :
  let d' := snd (guard (authenticateToken Demo.verify) (delete_review 10)
                       (Demo.as_token "alice") Demo.store) in
  let bob := set_user (Some (req_user_of_row Demo.bob)) (Demo.as_token "bob") in
  reviews_by_id d' 10 = [with_status Hidden Demo.review10]
  /\ record_view 0 10 Demo.anonymous d'
     = (error_response 404 MsgReviewMissing (Some "REVIEW_NOT_FOUND"), d')
  /\ like_review 10 bob d'
     = (error_response 404 MsgReviewMissingOrUnapproved None, d')
  /\ favorite_review 10 bob d'
     = (error_response 404 MsgReviewMissingOrUnapproved None, d')
  /\ create_comment 10 (Some (units "Nice")) bob d'
     = (error_response 403 MsgReviewNotApproved None, d').
Proof.
  intros d' bob.
  assert (Hauth : authenticated Demo.verify Demo.store (Demo.as_token "alice")
                                Demo.alice)
    by (exists "alice"; repeat split; reflexivity).
  destruct (deleted_review_is_closed Demo.verify (Demo.as_token "alice") Demo.store
              Demo.alice Demo.review10 Hauth eq_refl (or_introl eq_refl))
    as (_ & Hrow & Hview & Hrest & _).
  destruct (Hrest bob (req_user_of_row Demo.bob) eq_refl) as (Hlike & Hfav & Hcom).
  split; [exact Hrow|]. split; [exact (Hview 0 Demo.anonymous)|].
  split; [exact Hlike|]. split; [exact Hfav|].
  apply Hcom; [reflexivity | simpl; lia].
Defined.

(** ** The review rows under the review routes *)

Section ReviewRows.

(* What a view leaves: the store itself, or the store with the views
   counter moved and perhaps a log row added. *)
Lemma record_view_store now id req d :
  let d' := snd (record_view now id req d) in
  users d' = users d /\ books d' = books d
  /\ (reviews d' = reviews d \/ reviews d' = reviews (increment_views id d)).
Proof.
  unfold record_view. cbv zeta.
  destruct (List.filter _ (reviews_by_id d id)) as [|r0 rest]; simpl snd;
    [now repeat split; try left|].
  match goal with |- context [if ?c then _ else _] => destruct c end.
  - destruct (insert_view_log _ _ _ _ _ _) as [d2|] eqn:E.
    + unfold insert_view_log in E.
      destruct (match _ with Some u => _ | None => false end) in E; [discriminate|].
      injection E as <-.
      destruct (reviews_by_id _ id); simpl; repeat split; now right.
    + simpl. repeat split; now right.
  - destruct (reviews_by_id d id); simpl; repeat split; now left.
Qed.

Lemma insert_review_store uid bid title content rating d d' id :
  insert_review uid bid title content rating d = Some (d', id) ->
  let d1 := set_reviews_auto_increment
              (reviews_auto_increment d + 1)
              (set_reviews
                 (reviews d ++ [mkReview (reviews_auto_increment d) uid bid title
                                         content rating Approved 0 0 0]) d) in
  reviews d' = reviews d1
  /\ triggers d' = triggers d
  /\ (triggers d = true -> d' = update_book_stats_insert bid uid d1)
  /\ (triggers d = false -> books d' = books d /\ users d' = users d).
Proof.
  unfold insert_review.
  destruct (negb (user_exists d uid)); [discriminate|].
  destruct (negb (book_exists d bid)); [discriminate|].
  destruct (review_exists d (reviews_auto_increment d)); [discriminate|].
  intros E. injection E as <- <-. cbv zeta. unfold fire. simpl triggers.
  destruct (triggers d) eqn:Ht.
  - split; [reflexivity|]. split; [exact Ht|].
    split; [intros _; reflexivity | discriminate].
  - split; [reflexivity|]. split; [exact Ht|].
    split; [discriminate | intros _; split; reflexivity].
Qed.

Lemma ratings_valid_map (f : review_row -> review_row) d :
  (forall r, 1 <= r_rating r <= 5 -> 1 <= r_rating (f r) <= 5) ->
  ratings_valid d -> ratings_valid (set_reviews (map f (reviews d)) d).
Proof.
  intros Hf H r Hr. simpl in Hr. apply in_map_iff in Hr.
  destruct Hr as (r0 & <- & Hr0). apply Hf, H, Hr0.
Qed.

Lemma ratings_valid_reviews d d' :
  reviews d' = reviews d -> ratings_valid d -> ratings_valid d'.
Proof. intros E H r Hr. rewrite E in Hr. exact (H r Hr). Qed.

Lemma create_review_ratings body req d :
  ratings_valid d -> ratings_valid (snd (create_review body req d)).
Proof.
  intros H. unfold create_review.
  destruct (user req) as [u|]; [|exact H]. cbv zeta.
  destruct (_ || _ || _ || _); [exact H|].
  destruct (_ || _) eqn:Hrange; [exact H|].
  destruct (length _ =? 0)%nat; [exact H|].
  destruct (0 <? length _)%nat; [exact H|].
  destruct (insert_review _ _ _ _ _ d) as [[d' id]|] eqn:E; [|exact H].
  simpl snd. apply insert_review_store in E. destruct E as (E & _ & _).
  intros r Hr. rewrite E in Hr. simpl in Hr. apply in_app_or in Hr.
  destruct Hr as [Hr | [<- | []]]; [exact (H r Hr)|].
  simpl. apply orb_false_iff in Hrange. lia.
Qed.

Lemma update_review_ratings id body req d :
  ratings_valid d -> ratings_valid (snd (update_review id body req d)).
Proof.
  intros H. unfold update_review.
  destruct (user req) as [u|]; [|exact H]. cbv zeta.
  destruct (reviews_by_id d id) as [|review rest]; [exact H|].
  destruct (_ && _); [exact H|].
  destruct (match ub_rating body with Some _ => _ | None => false end) eqn:Hrange;
    [exact H|].
  destruct (negb _); [exact H|].
  simpl snd. unfold update_review_fields. apply ratings_valid_map; [|exact H].
  intros r Hr. destruct (r_id r =? id); [|exact Hr].
  destruct (ub_rating body) as [rating|];
    destruct (ub_title body), (ub_content body); destruct r; simpl in *;
    try exact Hr; apply orb_false_iff in Hrange; lia.
Qed.

Lemma delete_review_ratings id req d :
  ratings_valid d -> ratings_valid (snd (delete_review id req d)).
Proof.
  intros H. unfold delete_review.
  destruct (user req) as [u|]; [|exact H]. cbv zeta.
  destruct (reviews_by_id d id) as [|review rest]; [exact H|].
  destruct (_ && _); [exact H|].
  simpl snd. unfold hide_review. apply ratings_valid_map; [|exact H].
  intros r Hr. destruct (r_id r =? id); [|exact Hr]. now destruct r.
Qed.

Lemma record_view_ratings now id req d :
  ratings_valid d -> ratings_valid (snd (record_view now id req d)).
Proof.
  intros H. destruct (record_view_store now id req d) as (_ & _ & [E | E]).
  - exact (ratings_valid_reviews d _ E H).
  - apply (ratings_valid_reviews (increment_views id d) _ E).
    unfold increment_views. apply ratings_valid_map; [|exact H].
    intros r Hr. destruct (r_id r =? id); [|exact Hr]. now destruct r.
Qed.

(** X16: the rating checks of the create and update routes keep every
    stored rating between 1 and 5: if that holds of a store, it holds
    after any sequence of create, update, delete and view requests,
    whoever sends them and whatever their bodies hold. *)
Theorem ratings_stay_valid (ops : list review_op) (d : db) :
  ratings_valid d -> ratings_valid (run_review_ops ops d).
Proof.
  unfold run_review_ops. revert d.
  induction ops as [|op ops IH]; intros d H; simpl; [exact H|].
  apply IH. destruct op; simpl.
  - now apply create_review_ratings.
  - now apply update_review_ratings.
  - now apply delete_review_ratings.
  - now apply record_view_ratings.
Qed.

Lemma reviews_of_book_map (f : review_row -> review_row) rs x :
  (forall r, r_book_id (f r) = r_book_id r) ->
  reviews_of_book (map f rs) x = reviews_of_book rs x.
Proof.
  intros Hf. unfold reviews_of_book. f_equal.
  induction rs as [|r rs IH]; simpl; [reflexivity|].
  rewrite Hf. destruct (r_book_id r =? x); simpl; now rewrite IH.
Qed.

Lemma reviews_of_user_map (f : review_row -> review_row) rs x :
  (forall r, r_user_id (f r) = r_user_id r) ->
  reviews_of_user (map f rs) x = reviews_of_user rs x.
Proof.
  intros Hf. unfold reviews_of_user. f_equal.
  induction rs as [|r rs IH]; simpl; [reflexivity|].
  rewrite Hf. destruct (r_user_id r =? x); simpl; now rewrite IH.
Qed.

(* A statement that rewrites review rows in place, keeping their book
   and author, keeps the totals right. *)
Lemma totals_consistent_map (f : review_row -> review_row) d d' :
  users d' = users d -> books d' = books d ->
  reviews d' = map f (reviews d) ->
  (forall r, r_book_id (f r) = r_book_id r) ->
  (forall r, r_user_id (f r) = r_user_id r) ->
  totals_consistent d -> totals_consistent d'.
Proof.
  intros Eu Eb Er Hb Hu [HB HU]. split.
  - intros b Hin. rewrite Eb in Hin. rewrite Er, reviews_of_book_map by exact Hb.
    exact (HB b Hin).
  - intros u Hin. rewrite Eu in Hin. rewrite Er, reviews_of_user_map by exact Hu.
    exact (HU u Hin).
Qed.

Lemma totals_consistent_set_map (f : review_row -> review_row) d :
  (forall r, r_book_id (f r) = r_book_id r) ->
  (forall r, r_user_id (f r) = r_user_id r) ->
  totals_consistent d -> totals_consistent (set_reviews (map f (reviews d)) d).
Proof. now apply totals_consistent_map. Qed.

Lemma totals_consistent_same d d' :
  users d' = users d -> books d' = books d -> reviews d' = reviews d ->
  totals_consistent d -> totals_consistent d'.
Proof.
  intros Eu Eb Er. apply (totals_consistent_map (fun r => r)); try assumption;
    try reflexivity.
  now rewrite List.map_id.
Qed.

Lemma create_review_triggers body req d :
  triggers (snd (create_review body req d)) = triggers d.
Proof.
  unfold create_review.
  destruct (user req) as [u|]; [|reflexivity]. cbv zeta.
  destruct (_ || _ || _ || _); [reflexivity|].
  destruct (_ || _); [reflexivity|].
  destruct (length _ =? 0)%nat; [reflexivity|].
  destruct (0 <? length _)%nat; [reflexivity|].
  destruct (insert_review _ _ _ _ _ d) as [[d' id]|] eqn:E; [|reflexivity].
  simpl snd. apply insert_review_store in E. tauto.
Qed.

(* Without the trigger a new review leaves books and users as they are. *)
Lemma create_review_rows_off body req d :
  triggers d = false ->
  books (snd (create_review body req d)) = books d
  /\ users (snd (create_review body req d)) = users d.
Proof.
  intros Ht. unfold create_review.
  destruct (user req) as [u|]; [|now split]. cbv zeta.
  destruct (_ || _ || _ || _); [now split|].
  destruct (_ || _); [now split|].
  destruct (length _ =? 0)%nat; [now split|].
  destruct (0 <? length _)%nat; [now split|].
  destruct (insert_review _ _ _ _ _ d) as [[d' id]|] eqn:E; [|now split].
  simpl snd. apply insert_review_store in E. destruct E as (_ & _ & _ & Hoff).
  exact (Hoff Ht).
Qed.

Lemma create_review_totals body req d :
  triggers d = true ->
  totals_consistent d -> totals_consistent (snd (create_review body req d)).
Proof.
  intros Ht H. unfold create_review.
  destruct (user req) as [u|]; [|exact H]. cbv zeta.
  destruct (_ || _ || _ || _); [exact H|].
  destruct (_ || _); [exact H|].
  destruct (length _ =? 0)%nat; [exact H|].
  destruct (0 <? length _)%nat; [exact H|].
  destruct (insert_review _ _ _ _ _ d) as [[d' id]|] eqn:E; [|exact H].
  simpl snd. apply insert_review_store in E. destruct E as (_ & _ & Hon & _).
  rewrite (Hon Ht). clear Hon.
  destruct H as [HB HU]. split.
  - intros b Hin. simpl in Hin. apply in_map_iff in Hin.
    destruct Hin as (b0 & <- & Hb0). specialize (HB b0 Hb0).
    simpl reviews. unfold reviews_of_book in *.
    rewrite List.filter_app, List.length_app. simpl.
    destruct (b_id b0 =? get_Z (cb_book_id body)) eqn:Eid.
    + destruct b0; simpl in *. apply Z.eqb_eq in Eid. subst.
      rewrite Z.eqb_refl. simpl. lia.
    + rewrite Z.eqb_sym, Eid. simpl. lia.
  - intros x Hin. simpl in Hin. apply in_map_iff in Hin.
    destruct Hin as (u0 & <- & Hu0). specialize (HU u0 Hu0).
    simpl reviews. unfold reviews_of_user in *.
    rewrite List.filter_app, List.length_app. simpl.
    destruct (u_id u0 =? userId u) eqn:Eid.
    + destruct u0; simpl in *. apply Z.eqb_eq in Eid. subst.
      rewrite Z.eqb_refl. simpl. lia.
    + rewrite Z.eqb_sym, Eid. simpl. lia.
Qed.

Lemma update_review_totals id body req d :
  totals_consistent d -> totals_consistent (snd (update_review id body req d)).
Proof.
  intros H. unfold update_review.
  destruct (user req) as [u|]; [|exact H]. cbv zeta.
  destruct (reviews_by_id d id) as [|review rest]; [exact H|].
  destruct (_ && _); [exact H|].
  destruct (match ub_rating body with Some _ => _ | None => false end); [exact H|].
  destruct (negb _); [exact H|].
  simpl snd. unfold update_review_fields.
  apply totals_consistent_set_map; [ | | exact H];
    intros r; destruct (r_id r =? id); try reflexivity;
    destruct (ub_rating body), (ub_title body), (ub_content body);
    now destruct r.
Qed.

Lemma delete_review_totals id req d :
  totals_consistent d -> totals_consistent (snd (delete_review id req d)).
Proof.
  intros H. unfold delete_review.
  destruct (user req) as [u|]; [|exact H]. cbv zeta.
  destruct (reviews_by_id d id) as [|review rest]; [exact H|].
  destruct (_ && _); [exact H|].
  simpl snd. unfold hide_review.
  apply totals_consistent_set_map; [ | | exact H];
    intros r; destruct (r_id r =? id); try reflexivity; now destruct r.
Qed.

Lemma record_view_totals now id req d :
  totals_consistent d -> totals_consistent (snd (record_view now id req d)).
Proof.
  intros H. destruct (record_view_store now id req d) as (Eu & Eb & [E | E]).
  - exact (totals_consistent_same d _ Eu Eb E H).
  - apply (totals_consistent_map
             (fun r => if r_id r =? id then with_views (r_views r + 1) r else r)
             d _ Eu Eb E); [ | | exact H];
      intros r; destruct (r_id r =? id); try reflexivity; now destruct r.
Qed.

(* Update, delete and view write neither books nor users, and no
   request changes whether the triggers are there. *)
Lemma run_review_op_rows d op :
  triggers (run_review_op d op) = triggers d
  /\ (is_create op = false ->
      books (run_review_op d op) = books d /\ users (run_review_op d op) = users d).
Proof.
  destruct op as [body req | id body req | id req | now id req]; simpl.
  - split; [apply create_review_triggers | discriminate].
  - unfold update_review.
    destruct (user req) as [u|]; [|now repeat split]. cbv zeta.
    destruct (reviews_by_id d id) as [|review rest]; [now repeat split|].
    destruct (_ && _); [now repeat split|].
    destruct (match ub_rating body with Some _ => _ | None => false end);
      [now repeat split|].
    destruct (negb _); now repeat split.
  - unfold delete_review.
    destruct (user req) as [u|]; [|now repeat split]. cbv zeta.
    destruct (reviews_by_id d id) as [|review rest]; [now repeat split|].
    destruct (_ && _); now repeat split.
  - destruct (record_view_store now id req d) as (Eu & Eb & _).
    split; [|now split]. unfold record_view. cbv zeta.
    destruct (List.filter _ (reviews_by_id d id)) as [|r0 rest]; [reflexivity|].
    match goal with |- context [if ?c then _ else _] => destruct c end.
    + destruct (insert_view_log _ _ _ _ _ _) as [d2|] eqn:E.
      * unfold insert_view_log in E.
        destruct (match _ with Some u => _ | None => false end) in E; [discriminate|].
        injection E as <-. destruct (reviews_by_id _ id); reflexivity.
      * reflexivity.
    + destruct (reviews_by_id d id); reflexivity.
Qed.

(** X17: total_reviews counts review rows, hidden ones included, where the
    triggers of schema.sql are installed: if every book row and every user
    row of such a store carries the number of review rows of that book and
    of that user, this still holds after any sequence of create, update,
    delete and view requests; in particular the soft delete does not lower
    either total.  Where they are not installed, as on the database
    database/init.js sets up, no such sequence writes books or users:
    every total_reviews stays what it was, also after an accepted
    creation. *)
Theorem review_totals_invariant (ops : list review_op) (d : db) :
  (triggers d = true ->
   totals_consistent d -> totals_consistent (run_review_ops ops d))
  /\ (triggers d = false ->
      books (run_review_ops ops d) = books d
      /\ users (run_review_ops ops d) = users d).
Proof.
  unfold run_review_ops. revert d.
  induction ops as [|op ops IH]; intros d; simpl;
    [split; [trivial | intros _; split; reflexivity]|].
  destruct (run_review_op_rows d op) as [Ht Hrows].
  destruct (IH (run_review_op d op)) as [IHon IHoff].
  split; intros Hd.
  - intros H. apply IHon; [now rewrite Ht|].
    destruct op; simpl.
    + now apply create_review_totals.
    + now apply update_review_totals.
    + now apply delete_review_totals.
    + now apply record_view_totals.
  - destruct (IHoff ltac:(now rewrite Ht)) as [Eb Eu]. rewrite Eb, Eu.
    destruct op as [body req | id body req | id req | now id req];
      [simpl; now apply create_review_rows_off | | |]; now apply Hrows.
Qed.

End ReviewRows.

Lemma ratings_stay_valid_witness :
  ratings_valid Demo.store
  /\ ratings_valid (run_review_ops demo_review_ops Demo.store).
Proof.
  assert (H : ratings_valid Demo.store)
    by (intros r [<- | []]; simpl; lia).
  split; [exact H|].
  exact (ratings_stay_valid demo_review_ops Demo.store H).
Defined.

Lemma review_totals_invariant_witness :
  let d := run_review_ops demo_review_ops Demo.store_with_triggers in
  let d' := run_review_ops demo_review_ops Demo.store in
  totals_consistent Demo.store_with_triggers
  /\ totals_consistent d
  /\ books d' = books Demo.store
  /\ users d' = users Demo.store.
Proof.
  assert (H : totals_consistent Demo.store_with_triggers).
  { split.
    - intros b [<- | []]. reflexivity.
    - intros u [<- | [<- | [<- | [<- | []]]]]; reflexivity. }
  split; [exact H|]. split.
  - exact (proj1 (review_totals_invariant demo_review_ops Demo.store_with_triggers)
                 eq_refl H).
  - exact (proj2 (review_totals_invariant demo_review_ops Demo.store) eq_refl).
Defined.

(* bob reviews book 5 with rating 4 (created as review 11), tries again
   (409) and with rating 9 (400); alice turns her rating into 3; bob
   deletes his review; one view of review 10.  Both rows stay; book 5
   counts two reviews where the triggers are installed, and one as before
   where they are not. *)
Example review_ops_rows :
  let d := run_review_ops demo_review_ops Demo.store_with_triggers in
  let d' := run_review_ops demo_review_ops Demo.store in
  map (fun r => (r_id r, r_rating r, r_status r, r_views r)) (reviews d)
  = [(10, 3, Approved, 8); (11, 4, Hidden, 0)]
  /\ map b_total_reviews (books d) = [2]
  /\ map u_total_reviews (users d) = [1; 1; 0; 0]
  /\ reviews d' = reviews d
  /\ map b_total_reviews (books d') = [1]
  /\ map u_total_reviews (users d') = [1; 0; 0; 0].
Proof. vm_compute. repeat split; reflexivity. Qed.

(** ** Repeated views *)

Section RepeatedViews.



End RepeatedViews.


(* The window is measured from the start of the second of the logged
   view: a view 29 minutes 59.5 seconds after one that fell 0.7 seconds
   into its second is counted again. *)
Example view_counted_again_inside_window :
  let d' := run_views 10 Demo.anonymous [10000700; 11800200] Demo.store in
  11800200 - 10000700 < view_window
  /\ map r_views (reviews d') = [9]
  /\ map g_created_at (system_logs d') = [10000000; 11800000].
Proof. vm_compute. repeat split; reflexivity. Qed.

(** ** The like flags of the status routes *)

Section StatusFlags.

Variable jwt_verify : string -> jwt_result.

(* Membership in the Set of liked ids is the same as a like row of the
   caller on the review, for a review of the request. *)
Lemma liked_set_flag uid rid (ids : list Z) (ls : list like_row) :
  existsb (Z.eqb rid) ids = true ->
  bool_decide
    (rid ∈ (list_to_set
              (map l_review_id
                   (List.filter (fun l => (l_user_id l =? uid)
                                          && existsb (Z.eqb (l_review_id l)) ids)
                                ls)) : gset Z))
  = existsb (is_like_of uid rid) ls.
Proof.
  intros Hin. apply Bool.eq_iff_eq_true.
  rewrite bool_decide_eq_true, elem_of_list_to_set, list_elem_of_In,
    in_map_iff, existsb_exists.
  split.
  - intros (l & <- & Hl). apply filter_In in Hl. destruct Hl as [Hl Hc].
    apply andb_true_iff in Hc. destruct Hc as [Hu _].
    exists l. split; [exact Hl|]. unfold is_like_of.
    now rewrite Hu, Z.eqb_refl.
  - intros (l & Hl & Hc). unfold is_like_of in Hc.
    apply andb_true_iff in Hc. destruct Hc as [Hu Hr].
    apply Z.eqb_eq in Hr. exists l. split; [exact Hr|].
    apply filter_In. split; [exact Hl|]. now rewrite Hu, Hr, Hin.
Qed.

(** X19: the batch function reports, for a list of 1 to 50 ids, one entry
    for each stored review whose id is in the list, in table order, with
    its stored likes_count, and flags an entry is_liked exactly when the
    token of the request verifies to a user who has a like row on that
    review: the same flag the single status route gives for that review
    and request. *)
Theorem batch_status_flags (ids : list Z) (req : request) (d : db) :
  (1 <= length ids <= 50)%nat ->
  exists entries,
    batch_status jwt_verify (Some ids) req d
    = (mkResponse 200 true MsgNone None (BatchData entries), d)
    /\ map be_review_id entries
       = map r_id (List.filter (fun r => existsb (Z.eqb (r_id r)) ids) (reviews d))
    /\ forall e, In e entries ->
         be_is_liked e
         = match inline_decoded jwt_verify (authorization req) with
           | Some uid => liked_by d uid (be_review_id e)
           | None => false
           end
         /\ exists r, In r (reviews d)
                      /\ r_id r = be_review_id e
                      /\ be_likes_count e = r_likes_count r
                      /\ forall r0 rest,
                           reviews_by_id d (r_id r) = r0 :: rest ->
                           data (fst (like_status jwt_verify (r_id r) req d))
                           = LikeStatusData (r_id r0) (r_title r0)
                                            (r_likes_count r0) (be_is_liked e).
Proof.
  intros Hlen. unfold batch_status.
  destruct (Nat.eqb_spec (length ids) 0); [lia|].
  destruct (Nat.ltb_spec 50 (length ids)); [lia|].
  cbv zeta. eexists. split; [reflexivity|]. split.
  - rewrite map_map. reflexivity.
  - intros e He. apply in_map_iff in He. destruct He as (r & <- & Hr).
    apply filter_In in Hr. destruct Hr as [Hr Hin]. simpl.
    assert (Hflag :
      bool_decide
        (r_id r ∈ (list_to_set
                     (map l_review_id
                          match inline_decoded jwt_verify (authorization req) with
                          | Some uid =>
                              List.filter
                                (fun l => (l_user_id l =? uid)
                                          && existsb (Z.eqb (l_review_id l)) ids)
                                (review_likes d)
                          | None => []
                          end) : gset Z))
      = match inline_decoded jwt_verify (authorization req) with
        | Some uid => liked_by d uid (r_id r)
        | None => false
        end).
    { destruct (inline_decoded jwt_verify (authorization req)) as [uid|].
      - now apply liked_set_flag.
      - apply bool_decide_eq_false. apply not_elem_of_empty. }
    split; [exact Hflag|].
    exists r. repeat split; try assumption.
    intros r0 rest E. unfold like_status. rewrite E. simpl. rewrite Hflag.
    destruct (inline_decoded jwt_verify (authorization req)) as [uid|];
      [|reflexivity].
    now rewrite length_filter_pos.
Qed.

End StatusFlags.

Lemma batch_status_flags_witness :
  let d := liked_store 2 10 Demo.store in
  exists entries,
    batch_status Demo.verify (Some [10; 11]) (Demo.as_token "bob") d
    = (mkResponse 200 true MsgNone None (BatchData entries), d)
    /\ map be_review_id entries = [10]
    /\ forall e, In e entries -> be_is_liked e = liked_by d 2 (be_review_id e).
Proof.
  intros d.
  assert (Hlen : (1 <= length [10; 11] <= 50)%nat) by (simpl; lia).
  destruct (batch_status_flags Demo.verify [10; 11] (Demo.as_token "bob") d Hlen)
    as (entries & Hrun & Hids & Hflags).
  exists entries. split; [exact Hrun|]. split; [exact Hids|].
  intros e He. exact (proj1 (Hflags e He)).
Defined.

(* bob has liked review 10: his batch entry is flagged, an anonymous
   caller's is not. *)
Example batch_status_run :
  let d := liked_store 2 10 Demo.store_with_triggers in
  data (fst (batch_status Demo.verify (Some [10; 11]) (Demo.as_token "bob") d))
  = BatchData [mkBatchEntry 10 "Spice" 1 true]
  /\ data (fst (batch_status Demo.verify (Some [10; 11]) Demo.anonymous d))
     = BatchData [mkBatchEntry 10 "Spice" 1 false].
Proof. vm_compute. split; reflexivity. Qed.

(** ** The average rating of a book *)

Section AverageRating.

Lemma sum_bounds ratings :
  List.Forall (fun r => 1 <= r <= 5) ratings ->
  Z.of_nat (length ratings) <= fold_right Z.add 0 ratings
  <= 5 * Z.of_nat (length ratings).
Proof.
  induction 1 as [|r rs Hr _ IH]; simpl fold_right; simpl length; lia.
Qed.

Lemma round_div_spec a b :
  0 < b -> 2 * b * round_div a b <= 2 * a + b < 2 * b * round_div a b + 2 * b.
Proof.
  intros Hb. unfold round_div.
  pose proof (Z.div_mod (2 * a + b) (2 * b) ltac:(lia)) as E.
  pose proof (Z.mod_pos_bound (2 * a + b) (2 * b) ltac:(lia)) as B.
  lia.
Qed.

(* AVG over ratings between 1 and 5, as stored in DECIMAL(3,2): between
   1.00 and 5.00 and within 0.005 of the mean. *)
Lemma avg_rating_spec ratings :
  ratings <> [] ->
  List.Forall (fun r => 1 <= r <= 5) ratings ->
  exists a,
    avg_rating ratings = Some a
    /\ 100 <= a <= 500
    /\ Z.abs (2 * Z.of_nat (length ratings) * a
              - 200 * fold_right Z.add 0 ratings)
       <= Z.of_nat (length ratings).
Proof.
  intros Hne Hall. pose proof (sum_bounds ratings Hall) as Hs.
  destruct ratings as [|r0 rs]; [congruence|].
  unfold avg_rating.
  set (n := Z.of_nat (length (r0 :: rs))) in *.
  set (s := fold_right Z.add 0 (r0 :: rs)) in *.
  assert (Hn : 0 < n) by (subst n; simpl length; lia).
  eexists. split; [reflexivity|]. cbv zeta.
  pose proof (round_div_spec (s * 100) n Hn) as H2.
  set (a := round_div (s * 100) n) in *.
  split; [nia|].
  apply Z.abs_le. nia.
Qed.

(* A creation request is answered 201 only when the row was inserted. *)
Lemma create_review_created body req d :
  status (fst (create_review body req d)) = 201 ->
  exists u id,
    user req = Some u
    /\ 1 <= get_Z (cb_rating body) <= 5
    /\ insert_review (userId u) (get_Z (cb_book_id body))
                     (get_string (cb_title body)) (get_string (cb_content body))
                     (get_Z (cb_rating body)) d
       = Some (snd (create_review body req d), id).
Proof.
  unfold create_review.
  destruct (user req) as [u|]; [|simpl; lia]. cbv zeta.
  destruct (_ || _ || _ || _); [simpl; lia|].
  destruct (_ || _) eqn:Hrange; [simpl; lia|].
  destruct (length _ =? 0)%nat; [simpl; lia|].
  destruct (0 <? length _)%nat; [simpl; lia|].
  destruct (insert_review _ _ _ _ _ d) as [[d' id]|] eqn:E; [|simpl; lia].
  intros _. exists u, id. simpl snd. apply orb_false_iff in Hrange.
  split; [reflexivity|]. split; [lia | exact E].
Qed.

(** X20: the average a new review leaves on its book: when a creation
    request is answered 201 in a store whose ratings are between 1 and 5,
    the new rating is among the ratings of the book's approved reviews;
    where the triggers of schema.sql are installed the book's
    average_rating (in hundredths) is then between 1.00 and 5.00 and lies
    within 0.005 of the mean of those ratings, and where they are not, as
    on the database database/init.js sets up, the book rows are what they
    were, average_rating included. *)
Theorem created_review_average (body : create_body) (req : request) (d : db) :
  ratings_valid d ->
  status (fst (create_review body req d)) = 201 ->
  let d' := snd (create_review body req d) in
  let book_id := get_Z (cb_book_id body) in
  let ratings := approved_ratings d' book_id in
  In (get_Z (cb_rating body)) ratings
  /\ (triggers d = true ->
      forall b, In b (books d') -> b_id b = book_id ->
        100 <= b_average_rating b <= 500
        /\ Z.abs (2 * Z.of_nat (length ratings) * b_average_rating b
                  - 200 * fold_right Z.add 0 ratings)
           <= Z.of_nat (length ratings))
  /\ (triggers d = false -> books d' = books d).
Proof.
  intros Hvalid Hcreated d' book_id ratings.
  pose proof (create_review_ratings body req d Hvalid) as Hvalid'. fold d' in Hvalid'.
  destruct (create_review_created body req d Hcreated) as (u & id & _ & Hrange & E).
  fold d' in E. fold book_id in E.
  apply insert_review_store in E. cbv zeta in E. destruct E as (Er & _ & Hon & Hoff).
  assert (Hnew : In (get_Z (cb_rating body)) ratings).
  { subst ratings. unfold approved_ratings. apply in_map_iff.
    eexists. split; [|apply filter_In; split;
                       [rewrite Er; simpl; apply in_or_app; right; left; reflexivity|]].
    - reflexivity.
    - simpl. now rewrite Z.eqb_refl. }
  split; [exact Hnew|]. split; [|intros Ht; exact (proj1 (Hoff Ht))].
  intros Ht.
  assert (Hall : List.Forall (fun r => 1 <= r <= 5) ratings).
  { apply List.Forall_forall. intros x Hx. subst ratings. unfold approved_ratings in Hx.
    apply in_map_iff in Hx. destruct Hx as (r & <- & Hr).
    apply filter_In in Hr. exact (Hvalid' r (proj1 Hr)). }
  assert (Hne : ratings <> []) by (intros E0; rewrite E0 in Hnew; exact Hnew).
  destruct (avg_rating_spec ratings Hne Hall) as (a & Ha & Hbounds & Hacc).
  assert (Hsame : approved_ratings
                    (set_reviews_auto_increment
                       (reviews_auto_increment d + 1)
                       (set_reviews
                          (reviews d ++
                           [mkReview (reviews_auto_increment d) (userId u) book_id
                                     (get_string (cb_title body))
                                     (get_string (cb_content body))
                                     (get_Z (cb_rating body)) Approved 0 0 0])
                          d)) book_id = ratings).
  { subst ratings. unfold approved_ratings. rewrite Er. reflexivity. }
  intros b Hb Hid. rewrite (Hon Ht) in Hb.
  unfold update_book_stats_insert in Hb. simpl in Hb.
  apply in_map_iff in Hb. destruct Hb as (b0 & Hb0 & _).
  rewrite Hsame, Ha in Hb0.
  destruct (b_id b0 =? book_id) eqn:Eid.
  - subst b. simpl. split; assumption.
  - subst b. apply Z.eqb_neq in Eid. contradiction.
Qed.

End AverageRating.

Lemma created_review_average_witness :
  let body := mkCreateBody (Some 5) (Some "Sand") (Some "Too much of it.") (Some 4) in
  let bob := set_user (Some (req_user_of_row Demo.bob)) (Demo.as_token "bob") in
  let d := snd (create_review body bob Demo.store_with_triggers) in
  let d' := snd (create_review body bob Demo.store) in
  (In 4 (approved_ratings d 5)
   /\ forall b, In b (books d) -> b_id b = 5 ->
        100 <= b_average_rating b <= 500
        /\ Z.abs (2 * 2 * b_average_rating b - 200 * 9) <= 2)
  /\ In 4 (approved_ratings d' 5)
  /\ books d' = books Demo.store.
Proof.
  intros body bob d d'.
  assert (Hvalid : ratings_valid Demo.store_with_triggers)
    by (intros r [<- | []]; simpl; lia).
  assert (Hvalid' : ratings_valid Demo.store)
    by (intros r [<- | []]; simpl; lia).
  destruct (created_review_average body bob Demo.store_with_triggers Hvalid eq_refl)
    as (Hin & Hon & _).
  destruct (created_review_average body bob Demo.store Hvalid' eq_refl)
    as (Hin' & _ & Hoff).
  split; [split; [exact Hin | exact (Hon eq_refl)]|].
  split; [exact Hin' | exact (Hoff eq_refl)].
Defined.

(* Ratings 5 and 4 average 4.50; 5, 4 and 4 average 4.33; one rating of
   3 averages 3.00. *)
Example avg_rating_values :
  avg_rating [5; 4] = Some 450 /\ avg_rating [5; 4; 4] = Some 433
  /\ avg_rating [3] = Some 300 /\ avg_rating [] = None.
Proof. repeat split; reflexivity. Qed.

(** ** Which route takes a request *)

Section RouteOrder.

(* first_route is the choice dispatch makes. *)
Lemma dispatch_first_route routes m path review_ids :
  dispatch routes m path review_ids
  = match first_route (map (fun rt => (rt_method rt, rt_path rt, rt_run rt)) routes)
                      m path with
    | Some run => run path review_ids
    | None => fun _ d => (not_found, d)
    end.
Proof.
  induction routes as [|rt routes IH]; simpl; [reflexivity|].
  destruct (method_eqb (rt_method rt) m && path_matches (rt_path rt) path);
    [reflexivity | exact IH].
Qed.

(* A path the pattern /reviews/batch matches is matched by
   /reviews/:reviewId. *)
Lemma literal_matches_param w1 w2 name path :
  path_matches [Lit w1; Lit w2] path = true ->
  path_matches [Lit w1; Param name] path = true.
Proof.
  destruct path as [|s1 [|s2 [|s3 rest]]]; cbn [path_matches]; intros H;
    try discriminate H.
  - rewrite andb_false_r in H. discriminate H.
  - apply andb_true_iff in H. destruct H as [H1 _]. now rewrite H1.
  - rewrite !andb_false_r in H. discriminate H.
Qed.

Lemma literal_matches_any w name path :
  path_matches [Lit w] path = true -> path_matches [Param name] path = true.
Proof.
  destruct path as [|s1 [|s2 rest]]; cbn [path_matches]; intros H;
    try discriminate H.
  - reflexivity.
  - rewrite andb_false_r in H. discriminate H.
Qed.

(** X21: in the favorites router the batch route is dead: POST
    /reviews/batch is taken by POST /reviews/:reviewId, registered before
    it, and no request at all reaches the batch function; every other
    route of the router is reached by some request. *)
Theorem favorites_batch_never_runs :
  (forall m path, first_route favorites_table m path <> Some FavBatch)
  /\ first_route favorites_table POST [SWord "reviews"; SWord "batch"] = Some FavAdd
  /\ forall l, l <> FavBatch ->
               exists m path, first_route favorites_table m path = Some l.
Proof.
  split; [|split].
  - intros m path. unfold favorites_table, first_route.
    destruct (path_matches [Lit "reviews"; Lit "batch"] path) eqn:Hb.
    + rewrite (literal_matches_param _ _ "reviewId" path Hb).
      destruct m; simpl; try discriminate;
        repeat match goal with
               | |- context [if ?c then _ else _] => destruct c
               end; discriminate.
    + destruct m; simpl; rewrite ?andb_false_r;
        repeat match goal with
               | |- context [if ?c then _ else _] => destruct c
               end; discriminate.
  - reflexivity.
  - intros l Hl. destruct l; try contradiction.
    + exists POST, [SWord "reviews"; SInt 1]. reflexivity.
    + exists DELETE, [SWord "reviews"; SInt 1]. reflexivity.
    + exists GET, [SWord "reviews"; SInt 1]. reflexivity.
    + exists GET, [SWord "user"; SInt 1]. reflexivity.
    + exists GET, [SWord "my"]. reflexivity.
    + exists GET, [SWord "stats"]. reflexivity.
Qed.

(** X22: in the comments router the route GET /my is dead: the request is
    taken by GET /:id, registered before it, with id = "my", and no
    request at all reaches the function that lists the caller's comments;
    every other route of the router is reached by some request (GET /stats
    is registered before GET /:id and keeps its requests). *)
Theorem comments_mine_never_runs :
  (forall m path, first_route comments_table m path <> Some ComMine)
  /\ first_route comments_table GET [SWord "my"] = Some ComDetail
  /\ forall l, l <> ComMine ->
               exists m path, first_route comments_table m path = Some l.
Proof.
  split; [|split].
  - intros m path. unfold comments_table, first_route.
    destruct (path_matches [Lit "my"] path) eqn:Hb.
    + rewrite (literal_matches_any _ "id" path Hb).
      destruct m; simpl; try discriminate;
        repeat match goal with
               | |- context [if ?c then _ else _] => destruct c
               end; discriminate.
    + destruct m; simpl; rewrite ?andb_false_r;
        repeat match goal with
               | |- context [if ?c then _ else _] => destruct c
               end; discriminate.
  - reflexivity.
  - intros l Hl. destruct l; try contradiction.
    + exists POST, [SWord "reviews"; SInt 1]. reflexivity.
    + exists GET, [SWord "stats"]. reflexivity.
    + exists GET, [SWord "reviews"; SInt 1]. reflexivity.
    + exists GET, [SInt 1]. reflexivity.
    + exists PUT, [SInt 1]. reflexivity.
    + exists DELETE, [SInt 1]. reflexivity.
    + exists GET, [SWord "user"; SInt 1]. reflexivity.
    + exists POST, [SInt 1; SWord "reply"]. reflexivity.
    + exists PUT, [SInt 1; SWord "status"]. reflexivity.
Qed.

(** X23: in the reviews router no route hides another: a request whose
    method and path match a route of the router is taken by that route,
    so GET /books/:bookId and POST /:id/view are not caught by the routes
    on /:id registered before them. *)
Theorem reviews_routes_not_shadowed
        (m : method) (ps : list pattern) (l : reviews_route) (path : list segment) :
  In (m, ps, l) reviews_table ->
  path_matches ps path = true ->
  first_route reviews_table m path = Some l.
Proof.
  intros Hin Hmatch. unfold reviews_table in Hin. simpl in Hin.
  repeat (destruct Hin as [Hin | Hin];
          [injection Hin as <- <- <-;
           destruct path as [|s1 [|s2 [|s3 rest]]];
           cbn [path_matches] in Hmatch;
           rewrite ?andb_false_r in Hmatch; try discriminate Hmatch;
           unfold reviews_table, first_route;
           cbn [method_eqb path_matches andb];
           rewrite ?andb_true_r in Hmatch; rewrite ?andb_true_r;
           cbn [segment_matches andb] in *;
           rewrite ?Hmatch; reflexivity|]).
  destruct Hin.
Qed.

End RouteOrder.

Lemma reviews_routes_not_shadowed_witness :
  first_route reviews_table GET [SWord "books"; SInt 5] = Some RevOfBook.
Proof.
  apply (reviews_routes_not_shadowed GET [Lit "books"; Param "bookId"] RevOfBook
           [SWord "books"; SInt 5]).
  - simpl. tauto.
  - reflexivity.
Defined.

(** ** Comment moderation *)

Section ModerationProofs.

Variable jwt_verify : string -> jwt_result.

(** X24: the moderation route changes a comment only for an admin: the
    request reaches the route function only when its bearer token verifies
    to a stored 'active' user whose role is 'admin'; an 'active' user with
    another role is answered 403 INSUFFICIENT_PERMISSIONS by requireAdmin,
    whose 401 answer cannot occur behind authenticateToken; in both
    refusals the store is left as it was. *)
Theorem moderation_admin_only
        (id : Z) (status admin_note : option string) (req : request) (d : db) :
  let out := moderation_route jwt_verify id status admin_note req d in
  match fst out with
  | ByAuthenticate r =>
      snd out = d /\ authenticateToken jwt_verify d req = Respond r
  | ByRequireAdmin st code =>
      snd out = d /\ st = 403 /\ code = "INSUFFICIENT_PERMISSIONS"
      /\ exists token u rest,
           bearer_token (authorization req) = Some token
           /\ jwt_verify token = JwtDecoded (u_id u)
           /\ users_by_id d (u_id u) = u :: rest
           /\ u_status u = Active /\ u_role u <> RoleAdmin
  | ByRoute r =>
      (r, snd out) = moderate_comment id status admin_note d
      /\ exists token u rest,
           bearer_token (authorization req) = Some token
           /\ jwt_verify token = JwtDecoded (u_id u)
           /\ users_by_id d (u_id u) = u :: rest
           /\ u_status u = Active /\ u_role u = RoleAdmin
  end.
Proof.
  unfold moderation_route, authenticateToken.
  destruct (bearer_token (authorization req)) as [token|] eqn:Htok;
    [|split; reflexivity].
  destruct (jwt_verify token) as [uid| | | |] eqn:Hjwt; try (split; reflexivity).
  destruct (users_by_id d uid) as [|u us] eqn:Hrow; [split; reflexivity|].
  destruct (users_by_id_in d uid u us Hrow) as [_ Hid]. subst uid.
  destruct (u_status u) eqn:Hst; simpl; [|split; reflexivity].
  unfold requireAdmin. simpl.
  destruct (u_role u) eqn:Hrole; simpl.
  - split; [reflexivity|]. split; [reflexivity|]. split; [reflexivity|].
    exists token, u, us. split; [reflexivity|]. split; [exact Hjwt|].
    split; [exact Hrow|]. split; [exact Hst|]. rewrite Hrole. discriminate.
  - split; [now destruct (moderate_comment id status admin_note d)|].
    exists token, u, us. split; [reflexivity|]. split; [exact Hjwt|].
    split; [exact Hrow|]. split; [exact Hst | exact Hrole].
Qed.

Lemma set_comment_status_by_id st cid d :
  comments_by_id (set_comment_status st cid d) cid
  = map (with_comment_status st) (comments_by_id d cid).
Proof.
  unfold comments_by_id, set_comment_status. simpl.
  induction (review_comments d) as [|c cs IH]; simpl; [reflexivity|].
  destruct (c_id c =? cid) eqn:E; simpl; rewrite E; simpl; now rewrite IH.
Qed.

Lemma comments_on_status st cid cs x :
  comments_on (map (fun c => if c_id c =? cid then with_comment_status st c else c) cs) x
  = comments_on cs x.
Proof.
  unfold comments_on. f_equal.
  induction cs as [|c cs IH]; simpl; [reflexivity|].
  assert (E : c_review_id (if c_id c =? cid then with_comment_status st c else c)
              = c_review_id c) by (destruct (c_id c =? cid); reflexivity).
  rewrite E. destruct (c_review_id c =? x); simpl; now rewrite IH.
Qed.

(* Setting the status of an approved comment and setting it back. *)
Lemma set_comment_status_undo st d c :
  the_comment d c ->
  c_status c = CApproved ->
  set_comment_status CApproved (c_id c) (set_comment_status st (c_id c) d) = d.
Proof.
  intros Hc Happr. unfold set_comment_status.
  destruct d as [us bs rs ls fs cs gs ra ca tr].
  unfold set_review_comments. simpl. f_equal.
  unfold the_comment, comments_by_id in Hc. simpl in Hc.
  rewrite List.map_map. rewrite <- (List.map_id cs) at 2.
  apply List.map_ext_in. intros x Hx.
  destruct (c_id x =? c_id c) eqn:E.
  - assert (Hin : In x (List.filter (fun c0 => c_id c0 =? c_id c) cs))
      by (apply filter_In; split; assumption).
    rewrite Hc in Hin. destruct Hin as [<- | []].
    simpl. rewrite Z.eqb_refl. destruct c; simpl in *. now subst.
  - now rewrite E.
Qed.

(** X25: a comment an admin takes out of the 'approved' state stays stored
    and counted but takes no replies: after the status of the stored
    comment c is set to 'pending' or 'rejected' (answer 200), its row
    remains with the new status, the reviews and the number of comments of
    every review are as before, and a well-formed reply to c is answered
    404 with the store untouched; if c was 'approved', setting it back to
    'approved' gives the former store. *)
Theorem moderated_comment_takes_no_reply
        (status admin_note : option string) (st : comment_status)
        (d : db) (c : comment_row) :
  the_comment d c ->
  valid_status status = Some st ->
  st <> CApproved ->
  let out := moderate_comment (c_id c) status admin_note d in
  let d' := snd out in
  md_status (fst out) = 200
  /\ comments_by_id d' (c_id c) = [with_comment_status st c]
  /\ reviews d' = reviews d
  /\ (forall x, comments_on (review_comments d') x
                = comments_on (review_comments d) x)
  /\ (forall req actor content,
        user req = Some actor ->
        blank content = false ->
        (length (get_text content) <= 1000)%nat ->
        reply_comment (c_id c) content req d'
        = (error_response 404 MsgParentMissing None, d'))
  /\ (c_status c = CApproved ->
      forall note, snd (moderate_comment (c_id c) (Some "approved") note d') = d).
Proof.
  intros Hc Hvalid Hst out d'.
  assert (Hout : out = (mkModeration 200 true MsgStatusUpdated
                          (Some (c_id c, st,
                                 if falsy_string admin_note then None
                                 else admin_note)),
                        set_comment_status st (c_id c) d)).
  { subst out. unfold moderate_comment. rewrite Hvalid, Hc. reflexivity. }
  assert (Hd : d' = set_comment_status st (c_id c) d) by (subst d'; now rewrite Hout).
  assert (Hrow : comments_by_id d' (c_id c) = [with_comment_status st c])
    by (rewrite Hd, set_comment_status_by_id, Hc; reflexivity).
  split; [now rewrite Hout|]. split; [exact Hrow|].
  split; [now rewrite Hd|]. split; [|split].
  - intros x. rewrite Hd. unfold set_comment_status. simpl.
    apply comments_on_status.
  - intros req actor content Hactor Hblank Hlen. unfold reply_comment.
    rewrite Hactor, Hblank. cbv beta zeta.
    destruct (Nat.ltb_spec 1000 (length (get_text content))) as [Hl|_];
      [lia|].
    unfold approved_parent_with_review. rewrite Hrow. simpl.
    destruct st; [contradiction | reflexivity | reflexivity].
  - intros Happr note. unfold moderate_comment. simpl valid_status.
    rewrite Hrow, Hd. simpl snd. now apply set_comment_status_undo.
Qed.

End ModerationProofs.

Lemma moderated_comment_takes_no_reply_witness :
  let out := moderate_comment 1 (Some "rejected") None Demo.store in
  let d' := snd out in
  let bob := set_user (Some (req_user_of_row Demo.bob)) (Demo.as_token "bob") in
  md_status (fst out) = 200
  /\ comments_by_id d' 1 = [with_comment_status CRejected Demo.comment1]
  /\ comments_on (review_comments d') 10 = comments_on (review_comments Demo.store) 10
  /\ reply_comment 1 (Some (units "Why?")) bob d'
     = (error_response 404 MsgParentMissing None, d')
  /\ snd (moderate_comment 1 (Some "approved") None d') = Demo.store.
Proof.
  intros out d' bob.
  assert (Hst : CRejected <> CApproved) by discriminate.
  destruct (moderated_comment_takes_no_reply (Some "rejected") None CRejected
              Demo.store Demo.comment1 eq_refl eq_refl Hst)
    as (H1 & H2 & _ & H4 & H5 & H6).
  split; [exact H1|]. split; [exact H2|]. split; [exact (H4 10)|].
  split; [|exact (H6 eq_refl None)].
  apply (H5 bob (req_user_of_row Demo.bob) (Some (units "Why?")) eq_refl eq_refl).
  simpl. lia.
Defined.

(* bob (role user) is refused by requireAdmin, root (admin) reaches the
   route, a request without a token is refused by authenticateToken. *)
Example moderation_runs :
  fst (moderation_route Demo.verify 1 (Some "rejected") None
                        (Demo.as_token "bob") Demo.store)
  = ByRequireAdmin 403 "INSUFFICIENT_PERMISSIONS"
  /\ fst (moderation_route Demo.verify 1 (Some "rejected") None
                           (Demo.as_token "root") Demo.store)
     = ByRoute (mkModeration 200 true MsgStatusUpdated (Some (1, CRejected, None)))
  /\ fst (moderation_route Demo.verify 1 (Some "deleted") None
                           (Demo.as_token "root") Demo.store)
     = ByRoute (mkModeration 400 false MsgInvalidStatus None)
  /\ fst (moderation_route Demo.verify 1 (Some "rejected") None
                           Demo.anonymous Demo.store)
     = ByAuthenticate (error_response 401 MsgLoginRequired (Some "NO_TOKEN")).
Proof. repeat split; reflexivity. Qed.

(** ** The content of stored comments *)

Section CommentContent.

Lemma length_reverse (s : js_string) : length (reverse s) = length s.
Proof. apply List.length_rev. Qed.

Lemma reverse_reverse (s : js_string) : reverse (reverse s) = s.
Proof. apply List.rev_involutive. Qed.

Lemma length_trim_start s : (length (trim_start s) <= length s)%nat.
Proof.
  induction s as [|c s IH]; simpl; [lia|]. destruct (is_space c); simpl; lia.
Qed.

Lemma length_trim s : (length (trim s) <= length s)%nat.
Proof.
  unfold trim. rewrite length_reverse.
  pose proof (length_trim_start (reverse (trim_start s))) as H1.
  rewrite length_reverse in H1. pose proof (length_trim_start s). lia.
Qed.

Lemma trim_start_clean s : starts_clean (trim_start s) = true.
Proof.
  induction s as [|c s IH]; simpl; [reflexivity|].
  destruct (is_space c) eqn:E; [exact IH|]. simpl. now rewrite E.
Qed.

(* Dropping the leading white space leaves a suffix. *)
Lemma trim_start_suffix s : exists dropped, s = (dropped ++ trim_start s)%list.
Proof.
  induction s as [|c s [dropped IH]]; simpl.
  - exists []. reflexivity.
  - destruct (is_space c).
    + exists (c :: dropped). simpl. now rewrite <- IH.
    + exists []. reflexivity.
Qed.

(* Trimming the end of a text that begins clean leaves a text that
   begins clean. *)
Lemma trim_end_clean a :
  starts_clean a = true ->
  starts_clean (reverse (trim_start (reverse a))) = true.
Proof.
  intros Ha. unfold reverse.
  destruct (trim_start_suffix (rev a)) as [dropped E].
  set (b := trim_start (rev a)) in *.
  assert (El : a = (rev b ++ rev dropped)%list).
  { rewrite <- List.rev_app_distr, <- E. now rewrite List.rev_involutive. }
  destruct (rev b) as [|x r]; [reflexivity|].
  destruct a as [|c a']; simpl in El; [discriminate|].
  injection El as <- _. exact Ha.
Qed.

(* A code unit of the stored text is the one sent, or U+FFFD in the place
   of a surrogate without its partner; neither turns a unit trim() leaves
   into one it removes. *)
Lemma utf8_stored_units (n : nat) : forall s,
  (length s <= n)%nat ->
  Forall2 (fun a b => is_space a = false -> is_space b = false) s (utf8_stored s).
Proof.
  induction n as [|n IH]; intros s Hlen.
  - destruct s; [constructor | simpl in Hlen; lia].
  - destruct s as [|c rest]; [constructor|]. simpl in Hlen. simpl.
    destruct (is_high_surrogate c) eqn:Hh.
    + destruct rest as [|c' rest'].
      * repeat constructor.
      * destruct (is_low_surrogate c').
        -- constructor; [trivial|]. constructor; [trivial|].
           apply IH. simpl in Hlen. lia.
        -- constructor; [reflexivity|]. apply IH. lia.
    + destruct (is_low_surrogate c).
      * constructor; [reflexivity|]. apply IH. lia.
      * constructor; [trivial|]. apply IH. lia.
Qed.

Lemma Forall2_rev_both {A B} (R : A -> B -> Prop) l k :
  Forall2 R l k -> Forall2 R (rev l) (rev k).
Proof.
  induction 1 as [|x y l k Hxy _ IH]; simpl; [constructor|].
  apply List.Forall2_app; [exact IH | repeat constructor; exact Hxy].
Qed.

Lemma starts_clean_units s t :
  Forall2 (fun a b => is_space a = false -> is_space b = false) s t ->
  starts_clean s = true -> starts_clean t = true.
Proof.
  intros [|a b l k Hab _]; [trivial|]. simpl. intros Ha.
  apply negb_true_iff in Ha. apply negb_true_iff. now apply Hab.
Qed.

(* What the column holds of a text that would pass as stored passes
   too. *)
Lemma utf8_stored_ok s : content_stored_ok s -> content_stored_ok (utf8_stored s).
Proof.
  intros (Hne & Hlen & Hstart & Hend).
  pose proof (utf8_stored_units (length s) s (le_n _)) as Hunits.
  pose proof (List.Forall2_length Hunits) as El.
  split; [|split; [lia|split]].
  - intros E. rewrite E in El. destruct s; [now apply Hne | discriminate].
  - exact (starts_clean_units _ _ Hunits Hstart).
  - exact (starts_clean_units _ _ (Forall2_rev_both _ _ _ Hunits) Hend).
Qed.

Lemma trim_stored_ok s :
  blank (Some s) = false ->
  (length s <= 1000)%nat ->
  content_stored_ok (utf8_stored (trim s)).
Proof.
  intros Hblank Hlen. unfold blank in Hblank.
  apply orb_false_iff in Hblank. destruct Hblank as [_ Hpos].
  apply Nat.eqb_neq in Hpos. pose proof (length_trim s) as Hle.
  apply utf8_stored_ok.
  split; [|split; [lia|split]].
  - intros E. rewrite E in Hpos. now apply Hpos.
  - unfold trim. apply trim_end_clean, trim_start_clean.
  - unfold trim. rewrite reverse_reverse. apply trim_start_clean.
Qed.

Lemma insert_comment_contents rid uid parent content d d' id :
  insert_review_comment rid uid parent content d = Some (d', id) ->
  content_stored_ok (utf8_stored content) ->
  contents_valid d -> contents_valid d'.
Proof.
  intros Hins Hok H c Hc.
  rewrite (proj1 (insert_review_comment_rows _ _ _ _ _ _ _ Hins)) in Hc.
  apply in_app_or in Hc. destruct Hc as [Hc | [<- | []]]; [exact (H c Hc) | exact Hok].
Qed.

Lemma create_comment_contents rid content req d :
  contents_valid d -> contents_valid (snd (create_comment rid content req d)).
Proof.
  intros H. unfold create_comment.
  destruct (user req) as [u|]; [|exact H].
  destruct (blank content) eqn:Hblank; [exact H|]. cbv zeta.
  destruct (Nat.ltb_spec 1000 (length (get_text content))) as [_|Hlen];
    [exact H|].
  destruct (reviews_by_id d rid) as [|rv rvs]; [exact H|].
  destruct (negb _); [exact H|].
  destruct (insert_review_comment _ _ _ _ d) as [[d' id]|] eqn:Hins; [|exact H].
  apply (insert_comment_contents _ _ _ _ _ _ _ Hins); [|exact H].
  destruct content as [s|]; [|discriminate]. now apply trim_stored_ok.
Qed.

Lemma reply_comment_contents pid content req d :
  contents_valid d -> contents_valid (snd (reply_comment pid content req d)).
Proof.
  intros H. unfold reply_comment.
  destruct (user req) as [u|]; [|exact H].
  destruct (blank content) eqn:Hblank; [exact H|]. cbv zeta.
  destruct (Nat.ltb_spec 1000 (length (get_text content))) as [_|Hlen];
    [exact H|].
  destruct (approved_parent_with_review d pid) as [|[pc rv] rest]; [exact H|].
  destruct (negb _); [exact H|].
  destruct (insert_review_comment _ _ _ _ d) as [[d' id]|] eqn:Hins; [|exact H].
  apply (insert_comment_contents _ _ _ _ _ _ _ Hins); [|exact H].
  destruct content as [s|]; [|discriminate]. now apply trim_stored_ok.
Qed.

Lemma delete_comment_contents cid req d :
  contents_valid d -> contents_valid (snd (delete_comment cid req d)).
Proof.
  intros H. unfold delete_comment.
  destruct (user req) as [u|]; [|exact H].
  destruct (comments_by_id d cid) as [|c0 cs0]; [exact H|].
  destruct (negb _ && negb _); [exact H|].
  destruct (0 <? count_replies d cid); [exact H|].
  simpl snd. intros c Hc. rewrite delete_review_comment_rows in Hc.
  apply filter_In in Hc. exact (H c (proj1 Hc)).
Qed.

(** X26: the comment routes store only trimmed, non-empty text of at most
    1000 UTF-16 code units, the unit in which content.length counts and
    the white space being what String.prototype.trim removes: if every
    stored comment has such a content, so it is after any sequence of
    comment, reply and comment-delete requests, whatever text they
    carry. *)
Theorem comment_contents_invariant (jwt_verify : string -> jwt_result)
        (ops : list comment_op) (d : db) :
  contents_valid d -> contents_valid (run_comment_ops jwt_verify ops d).
Proof.
  unfold run_comment_ops. revert d.
  induction ops as [|op ops IH]; intros d H; simpl; [exact H|].
  apply IH. destruct op as [rid content req | id content req | id req]; simpl;
    apply guard_preserves; try exact H; intros req'.
  - now apply create_comment_contents.
  - now apply reply_comment_contents.
  - now apply delete_comment_contents.
Qed.

End CommentContent.

Lemma comment_contents_invariant_witness :
  contents_valid Demo.store
  /\ contents_valid (run_comment_ops Demo.verify Demo.comment_ops Demo.store).
Proof.
  assert (H : contents_valid Demo.store).
  { intros c [<- | [<- | []]]; repeat split; simpl; try discriminate; lia. }
  split; [exact H|].
  exact (comment_contents_invariant Demo.verify Demo.comment_ops Demo.store H).
Defined.

(* The text is stored without the white space around it; a text of
   white space alone is refused, an ideographic space (U+3000) being
   white space like the others. *)
Example comment_trimmed :
  let bob := set_user (Some (req_user_of_row Demo.bob)) (Demo.as_token "bob") in
  map c_content
      (review_comments
         (snd (create_comment 10 (Some (units "  well said ")) bob Demo.store)))
  = [units "Agreed."; units "Thanks."; units "well said"]
  /\ fst (create_comment 10 (Some (units "   ")) bob Demo.store)
     = error_response 400 MsgCommentEmpty None
  /\ fst (create_comment 10 (Some [12288%N]) bob Demo.store)
     = error_response 400 MsgCommentEmpty None
  /\ map c_content
         (review_comments
            (snd (create_comment 10 (Some [12288; 22909; 12288]%N) bob Demo.store)))
     = [units "Agreed."; units "Thanks."; [22909%N]].
Proof. repeat split; reflexivity. Qed.

(* The limit counts code units, not bytes: 334 CJK characters, 1002 bytes
   in UTF-8, are accepted, and 1001 letters are refused. *)
Example comment_length_in_code_units :
  let bob := set_user (Some (req_user_of_row Demo.bob)) (Demo.as_token "bob") in
  status (fst (create_comment 10 (Some (repeat 22909%N 334)) bob Demo.store)) = 201
  /\ status (fst (create_comment 10 (Some (repeat 97%N 1000)) bob Demo.store)) = 201
  /\ fst (create_comment 10 (Some (repeat 97%N 1001)) bob Demo.store)
     = error_response 400 MsgCommentTooLong None.
Proof. vm_compute. repeat split; reflexivity. Qed.

(** ** Book statistics under changes of a review *)

Section StaleStatistics.

Lemma update_review_tables id body req d :
  books (snd (update_review id body req d)) = books d
  /\ users (snd (update_review id body req d)) = users d.
Proof.
  unfold update_review.
  destruct (user req) as [u|]; [|split; reflexivity]. cbv zeta.
  destruct (reviews_by_id d id) as [|review rest]; [split; reflexivity|].
  destruct (_ && _); [split; reflexivity|].
  destruct (match ub_rating body with Some _ => _ | None => false end);
    [split; reflexivity|].
  destruct (negb _); split; reflexivity.
Qed.

Lemma delete_review_tables id req d :
  books (snd (delete_review id req d)) = books d
  /\ users (snd (delete_review id req d)) = users d.
Proof.
  unfold delete_review.
  destruct (user req) as [u|]; [|split; reflexivity]. cbv zeta.
  destruct (reviews_by_id d id) as [|review rest]; [split; reflexivity|].
  destruct (_ && _); split; reflexivity.
Qed.

(** X27: only a new review refreshes the statistics of a book: a sequence
    of update, delete and view requests, however many ratings it changes
    and reviews it hides, leaves every book row (total_reviews and
    average_rating) and every user row as it was. *)
Theorem review_changes_leave_book_stats (ops : list review_op) (d : db) :
  forallb (fun op => negb (is_create op)) ops = true ->
  books (run_review_ops ops d) = books d
  /\ users (run_review_ops ops d) = users d.
Proof.
  unfold run_review_ops. revert d.
  induction ops as [|op ops IH]; intros d H; simpl; [split; reflexivity|].
  simpl in H. apply andb_true_iff in H. destruct H as [Hop Hops].
  destruct (IH (run_review_op d op) Hops) as [Eb Eu]. rewrite Eb, Eu.
  destruct op as [body req | id body req | id req | now id req]; simpl.
  - discriminate Hop.
  - apply update_review_tables.
  - apply delete_review_tables.
  - destruct (record_view_store now id req d) as (Hu & Hb & _). now split.
Qed.

End StaleStatistics.

Lemma review_changes_leave_book_stats_witness :
  let alice := set_user (Some (req_user_of_row Demo.alice)) (Demo.as_token "alice") in
  let ops := [ OpUpdateReview 10 (mkUpdateBody None None (Some 1)) alice;
               OpView 10000000 10 Demo.anonymous;
               OpDeleteReview 10 alice ] in
  books (run_review_ops ops Demo.store) = [Demo.book5]
  /\ users (run_review_ops ops Demo.store) = users Demo.store.
Proof.
  intros alice ops.
  exact (review_changes_leave_book_stats ops Demo.store eq_refl).
Defined.

(* alice lowers her rating of book 5 from 5 to 1: the book keeps its
   average of 5.00 although its only approved rating is now 1. *)
Example average_not_refreshed :
  let alice := set_user (Some (req_user_of_row Demo.alice)) (Demo.as_token "alice") in
  let d' := snd (update_review 10 (mkUpdateBody None None (Some 1)) alice Demo.store) in
  map b_average_rating (books d') = [500]
  /\ avg_rating (approved_ratings d' 5) = Some 100.
Proof. split; reflexivity. Qed.

(** ** Concrete runs of the limiter, the pagination and the routers *)

Lemma rate_limit_decision_witness :
  let m : gmap string (list Z) := <["203.0.113.9" := [500]]> ∅ in
  rateLimit 1 15 1000 "203.0.113.9" m
  = (LimitRespond 429 "RATE_LIMIT_EXCEEDED" 15, prune (1000 - 15 * 60 * 1000) m)
  /\ fst (rateLimit 2 15 1000 "203.0.113.9" m) = LimitNext
  /\ snd (rateLimit 2 15 1000 "203.0.113.9" m) !! "203.0.113.9" = Some [500; 1000].
Proof.
  intros m.
  assert (H : recent_count 15 1000 "203.0.113.9" m = 1) by (vm_compute; reflexivity).
  split.
  - apply (proj1 (rate_limit_decision 1 15 1000 "203.0.113.9" m)). rewrite H. lia.
  - apply (proj1 (proj2 (rate_limit_decision 2 15 1000 "203.0.113.9" m))).
    rewrite H. lia.
Defined.

Lemma pagination_bounds_witness :
  page_of None = 1 /\ limit_of (Some 0) = 20
  /\ Z.of_nat (length (page_rows [1; 2; 3] (page_of None) (limit_of (Some 0)))) <= 20.
Proof.
  destruct (pagination_bounds None (Some 0) [1; 2; 3])
    as (_ & _ & _ & Hlen & Hpage & Hlimit).
  split; [exact (Hpage eq_refl)|].
  split; [exact (Hlimit (or_intror eq_refl))|].
  rewrite (Hlimit (or_intror eq_refl)) in Hlen. exact Hlen.
Defined.

Lemma favorites_batch_never_runs_witness :
  exists m path, first_route favorites_table m path = Some FavStats.
Proof.
  apply (proj2 (proj2 favorites_batch_never_runs)). discriminate.
Defined.

Lemma comments_mine_never_runs_witness :
  exists m path, first_route comments_table m path = Some ComStats.
Proof.
  apply (proj2 (proj2 comments_mine_never_runs)). discriminate.
Defined.
